(** * Scheduling assistant: slots, booking, moderation, sweeps

    A shallow embedding of the booking core of the Telegram scheduling
    bot and the properties its specification states about it:
    - backend/services/calendar_service.py  (free slots)
    - backend/services/booking_service.py   (book_slot)
    - backend/db/models.py, backend/db/database.py
    - backend/handlers/sales_funnel.py      (text handler, moderation)
    - backend/handlers/onboarding_handlers.py
    - backend/scheduler/tasks.py            (reminder and completion sweeps)
    - backend/core/llm_service.py           (keyboard-layout retry)
    - backend/core/admin_notifications.py   (notices to the operators)
    - backend/utils/retry.py, backend/services/sheets_service.py,
      backend/keyboards/inline.py

    Conventions.
    - A [datetime] is a number of microseconds.  Aware datetimes are
      compared as instants.  The calendar service adds [timedelta]s to a
      pytz-aware [now] and calls [replace] on the result, which is
      arithmetic on the wall clock; there the number counts the wall
      clock of [now]'s zone.  Dates stay inside [datetime]'s range
      (years 1 to 9999): the [OverflowError] of date arithmetic at its
      ends is not modelled.
    - A Python [str] the code inspects character by character is the
      list of its code points ([Text]); other text is a [string].
    - A call that leaves the process (database session, Google API,
      Telegram) is answered by an oracle which also says whether the
      call raised; what the call changed outside is appended to a log.
    - database.py opens its sessions through [_get_session_factory],
      which creates the factory on first use whenever [DATABASE_URL] is
      set.  tasks.py calls the copy of [async_session_factory] it
      imported by name, which is [None]. *)

From Stdlib Require Import ZArith NArith List Bool Lia String.
Import ListNotations.
Open Scope Z_scope.

(* ================================================================== *)
(** ** datetime, timedelta *)
(* ================================================================== *)

Module Time.

Definition US_PER_SECOND : Z := 1000000.
Definition US_PER_MINUTE : Z := 60 * US_PER_SECOND.
Definition US_PER_HOUR : Z := 60 * US_PER_MINUTE.
Definition US_PER_DAY : Z := 24 * US_PER_HOUR.

(** [timedelta(days=d, hours=h, minutes=m)] *)
Definition timedelta (d h m : Z) : Z :=
  d * US_PER_DAY + h * US_PER_HOUR + m * US_PER_MINUTE.

Definition day_floor (t : Z) : Z := US_PER_DAY * (t / US_PER_DAY).
Definition hour_of (t : Z) : Z := (t mod US_PER_DAY) / US_PER_HOUR.
Definition minute_of (t : Z) : Z := (t mod US_PER_HOUR) / US_PER_MINUTE.
Definition second_of (t : Z) : Z := (t mod US_PER_MINUTE) / US_PER_SECOND.
Definition microsecond_of (t : Z) : Z := t mod US_PER_SECOND.

Definition in_range (lo hi v : Z) : bool := (lo <=? v) && (v <=? hi).

Definition field (given : option Z) (current : Z) : Z :=
  match given with Some v => v | None => current end.

(** [dt.replace(hour=.., minute=.., second=.., microsecond=..)]: a field
    left out keeps its value; [None] is the [ValueError] of a field out
    of range. *)
Definition replace (t : Z) (hour minute second microsecond : option Z)
  : option Z :=
  let h := field hour (hour_of t) in
  let m := field minute (minute_of t) in
  let s := field second (second_of t) in
  let u := field microsecond (microsecond_of t) in
  if in_range 0 23 h && in_range 0 59 m && in_range 0 59 s
     && in_range 0 999999 u
  then Some (day_floor t + h * US_PER_HOUR + m * US_PER_MINUTE
             + s * US_PER_SECOND + u)
  else None.

End Time.

(* ================================================================== *)
(** ** backend/config.py *)
(* ================================================================== *)

Module Config.

Record t := {
  START_HOUR : Z;
  END_HOUR : Z;
  SLOT_DURATION : Z;          (* minutes *)
  DATABASE_URL : bool;        (* whether the variable is set *)
}.

(** The values taken when the environment sets none of them; the
    database URL has no default. *)
Definition defaults (database_url : bool) : t :=
  {| START_HOUR := 9; END_HOUR := 18; SLOT_DURATION := 60;
     DATABASE_URL := database_url |}.

End Config.

(* ================================================================== *)
(** ** backend/services/calendar_service.py *)
(* ================================================================== *)

Module Calendar.
Import Time.

(** The ['start'] and ['end'] entries of a busy slot or of a free slot.
    The other entries of a free slot (['day'], ['time'],
    ['datetime_start'], ['datetime_end']) are renderings of these two. *)
Record Slot := { start : Z; end_ : Z }.

(** The call [get_busy_slots(start_time, end_time)]; [None] when it
    raises after its retries. *)
Definition Provider := Z -> Z -> option (list Slot).

(** [current_slot < busy['end'] and slot_end > busy['start']] *)
Definition overlaps (current_slot slot_end : Z) (busy : Slot) : bool :=
  (current_slot <? end_ busy) && (slot_end >? start busy).

(** The [for busy in busy_slots: ... is_busy = True; break] scan. *)
Fixpoint is_busy (busy_slots : list Slot) (current_slot slot_end : Z)
  : bool :=
  match busy_slots with
  | [] => false
  | busy :: rest =>
      if overlaps current_slot slot_end busy then true
      else is_busy rest current_slot slot_end
  end.

(** [slot_interval = timedelta(minutes=30)] *)
Definition slot_interval : Z := timedelta 0 0 30.

(** The [while current_slot < end_of_day] loop of one day; [fuel] bounds
    the number of iterations. *)
Fixpoint scan_slots (fuel : nat) (busy_slots : list Slot)
         (end_of_day slot_duration current_slot : Z) : list Slot :=
  match fuel with
  | O => []
  | S fuel' =>
      if current_slot <? end_of_day then
        let slot_end := current_slot + timedelta 0 0 slot_duration in
        if slot_end >? end_of_day then []
        else
          let rest := scan_slots fuel' busy_slots end_of_day slot_duration
                                 (current_slot + slot_interval) in
          if is_busy busy_slots current_slot slot_end then rest
          else {| start := current_slot; end_ := slot_end |} :: rest
      else []
  end.

(** One more than the number of whole intervals between [current_day]
    and [end_of_day]: the loop makes no more iterations than that. *)
Definition scan_fuel (current_day end_of_day : Z) : nat :=
  S (Z.to_nat ((end_of_day - current_day) / slot_interval)).

Definition day_free_slots (busy_slots : list Slot)
           (current_day end_of_day slot_duration : Z) : list Slot :=
  scan_slots (scan_fuel current_day end_of_day) busy_slots end_of_day
             slot_duration current_day.

(** [x or default] on an optional int. *)
Definition or_default (x : option Z) (default : Z) : Z :=
  match x with
  | Some v => if v =? 0 then default else v
  | None => default
  end.

(** [range(start_offset, start_offset + days)] *)
Definition day_offsets (start_offset days : Z) : list Z :=
  map (fun i => start_offset + Z.of_nat i) (seq 0 (Z.to_nat days)).

(** The [for day_offset in ...] loop over the remaining offsets; [None]
    is the [ValueError] of [replace]. *)
Fixpoint days_loop (get_busy_slots : Provider) (now : Z)
         (start_hour end_hour slot_duration : Z) (offsets : list Z)
  : option (list Slot) :=
  match offsets with
  | [] => Some []
  | day_offset :: rest =>
      match replace (now + timedelta day_offset 0 0)
                    (Some start_hour) (Some 0) (Some 0) (Some 0) with
      | None => None
      | Some current_day =>
          match replace current_day (Some end_hour) (Some 0) None None with
          | None => None
          | Some end_of_day =>
              let found :=
                match get_busy_slots current_day end_of_day with
                | None => []          (* logged, [continue] *)
                | Some busy_slots =>
                    day_free_slots busy_slots current_day end_of_day
                                   slot_duration
                end in
              match days_loop get_busy_slots now start_hour end_hour
                              slot_duration rest with
              | None => None
              | Some later => Some (found ++ later)
              end
          end
      end
  end.

Definition get_free_slots (config : Config.t) (get_busy_slots : Provider)
           (now : Z) (days : Z) (start_hour end_hour : option Z)
           (skip_today : bool) : option (list Slot) :=
  let start_hour := or_default start_hour (Config.START_HOUR config) in
  let end_hour := or_default end_hour (Config.END_HOUR config) in
  let slot_duration := Config.SLOT_DURATION config in
  let start_offset := if skip_today then 1 else 0 in
  days_loop get_busy_slots now start_hour end_hour slot_duration
            (day_offsets start_offset days).

End Calendar.

(* ================================================================== *)
(** ** backend/db/models.py *)
(* ================================================================== *)

(** Text the code inspects character by character. *)
Definition Text := list N.

Inductive OnboardingStep :=
| NOT_STARTED | PARENT_DATA | CHILDREN_COUNT | CHILDREN_DATA | CONFIRMATION
| ONBOARDING_COMPLETED.

Inductive TrialLessonStatus := PLANNED | COMPLETED | CANCELLED | NO_SHOW.

Definition TrialLessonStatus_eqb (a b : TrialLessonStatus) : bool :=
  match a, b with
  | PLANNED, PLANNED | COMPLETED, COMPLETED
  | CANCELLED, CANCELLED | NO_SHOW, NO_SHOW => true
  | _, _ => false
  end.

(** A value of the JSON column [user_data] and of the answers kept in
    the FSM storage. *)
Inductive Json := JNull | JStr (s : string) | JInt (n : Z).

Definition Dict := list (string * Json).

Module Parent.
Record t := {
  id : Z;
  telegram_id : Z;
  username : option string;
  full_name : option string;
  phone : option string;
  email : option string;
  onboarding_step : OnboardingStep;
  onboarding_started_at : option Z;
  onboarding_completed_at : option Z;
  is_enrolled : bool;
  is_blocked : bool;
  irrelevant_count : Z;
  user_data : option Dict;
}.
End Parent.

Module Child.
Record t := {
  id : Z;
  parent_id : Z;
  name : string;
  age : Z;
  interests : option string;
  course_name : option string;
  lessons_count : option Z;
}.
End Child.

Module TrialLesson.
Record t := {
  id : Z;
  parent_id : Z;
  child_id : Z;
  event_id : option Z;              (* BigInteger, nullable *)
  scheduled_at : Z;                 (* naive UTC *)
  status : TrialLessonStatus;
  course_name : option string;
  notes : option string;
  reminder_24h_sent : bool;
  reminder_1h_sent : bool;
  reminder_10min_sent : bool;
}.

Definition with_status (s : TrialLessonStatus) (l : t) : t :=
  {| id := id l; parent_id := parent_id l; child_id := child_id l;
     event_id := event_id l; scheduled_at := scheduled_at l; status := s;
     course_name := course_name l; notes := notes l;
     reminder_24h_sent := reminder_24h_sent l;
     reminder_1h_sent := reminder_1h_sent l;
     reminder_10min_sent := reminder_10min_sent l |}.

Definition with_reminder_24h_sent (b : bool) (l : t) : t :=
  {| id := id l; parent_id := parent_id l; child_id := child_id l;
     event_id := event_id l; scheduled_at := scheduled_at l;
     status := status l; course_name := course_name l; notes := notes l;
     reminder_24h_sent := b;
     reminder_1h_sent := reminder_1h_sent l;
     reminder_10min_sent := reminder_10min_sent l |}.

Definition with_reminder_1h_sent (b : bool) (l : t) : t :=
  {| id := id l; parent_id := parent_id l; child_id := child_id l;
     event_id := event_id l; scheduled_at := scheduled_at l;
     status := status l; course_name := course_name l; notes := notes l;
     reminder_24h_sent := reminder_24h_sent l;
     reminder_1h_sent := b;
     reminder_10min_sent := reminder_10min_sent l |}.
End TrialLesson.

Module DialogHistory.
Inductive Role := user | assistant.
Record t := { parent_id : Z; role : Role; message : Text }.
End DialogHistory.

(** The tables, with the next value of each primary-key sequence. *)
Record Database := {
  parents : list Parent.t;
  children : list Child.t;
  trial_lessons : list TrialLesson.t;
  dialog_history : list DialogHistory.t;
  next_parent_id : Z;
  next_child_id : Z;
  next_lesson_id : Z;
}.

(* ================================================================== *)
(** ** Effects: exceptions, the outside world, sequencing *)
(* ================================================================== *)

Module Io.

Inductive Exn :=
| TypeError            (* calling a session factory that is [None] *)
| SQLAlchemyError      (* a statement or the commit of a session failed *)
| HttpError            (* a Google API request failed after its retries *)
| TelegramError        (* [send_message] / [answer] failed *)
| RenderError          (* building a message text failed *)
| AttributeError.      (* an attribute of [None] *)

(** [str(e)] *)
Definition str (e : Exn) : string :=
  match e with
  | TypeError => "'NoneType' object is not callable"
  | SQLAlchemyError => "SQLAlchemyError"
  | HttpError => "HttpError"
  | TelegramError => "TelegramError"
  | RenderError => "RenderError"
  | AttributeError => "'NoneType' object has no attribute 'id'"
  end.

(** The fixed texts the bot answers with, and the two kinds of answer
    whose text comes from a collaborator. *)
Inductive Reply :=
| OnboardingInvite | SoftNudge | HandoffOffer | BlockedHandoff
| TemplateAnswer (response : Text)
| Apology | OnboardingDone.

Inductive Reminder := Reminder24h | Reminder1h.

(** The lines of an event description, before they are joined. *)
Inductive DescriptionPart :=
| TrialLessonHeader
| UserIdLine (user_id : Z)
| NameLine (user_name : string)
| TelegramLine (user_contact : string)
| PhoneLine (user_phone : string).

(** What a run leaves outside the process, oldest first: calendar and
    sheet requests that went through, calendar reads, Telegram messages
    delivered, calls of [notify_admin_of_block] and
    [notify_admin_on_error] (what reaches the operators from a call is
    [AdminNotifications._send_to_admins]), FSM storage resets. *)
Inductive Effect :=
| CalendarDelete (event_id : string)
| CalendarList (start_time end_time : Z)
| CalendarInsert (start_time end_time : Z)
                 (description : list DescriptionPart)
| SheetsAddBooking (event_id : option string) (status : string)
| Answer (chat_id : Z) (reply : Reply)
| ReminderMessage (chat_id : Z) (lesson_id : Z) (when : Reminder)
| NotifyAdminOfBlock (user_id : Z) (history : list DialogHistory.t)
| NotifyAdminOnError (user_id : Z)
| FsmClear (user_id : Z).

Record World := { db : Database; effects : list Effect }.

Inductive Outcome (A : Type) :=
| Return (a : A)
| Raise (e : Exn).
Arguments Return {A} a.
Arguments Raise {A} e.

Definition M (A : Type) : Type := World -> Outcome A * World.

Definition ret {A} (a : A) : M A := fun w => (Return a, w).
Definition raise {A} (e : Exn) : M A := fun w => (Raise e, w).
Definition bind {A B} (m : M A) (k : A -> M B) : M B :=
  fun w => match m w with
           | (Return a, w') => k a w'
           | (Raise e, w') => (Raise e, w')
           end.

(** [try: m  except Exception as e: handler e] *)
Definition try_except {A} (m : M A) (handler : Exn -> M A) : M A :=
  fun w => match m w with
           | (Return a, w') => (Return a, w')
           | (Raise e, w') => handler e w'
           end.

Definition emit (e : Effect) : M unit :=
  fun w => (Return tt, {| db := db w; effects := effects w ++ [e] |}).
Definition get_db : M Database := fun w => (Return (db w), w).

(** [for x in xs: body x] *)
Fixpoint for_each {A} (xs : list A) (body : A -> M unit) : M unit :=
  match xs with
  | [] => ret tt
  | x :: rest => bind (body x) (fun _ => for_each rest body)
  end.

Definition when (c : bool) (m : M unit) : M unit := if c then m else ret tt.

End Io.

Declare Scope io_scope.
Delimit Scope io_scope with io.
Notation "x <- m ;; k" := (Io.bind m (fun x => k))
  (at level 61, m at next level, right associativity) : io_scope.
Notation "m ;; k" := (Io.bind m (fun _ => k))
  (at level 61, right associativity) : io_scope.

(* ================================================================== *)
(** ** backend/db/database.py *)
(* ================================================================== *)

Module Db.
Import Io.
Local Open Scope io_scope.

(** The functions that open a session, to say which of them fails. *)
Inductive Op :=
| OpIncrementIrrelevantCount | OpGetOrCreateParent | OpBlockUser
| OpAddChildProfile | OpGetChildren | OpSaveDialog | OpLoadDialog
| OpAddTrialLesson | OpGetFullParentData | OpUnblockAndReset
| OpCompleteOnboarding | OpMarkLessonCompleted
| OpSelectLessons | OpUpdateReminderFlags.

(** [Parent(telegram_id=.., username=.., ...)] with the column defaults
    for what is left out. *)
Definition new_parent (id telegram_id : Z) (username : option string)
           (irrelevant_count : Z) (user_data : option Dict) : Parent.t :=
  {| Parent.id := id; Parent.telegram_id := telegram_id;
     Parent.username := username; Parent.full_name := None;
     Parent.phone := None; Parent.email := None;
     Parent.onboarding_step := NOT_STARTED;
     Parent.onboarding_started_at := None;
     Parent.onboarding_completed_at := None;
     Parent.is_enrolled := false; Parent.is_blocked := false;
     Parent.irrelevant_count := irrelevant_count;
     Parent.user_data := user_data |}.

(** [.values(is_blocked=b, irrelevant_count=n)]; a column left out keeps
    its value. *)
Definition set_moderation (blocked : option bool) (count : option Z)
           (p : Parent.t) : Parent.t :=
  {| Parent.id := Parent.id p; Parent.telegram_id := Parent.telegram_id p;
     Parent.username := Parent.username p;
     Parent.full_name := Parent.full_name p;
     Parent.phone := Parent.phone p; Parent.email := Parent.email p;
     Parent.onboarding_step := Parent.onboarding_step p;
     Parent.onboarding_started_at := Parent.onboarding_started_at p;
     Parent.onboarding_completed_at := Parent.onboarding_completed_at p;
     Parent.is_enrolled := Parent.is_enrolled p;
     Parent.is_blocked :=
       match blocked with Some b => b | None => Parent.is_blocked p end;
     Parent.irrelevant_count :=
       match count with Some n => n | None => Parent.irrelevant_count p end;
     Parent.user_data := Parent.user_data p |}.

(** The [.values(...)] of [complete_onboarding_in_db]. *)
Definition set_onboarding_completed (dt_naive : Z)
           (full_name phone email : option string) (user_data : Dict)
           (p : Parent.t) : Parent.t :=
  {| Parent.id := Parent.id p; Parent.telegram_id := Parent.telegram_id p;
     Parent.username := Parent.username p;
     Parent.full_name := full_name;
     Parent.phone := phone; Parent.email := email;
     Parent.onboarding_step := ONBOARDING_COMPLETED;
     Parent.onboarding_started_at := Parent.onboarding_started_at p;
     Parent.onboarding_completed_at := Some dt_naive;
     Parent.is_enrolled := Parent.is_enrolled p;
     Parent.is_blocked := Parent.is_blocked p;
     Parent.irrelevant_count := Parent.irrelevant_count p;
     Parent.user_data := Some user_data |}.

(** [UPDATE ... WHERE cond] with the new values [f]. *)
Definition update_where {A} (cond : A -> bool) (f : A -> A)
           (rows : list A) : list A :=
  map (fun r => if cond r then f r else r) rows.

Definition set_parents (ps : list Parent.t) (d : Database) : Database :=
  {| parents := ps; children := children d;
     trial_lessons := trial_lessons d;
     dialog_history := dialog_history d;
     next_parent_id := next_parent_id d;
     next_child_id := next_child_id d;
     next_lesson_id := next_lesson_id d |}.

Definition set_trial_lessons (ls : list TrialLesson.t) (d : Database)
  : Database :=
  {| parents := parents d; children := children d;
     trial_lessons := ls;
     dialog_history := dialog_history d;
     next_parent_id := next_parent_id d;
     next_child_id := next_child_id d;
     next_lesson_id := next_lesson_id d |}.

(** [session.add(row); commit]: the row gets the next key. *)
Definition insert_parent (mk : Z -> Parent.t) (d : Database)
  : Parent.t * Database :=
  let p := mk (next_parent_id d) in
  (p, {| parents := parents d ++ [p]; children := children d;
         trial_lessons := trial_lessons d;
         dialog_history := dialog_history d;
         next_parent_id := next_parent_id d + 1;
         next_child_id := next_child_id d;
         next_lesson_id := next_lesson_id d |}).

Definition insert_child (mk : Z -> Child.t) (d : Database)
  : Child.t * Database :=
  let c := mk (next_child_id d) in
  (c, {| parents := parents d; children := children d ++ [c];
         trial_lessons := trial_lessons d;
         dialog_history := dialog_history d;
         next_parent_id := next_parent_id d;
         next_child_id := next_child_id d + 1;
         next_lesson_id := next_lesson_id d |}).

Definition insert_lesson (mk : Z -> TrialLesson.t) (d : Database)
  : TrialLesson.t * Database :=
  let l := mk (next_lesson_id d) in
  (l, {| parents := parents d; children := children d;
         trial_lessons := trial_lessons d ++ [l];
         dialog_history := dialog_history d;
         next_parent_id := next_parent_id d;
         next_child_id := next_child_id d;
         next_lesson_id := next_lesson_id d + 1 |}).

Definition insert_dialog (e : DialogHistory.t) (d : Database) : Database :=
  {| parents := parents d; children := children d;
     trial_lessons := trial_lessons d;
     dialog_history := dialog_history d ++ [e];
     next_parent_id := next_parent_id d;
     next_child_id := next_child_id d;
     next_lesson_id := next_lesson_id d |}.

(** [select(Parent).where(Parent.telegram_id == user_id)] *)
Definition parent_by_telegram_id (d : Database) (user_id : Z)
  : option Parent.t :=
  find (fun p => Parent.telegram_id p =? user_id) (parents d).

(** The dict returned by [get_full_parent_data]: the keys the handlers
    read. *)
Module Profile.
Record t := {
  id : option Z;
  is_blocked : bool;
  onboarding_completed_at : option Z;
  user_data : Dict;
}.
End Profile.

Definition profile_of (p : Parent.t) : Profile.t :=
  {| Profile.id := Some (Parent.id p);
     Profile.is_blocked := Parent.is_blocked p;
     Profile.onboarding_completed_at := Parent.onboarding_completed_at p;
     Profile.user_data :=
       match Parent.user_data p with Some u => u | None => [] end |}.

(** [entries[-limit:]] *)
Definition last_entries {A} (limit : nat) (l : list A) : list A :=
  skipn (List.length l - limit) l.

(** Datetimes are instants here, so converting to UTC and dropping the
    zone leaves the number as it is. *)
Definition to_utc_naive (dt : Z) : Z := dt.

Section Session.
Variable config : Config.t.
(** Whether the session of an operation raises. *)
Variable fails : Op -> bool.

(** [async with session_factory() as session: ...]: what the body wrote
    is kept when its commit goes through, and none of it when the
    session raises.  Without [DATABASE_URL] the factory is [None] and
    calling it raises. *)
Definition session {A} (op : Op) (body : Database -> A * Database)
  : M A :=
  fun w =>
    if negb (Config.DATABASE_URL config) then (Raise TypeError, w)
    else if fails op then (Raise SQLAlchemyError, w)
    else let (a, d) := body (db w) in
         (Return a, {| db := d; effects := effects w |}).

Definition increment_irrelevant_count (user_id : Z)
           (username : option string) : M Z :=
  if negb (Config.DATABASE_URL config) then ret 0
  else
    session OpIncrementIrrelevantCount (fun d =>
      match parent_by_telegram_id d user_id with
      | Some parent =>
          let new_count := Parent.irrelevant_count parent + 1 in
          (new_count,
           set_parents
             (update_where (fun p => Parent.id p =? Parent.id parent)
                           (set_moderation None (Some new_count))
                           (parents d)) d)
      | None =>
          let (parent, d') :=
            insert_parent
              (fun id => new_parent id user_id username 1 (Some [])) d in
          (Parent.irrelevant_count parent, d')
      end).

Definition get_or_create_parent (telegram_id : Z)
           (username : option string) : M (option Parent.t) :=
  if negb (Config.DATABASE_URL config) then ret None
  else
    session OpGetOrCreateParent (fun d =>
      match parent_by_telegram_id d telegram_id with
      | Some parent => (Some parent, d)
      | None =>
          let (new, d') :=
            insert_parent
              (fun id => new_parent id telegram_id username 0 None) d in
          (Some new, d')
      end).

(** [parent_id] is [user_profile.get('id')], possibly [None]; no row has
    a NULL key. *)
Definition block_user (parent_id : option Z) : M unit :=
  session OpBlockUser (fun d =>
    (tt,
     set_parents
       (update_where
          (fun p => match parent_id with
                    | Some id => Parent.id p =? id
                    | None => false
                    end)
          (set_moderation (Some true) None) (parents d)) d)).

(** The answer is [result.rowcount > 0]. *)
Definition unblock_and_reset (telegram_id : Z) : M bool :=
  session OpUnblockAndReset (fun d =>
    let matches := fun p => Parent.telegram_id p =? telegram_id in
    (existsb matches (parents d),
     set_parents
       (update_where matches (set_moderation (Some false) (Some 0))
                     (parents d)) d)).

Definition add_child_profile (parent_id : Z) (name : string) (age : Z)
           (interests course_name : option string)
           (lessons_count : option Z) : M Child.t :=
  session OpAddChildProfile
    (insert_child (fun id =>
       {| Child.id := id; Child.parent_id := parent_id;
          Child.name := name; Child.age := age;
          Child.interests := interests;
          Child.course_name := course_name;
          Child.lessons_count := lessons_count |})).

Definition get_children (parent_id : Z) : M (list Child.t) :=
  session OpGetChildren (fun d =>
    (filter (fun c => Child.parent_id c =? parent_id) (children d), d)).

Definition save_dialog (parent_id : Z) (role : DialogHistory.Role)
           (message : Text) : M unit :=
  if negb (Config.DATABASE_URL config) then ret tt
  else
    session OpSaveDialog (fun d =>
      (tt, insert_dialog
             {| DialogHistory.parent_id := parent_id;
                DialogHistory.role := role;
                DialogHistory.message := message |} d)).

(** The last 20 entries of the parent, oldest first. *)
Definition load_dialog (parent_id : Z) : M (list DialogHistory.t) :=
  if negb (Config.DATABASE_URL config) then ret []
  else
    session OpLoadDialog (fun d =>
      (last_entries 20
         (filter (fun e => DialogHistory.parent_id e =? parent_id)
                 (dialog_history d)), d)).

(** [event_id] is what [book_slot] hands over: the id of the Google
    event, a [str], or [None].  The column is a [BigInteger]: the driver
    (asyncpg) refuses to bind a [str] to it, so with an id the INSERT
    raises at the commit and the session writes nothing. *)
Definition add_trial_lesson (parent_id child_id : Z)
           (event_id : option string) (scheduled_at : Z)
           (course_name notes : option string) : M TrialLesson.t :=
  let scheduled_at_naive_utc := to_utc_naive scheduled_at in
  stored <-
    session OpAddTrialLesson (fun d =>
      match event_id with
      | Some _ => (None, d)
      | None =>
          let (lesson, d') :=
            insert_lesson (fun id =>
              {| TrialLesson.id := id; TrialLesson.parent_id := parent_id;
                 TrialLesson.child_id := child_id;
                 TrialLesson.event_id := None;
                 TrialLesson.scheduled_at := scheduled_at_naive_utc;
                 TrialLesson.status := PLANNED;
                 TrialLesson.course_name := course_name;
                 TrialLesson.notes := notes;
                 TrialLesson.reminder_24h_sent := false;
                 TrialLesson.reminder_1h_sent := false;
                 TrialLesson.reminder_10min_sent := false |}) d in
          (Some lesson, d')
      end) ;;
  match stored with
  | Some lesson => ret lesson
  | None => raise SQLAlchemyError
  end.

Definition get_full_parent_data (user_id : Z) (username : option string)
  : M (option Profile.t) :=
  if negb (Config.DATABASE_URL config) then ret None
  else
    session OpGetFullParentData (fun d =>
      match parent_by_telegram_id d user_id with
      | None =>
          let (parent, d') :=
            insert_parent
              (fun id => new_parent id user_id username 0 None) d in
          (Some (profile_of parent), d')
      | Some parent => (Some (profile_of parent), d)
      end).

(** [now] is [datetime.now(timezone.utc)] without its zone. *)
Definition complete_onboarding_in_db (now : Z) (parent_id : Z)
           (full_name phone email : option string) (user_data : Dict)
  : M unit :=
  session OpCompleteOnboarding (fun d =>
    (tt,
     set_parents
       (update_where (fun p => Parent.id p =? parent_id)
          (set_onboarding_completed now full_name phone email user_data)
          (parents d)) d)).

(** The statement runs on the caller's session; a failure is rolled
    back and answered with [None]. *)
Definition mark_lesson_completed (lesson_id : Z)
  : M (option TrialLesson.t) :=
  try_except
    (session OpMarkLessonCompleted (fun d =>
       let hit := fun l => TrialLesson.id l =? lesson_id in
       let updated :=
         update_where hit (TrialLesson.with_status COMPLETED)
                      (trial_lessons d) in
       (find hit updated, set_trial_lessons updated d)))
    (fun _ => ret None).

End Session.

End Db.

(* ================================================================== *)
(** ** backend/services/booking_service.py *)
(* ================================================================== *)

Module Booking.
Import Io Calendar.
Local Open Scope io_scope.

(** The truth value of an optional [str] and of an optional [int]. *)
Definition truthy_str (s : option string) : bool :=
  match s with Some s => negb (String.eqb s "") | None => false end.
Definition truthy_int (n : option Z) : bool :=
  match n with Some n => negb (n =? 0) | None => false end.

(** What [create_event] returns, as far as [book_slot] reads it. *)
Record CalendarEvent := { id : option string; htmlLink : string }.

(** The dict [book_slot] returns: the one with ['success': True] and
    the one with ['success': False] and ['error']. *)
Inductive BookingResult :=
| Booked (event_id : option string) (html_link : string)
         (start end_ : Z) (cancelled_event_id : option string)
         (lesson_id : option Z)
| NotBooked (error : string).

Definition success (r : BookingResult) : bool :=
  match r with Booked _ _ _ _ _ _ => true | NotBooked _ => false end.
Definition lesson_id (r : BookingResult) : option Z :=
  match r with Booked _ _ _ _ _ l => l | NotBooked _ => None end.

(** [description_parts], before the join. *)
Definition description_parts (user_id : option Z)
           (user_name user_contact user_phone : string)
  : list DescriptionPart :=
  [TrialLessonHeader]
  ++ (if truthy_int user_id
      then match user_id with
           | Some id => [UserIdLine id] | None => [] end
      else [])
  ++ (if String.eqb user_name "" then [] else [NameLine user_name])
  ++ (if String.eqb user_contact "" then [] else [TelegramLine user_contact])
  ++ (if String.eqb user_phone "" then [] else [PhoneLine user_phone]).

(** The error of a slot found busy, "the slot is already taken". *)
Definition SLOT_TAKEN : string := "Слот уже занят".
Definition CHILD_PLACEHOLDER : string := "Ребенок".
Definition STATUS_CREATED : string := "Создана".
Definition STATUS_RESCHEDULED : string := "Перенесена".

Section BookingService.
Variable config : Config.t.
Variable fails : Db.Op -> bool.
(** The calendar service: [delete_event] answers [True] or [False];
    [get_busy_slots] and [create_event] answer or raise ([None]). *)
Variable delete_event : string -> bool.
Variable get_busy_slots : Provider.
Variable create_event :
  Z -> Z -> list DescriptionPart -> option CalendarEvent.
(** The sheets service, when it was initialised; [add_booking] with a
    status answers a flag or raises ([None]). *)
Variable sheets_service : option (string -> option bool).

(** The [for busy in busy_slots] of [is_slot_available]. *)
Fixpoint slot_is_clear (busy_slots : list Slot)
         (start_time end_time : Z) : bool :=
  match busy_slots with
  | [] => true
  | busy :: rest =>
      if (start_time <? Calendar.end_ busy)
         && (end_time >? Calendar.start busy)
      then false
      else slot_is_clear rest start_time end_time
  end.

Definition is_slot_available (start_time end_time : Z) : M bool :=
  emit (CalendarList start_time end_time) ;;
  match get_busy_slots start_time end_time with
  | Some busy_slots => ret (slot_is_clear busy_slots start_time end_time)
  | None => ret false
  end.

Definition add_booking (event_id : option string) (status : string)
  : M bool :=
  match sheets_service with
  | None => raise TypeError
  | Some add =>
      match add status with
      | None => raise HttpError
      | Some true => emit (SheetsAddBooking event_id status) ;; ret true
      | Some false => ret false
      end
  end.

(** The body of the [try] that stores the lesson. *)
Definition save_lesson (start_time : Z) (user_name user_contact : string)
           (user_id : Z) (event_id : option string)
           (child_id : option Z) (course_name notes : option string)
  : M (option Z) :=
  parent <- Db.get_or_create_parent config fails user_id
                                    (Some user_contact) ;;
  child_id <-
    match parent with
    | None => ret None
    | Some parent =>
        if negb (truthy_int child_id) then
          children <- Db.get_children config fails (Parent.id parent) ;;
          match children with
          | first :: _ => ret (Some (Child.id first))
          | [] =>
              child <- Db.add_child_profile config fails
                         (Parent.id parent)
                         (if String.eqb user_name ""
                          then CHILD_PLACEHOLDER else user_name)
                         0 (Some ""%string) course_name (Some 0) ;;
              ret (Some (Child.id child))
          end
        else ret child_id
    end ;;
  match parent, truthy_int child_id, child_id with
  | Some parent, true, Some child_id =>
      lesson <- Db.add_trial_lesson config fails (Parent.id parent)
                  child_id event_id start_time course_name notes ;;
      ret (Some (TrialLesson.id lesson))
  | _, _, _ => ret None
  end.

Definition book_slot (start_time end_time : Z)
           (user_name user_contact user_phone : string)
           (user_id : option Z) (cancel_event_id : option string)
           (child_id : option Z) (course_name notes : option string)
  : M BookingResult :=
  try_except
    (cancelled_event <-
       (if truthy_str cancel_event_id then
          match cancel_event_id with
          | Some id =>
              if delete_event id
              then emit (CalendarDelete id) ;; ret (Some id)
              else ret None
          | None => ret None
          end
        else ret None) ;;
     available <- is_slot_available start_time end_time ;;
     if negb available then ret (NotBooked SLOT_TAKEN)
     else
       let description :=
         description_parts user_id user_name user_contact user_phone in
       event <-
         match create_event start_time end_time description with
         | Some event =>
             emit (CalendarInsert start_time end_time description) ;;
             ret event
         | None => raise HttpError
         end ;;
       let event_id := id event in
       let event_link := htmlLink event in
       match sheets_service with
       | Some _ =>
           try_except
             (_ <- add_booking event_id
                     (if truthy_str cancel_event_id
                      then STATUS_RESCHEDULED else STATUS_CREATED) ;;
              ret tt)
             (fun _ => ret tt)
       | None => ret tt
       end ;;
       lesson_id <-
         (if truthy_int user_id then
            match user_id with
            | Some uid =>
                try_except
                  (save_lesson start_time user_name user_contact uid
                               event_id child_id course_name notes)
                  (fun _ => ret None)
            | None => ret None
            end
          else ret None) ;;
       ret (Booked event_id event_link start_time end_time
                   cancelled_event lesson_id))
    (fun e => ret (NotBooked (str e))).

End BookingService.

End Booking.

(* ================================================================== *)
(** ** backend/core/llm_service.py *)
(* ================================================================== *)

Module Llm.
Local Open Scope N_scope.

(** The keys of the English layout, [q w e r t y u i o p [ ] a s ...],
    and the Russian letters on the same keys, U+0439 U+0446 U+0443 ... *)
Definition eng : Text :=
  [113; 119; 101; 114; 116; 121; 117; 105; 111; 112; 91; 93; 97; 115;
   100; 102; 103; 104; 106; 107; 108; 59; 39; 122; 120; 99; 118; 98;
   110; 109; 44; 46].

Definition rus : Text :=
  [1081; 1094; 1091; 1082; 1077; 1085; 1075; 1096; 1097; 1079; 1093;
   1098; 1092; 1099; 1074; 1072; 1087; 1088; 1086; 1083; 1076; 1078;
   1101; 1103; 1095; 1089; 1084; 1080; 1090; 1100; 1073; 1102].

Definition between (lo hi c : N) : bool := (lo <=? c) && (c <=? hi).

(** [str.upper] on the characters of [eng] and [rus]: a-z and the
    lower-case Russian letters move 32 places down, the punctuation
    stays. *)
Definition upper_char (c : N) : N :=
  if between 97 122 c || between 1072 1103 c then c - 32 else c.
Definition upper (t : Text) : Text := map upper_char t.

(** [str.maketrans(x, y)]: the pairs in order; as in a dict, a later
    pair for a key replaces an earlier one. *)
Definition maketrans (x y : Text) : list (N * N) := combine x y.

Fixpoint lookup (tbl : list (N * N)) (c : N) : option N :=
  match tbl with
  | [] => None
  | (k, v) :: rest =>
      match lookup rest c with
      | Some v' => Some v'
      | None => if k =? c then Some v else None
      end
  end.

(** [text.translate(tbl)] *)
Definition translate (tbl : list (N * N)) (text : Text) : Text :=
  map (fun c => match lookup tbl c with Some v => v | None => c end) text.

Definition to_russian_layout (text : Text) : Text :=
  translate (maketrans (eng ++ upper eng) (rus ++ upper rus)) text.

(** The classes [A-Za-z] and [А-Яа-яЁё] of the two regular
    expressions. *)
Definition is_latin (c : N) : bool := between 65 90 c || between 97 122 c.
Definition is_cyrillic (c : N) : bool :=
  between 1040 1071 c || between 1072 1103 c || (c =? 1025) || (c =? 1105).

(** [len(re.findall(class, text))] *)
Definition count (class : N -> bool) (text : Text) : Z :=
  Z.of_nat (List.length (filter class text)).

(** [str.isspace] of one character; [str.split()] cuts there. *)
Definition isspace (c : N) : bool :=
  between 9 13 c || between 28 32 c || (c =? 133) || (c =? 160)
  || (c =? 5760) || between 8192 8202 c || (c =? 8232) || (c =? 8233)
  || (c =? 8239) || (c =? 8287) || (c =? 12288).

(** [text.split()]: the maximal runs of characters that are not space;
    [word] is the run being read. *)
Fixpoint split_from (word : Text) (text : Text) : list Text :=
  match text with
  | [] => match word with [] => [] | _ => [word] end
  | c :: rest =>
      if isspace c then
        match word with
        | [] => split_from [] rest
        | _ => word :: split_from [] rest
        end
      else split_from (word ++ [c]) rest
  end.
Definition split (text : Text) : list Text := split_from [] text.

(** [re.fullmatch(r'[A-Za-z]+', w)] *)
Definition fullmatch_latin (w : Text) : bool :=
  match w with [] => false | _ => forallb is_latin w end.

Definition needs_layout_correction (text : Text) : bool :=
  let latin := count is_latin text in
  let cyrillic := count is_cyrillic text in
  if ((cyrillic =? 0) && (latin >? 0))%Z then true
  else if (latin >? 2 * cyrillic)%Z then true
  else
    let words := split text in
    if (List.length words <=? 2)%nat && forallb fullmatch_latin words
    then true
    else false.

Fixpoint Text_eqb (a b : Text) : bool :=
  match a, b with
  | [], [] => true
  | x :: a', y :: b' => (x =? y) && Text_eqb a' b'
  | _, _ => false
  end.

Section Classifier.
Context {History : Type}.
(** The LLM relevance check of one question; it answers [True] when the
    service is absent or fails. *)
Variable is_query_relevant_ai : Text -> History -> bool.

(** The verdict, and next to it the questions sent to the classifier,
    in order. *)
Definition is_query_relevant_with_layout_correction
           (question : Text) (history : History) : bool * list Text :=
  let relevant := is_query_relevant_ai question history in
  if negb relevant && needs_layout_correction question then
    let fixed_question := to_russian_layout question in
    if negb (Text_eqb fixed_question question) then
      (is_query_relevant_ai fixed_question history,
       [question; fixed_question])
    else (relevant, [question])
  else (relevant, [question]).
End Classifier.

End Llm.

(* ================================================================== *)
(** ** backend/core/admin_notifications.py *)
(* ================================================================== *)

Module AdminNotifications.

Section Admins.
(** [config.ADMIN_IDS]: the ids listed in the environment variable, none
    when it is not set. *)
Variable ADMIN_IDS : list Z.
(** Whether [bot.send_message] to an operator's chat goes through. *)
Variable delivers : Z -> bool.

(** [_send_to_admins]: without operators it logs a warning and returns;
    otherwise the message goes to every id in turn, and a send that
    raises is logged and skipped.  The answer is the list of the chats
    the message reached; the call itself never raises. *)
Definition _send_to_admins : list Z :=
  match ADMIN_IDS with
  | [] => []
  | _ => filter delivers ADMIN_IDS
  end.

End Admins.

End AdminNotifications.

(* ================================================================== *)
(** ** backend/handlers/sales_funnel.py *)
(* ================================================================== *)

Module SalesFunnel.
Import Io.
Local Open Scope io_scope.

Definition IRRELEVANT_QUERY_LIMIT : Z := 3.

(** The sender and the text of an incoming message. *)
Record Message := { user_id : Z; username : option string; text : Text }.

(** The key of [intent_to_action], [booking]. *)
Definition BOOKING : Text := [98; 111; 111; 107; 105; 110; 103]%N.
Definition in_intent_to_action (intent : option Text) : bool :=
  match intent with Some i => Llm.Text_eqb i BOOKING | None => false end.

(** The note saved for a recognised intent: a fixed Russian prefix,
    "intent recognised: ", and the intent. *)
Definition intent_note (intent : Text) : Text :=
  ([1056; 1072; 1089; 1087; 1086; 1079; 1085; 1072; 1085; 32; 1080; 1085;
    1090; 1077; 1085; 1090; 58; 32]%N ++ intent).

(** The profile used when the database gives none. *)
Definition minimal_profile : Db.Profile.t :=
  {| Db.Profile.id := None; Db.Profile.is_blocked := false;
     Db.Profile.onboarding_completed_at := None;
     Db.Profile.user_data := [] |}.

Section Handler.
Variable config : Config.t.
Variable fails : Db.Op -> bool.
(** Whether Telegram delivers a reply to a chat; if not, the call
    raises. *)
Variable delivers : Z -> Reply -> bool.
(** [bot.intent_recognizer], when the bot has one. *)
Variable intent_recognizer : option (Text -> option Text).
(** backend/core/template_service.py *)
Variable Template : Type.
Variable find_template_by_keywords : Text -> option Template.
Variable build_template_response :
  Template -> list DialogHistory.t -> Dict -> Text.
(** The LLM classifier behind the relevance check. *)
Variable is_query_relevant_ai : Text -> list DialogHistory.t -> bool.
(** [cmd_book] of backend/handlers/commands.py. *)
Variable cmd_book : Message -> M unit.
(** The end of the handler, for a relevant question without a template:
    the RAG answer, the control commands in it, the fallback. *)
Variable answer_relevant :
  Message -> list DialogHistory.t -> option Parent.t -> M unit.

(** [message.answer(...)] *)
Definition answer (chat_id : Z) (reply : Reply) : M unit :=
  if delivers chat_id reply then emit (Answer chat_id reply)
  else raise TelegramError.

(** The call of [notify_admin_of_block], with the last five entries of
    the dialog.  It builds a text and hands it to [_send_to_admins],
    which never raises; the chats it reaches are
    [AdminNotifications._send_to_admins]. *)
Definition notify_admin_of_block (user : Z)
           (history : list DialogHistory.t) : M unit :=
  emit (NotifyAdminOfBlock user (Db.last_entries 5 history)).

(** The call of [notify_admin_on_error], likewise. *)
Definition notify_admin_on_error (user : Z) : M unit :=
  emit (NotifyAdminOnError user).

(** [if parent: await save_dialog(parent.id, "assistant", message)] *)
Definition save_reply (parent : option Parent.t) (message : Text)
  : M unit :=
  match parent with
  | Some parent =>
      Db.save_dialog config fails (Parent.id parent)
                     DialogHistory.assistant message
  | None => ret tt
  end.

(** The [if not is_relevant:] block. *)
Definition handle_irrelevant (message : Message)
           (user_profile : Db.Profile.t) (history : list DialogHistory.t)
  : M unit :=
  new_irrelevant_count <-
    Db.increment_irrelevant_count config fails (user_id message)
                                  (username message) ;;
  if new_irrelevant_count =? 1 then
    answer (user_id message) SoftNudge
  else if new_irrelevant_count <? IRRELEVANT_QUERY_LIMIT then
    answer (user_id message) HandoffOffer
  else if new_irrelevant_count >=? IRRELEVANT_QUERY_LIMIT then
    Db.block_user config fails (Db.Profile.id user_profile) ;;
    answer (user_id message) BlockedHandoff ;;
    notify_admin_of_block (user_id message) history
  else ret tt.

Definition handle_text_message (message : Message) : M unit :=
  let user_id := user_id message in
  let username := username message in
  let user_text := text message in
  try_except
    (user_profile <- Db.get_full_parent_data config fails user_id
                                             username ;;
     let user_profile :=
       match user_profile with
       | Some p => p
       | None => minimal_profile
       end in
     if Db.Profile.is_blocked user_profile then ret tt
     else
       match Db.Profile.onboarding_completed_at user_profile with
       | None => answer user_id OnboardingInvite
       | Some _ =>
           history <- Db.load_dialog config fails user_id ;;
           parent <- Db.get_or_create_parent config fails user_id
                                             username ;;
           match parent with
           | Some parent =>
               Db.save_dialog config fails (Parent.id parent)
                              DialogHistory.user user_text
           | None => ret tt
           end ;;
           let detected_intent :=
             match intent_recognizer with
             | Some recognize => recognize user_text
             | None => None
             end in
           if in_intent_to_action detected_intent then
             cmd_book message ;;
             save_reply parent
               (intent_note match detected_intent with
                            | Some i => i | None => [] end)
           else
             let query :=
               match detected_intent with
               | Some [] | None => user_text
               | Some i => i
               end in
             match find_template_by_keywords query with
             | Some template =>
                 let response :=
                   build_template_response
                     template history
                     (Db.Profile.user_data user_profile) in
                 answer user_id (TemplateAnswer response) ;;
                 save_reply parent response
             | None =>
                 let is_relevant :=
                   fst (Llm.is_query_relevant_with_layout_correction
                          is_query_relevant_ai user_text history) in
                 if negb is_relevant then
                   handle_irrelevant message user_profile history
                 else answer_relevant message history parent
             end
       end)
    (fun e =>
       history_for_admin <- Db.load_dialog config fails user_id ;;
       notify_admin_on_error user_id ;;
       answer user_id Apology).

End Handler.

End SalesFunnel.

(* ================================================================== *)
(** ** backend/scheduler/tasks.py *)
(* ================================================================== *)

Module Scheduler.
Import Io Time.
Local Open Scope io_scope.

Section Tasks.
Variable config : Config.t.
Variable fails : Db.Op -> bool.
(** Whether the reminder text of a lesson can be built, and whether
    [bot.send_message] to a chat goes through. *)
Variable renders : TrialLesson.t -> bool.
Variable delivers : Z -> bool.

(** [async with async_session_factory() as session: ...].  tasks.py
    imports [async_session_factory] by name
    ([from backend.db.database import async_session_factory]) and so
    holds the value the name had at that moment.  database.py creates
    its factory later, on first use, by rebinding its own global in
    [_get_engine]; bot.py imports the scheduler before any engine
    exists.  The imported name is [None], and calling it raises
    [TypeError] before the body runs. *)
Definition session {A : Type} (op : Db.Op)
           (body : Database -> A * Database) : M A :=
  raise TypeError.

(** The text is built first, from [lesson.parent] and [lesson.child];
    the send itself sits in a [try] whose [except] logs the error. *)
Definition send_reminder_message (lesson : TrialLesson.t)
           (when : Reminder) : M unit :=
  d <- get_db ;;
  match find (fun p => Parent.id p =? TrialLesson.parent_id lesson)
             (parents d) with
  | None => raise AttributeError
  | Some parent =>
      if renders lesson then
        if delivers (Parent.telegram_id parent)
        then emit (ReminderMessage (Parent.telegram_id parent)
                                   (TrialLesson.id lesson) when)
        else ret tt
      else raise RenderError
  end.

(** One entry of [asyncio.gather(..., return_exceptions=True)]: the
    task's result, or the exception it raised, as a value. *)
Definition gathered (task : M unit) : M (Outcome unit) :=
  fun w => let (r, w') := task w in (Return r, w').

(** The tasks are run one after the other, in the order of the list. *)
Fixpoint gather (tasks : list (M unit)) : M (list (Outcome unit)) :=
  match tasks with
  | [] => ret []
  | task :: rest =>
      r <- gathered task ;;
      rs <- gather rest ;;
      ret (r :: rs)
  end.

(** The [for lesson in planned_lessons] selection; [scheduled_at],
    naive UTC, is the instant the windows are compared with. *)
Definition select_reminders (now_msk : Z)
           (planned_lessons : list TrialLesson.t)
  : list (TrialLesson.t * Reminder) :=
  let window_24h_start := now_msk + timedelta 0 23 50 in
  let window_24h_end := now_msk + timedelta 0 24 10 in
  let window_1h_start := now_msk + timedelta 0 0 50 in
  let window_1h_end := now_msk + timedelta 0 1 10 in
  flat_map
    (fun lesson =>
       let scheduled_msk := TrialLesson.scheduled_at lesson in
       let in_window_24h :=
         (window_24h_start <=? scheduled_msk)
         && (scheduled_msk <=? window_24h_end)
         && negb (TrialLesson.reminder_24h_sent lesson) in
       let in_window_1h :=
         (window_1h_start <=? scheduled_msk)
         && (scheduled_msk <=? window_1h_end)
         && negb (TrialLesson.reminder_1h_sent lesson) in
       if in_window_24h then [(lesson, Reminder24h)]
       else if in_window_1h then [(lesson, Reminder1h)]
       else [])
    planned_lessons.

(** The ids of the lessons of one reminder type whose task did not come
    back as an exception. *)
Fixpoint successful_ids (type : Reminder)
         (lessons_to_process : list (TrialLesson.t * Reminder))
         (results : list (Outcome unit)) : list Z :=
  match lessons_to_process, results with
  | (lesson, reminder_type) :: ls, result :: rs =>
      let rest := successful_ids type ls rs in
      match result, type, reminder_type with
      | Return _, Reminder24h, Reminder24h
      | Return _, Reminder1h, Reminder1h =>
          TrialLesson.id lesson :: rest
      | _, _, _ => rest
      end
  | _, _ => []
  end.

(** [TrialLesson.id.in_(ids)] *)
Definition id_in (ids : list Z) (l : TrialLesson.t) : bool :=
  existsb (Z.eqb (TrialLesson.id l)) ids.

Definition is_empty {A} (l : list A) : bool :=
  match l with [] => true | _ => false end.

(** The selection of the completion check. *)
Definition due_for_completion (cutoff_time : Z) (l : TrialLesson.t)
  : bool :=
  TrialLessonStatus_eqb (TrialLesson.status l) PLANNED
  && (TrialLesson.scheduled_at l <=? cutoff_time).

Definition check_completed_lessons (now_utc : Z) : M unit :=
  let cutoff_time := now_utc - timedelta 0 1 0 in
  completed_lessons <-
    session Db.OpSelectLessons (fun d =>
      (filter (due_for_completion cutoff_time) (trial_lessons d), d)) ;;
  for_each completed_lessons (fun lesson =>
    try_except
      (_ <- Db.mark_lesson_completed config fails
                                     (TrialLesson.id lesson) ;;
       ret tt)
      (fun _ => ret tt)).

(** [now_msk] and [now_utc] are the two readings of the clock the sweep
    takes, [now_utc'] the one of the completion check it ends with. *)
Definition check_and_send_reminders (now_msk now_utc now_utc' : Z)
  : M unit :=
  let wide_end_utc := now_utc + timedelta 0 25 0 in
  planned_lessons <-
    session Db.OpSelectLessons (fun d =>
      (filter (fun l =>
                 TrialLessonStatus_eqb (TrialLesson.status l) PLANNED
                 && (TrialLesson.scheduled_at l <=? wide_end_utc))
              (trial_lessons d), d)) ;;
  let lessons_to_process := select_reminders now_msk planned_lessons in
  let tasks_to_run :=
    map (fun lt => send_reminder_message (fst lt) (snd lt))
        lessons_to_process in
  if is_empty tasks_to_run then ret tt
  else
    results <- gather tasks_to_run ;;
    let successful_ids_24h :=
      successful_ids Reminder24h lessons_to_process results in
    let successful_ids_1h :=
      successful_ids Reminder1h lessons_to_process results in
    when (negb (is_empty successful_ids_24h)
          || negb (is_empty successful_ids_1h))
      (session Db.OpUpdateReminderFlags (fun d =>
         (tt,
          Db.set_trial_lessons
            (Db.update_where (id_in successful_ids_1h)
               (TrialLesson.with_reminder_1h_sent true)
               (Db.update_where (id_in successful_ids_24h)
                  (TrialLesson.with_reminder_24h_sent true)
                  (trial_lessons d))) d))) ;;
    check_completed_lessons now_utc'.

End Tasks.

End Scheduler.

(* ================================================================== *)
(** ** backend/handlers/onboarding_handlers.py *)
(* ================================================================== *)

Module Onboarding.
Import Io.
Local Open Scope io_scope.

(** [answers.get(key)] and [answers.get(key, default)] *)
Fixpoint get (answers : Dict) (key : string) : option Json :=
  match answers with
  | [] => None
  | (k, v) :: rest => if String.eqb k key then Some v else get rest key
  end.

Definition get_or (answers : Dict) (key : string) (default : Json) : Json :=
  match get answers key with Some v => v | None => default end.

(** A value bound for a text column; the steps of the questionnaire
    store text or [None] under the keys read here. *)
Definition column (v : Json) : option string :=
  match v with JStr s => Some s | _ => None end.

(** The three course names: the junior group, the senior group, and
    plain "programming". *)
Definition COURSE_JUNIOR : string :=
  "Основы программирования (младшая группа)".
Definition COURSE_SENIOR : string :=
  "Продвинутое программирование (старшая группа)".
Definition COURSE_DEFAULT : string := "Программирование".

Section Finish.
Variable config : Config.t.
Variable fails : Db.Op -> bool.
Variable delivers : Z -> Reply -> bool.
(** [int(s)], [None] for its [ValueError]. *)
Variable parse_int : string -> option Z.

(** [answers] is the [user_answers] entry of the FSM data, [now] the
    clock [complete_onboarding_in_db] reads. *)
Definition finish_onboarding (now : Z) (answers : Dict)
           (user_id : Z) (username : option string) : M unit :=
  parent <- Db.get_or_create_parent config fails user_id username ;;
  child_age <-
    match get_or answers "child_age" (JInt 0) with
    | JInt n => ret n
    | JStr s => ret match parse_int s with Some n => n | None => 0 end
    | JNull => raise TypeError          (* [9 <= None] *)
    end ;;
  let course_name :=
    if (9 <=? child_age) && (child_age <=? 13) then COURSE_JUNIOR
    else if (14 <=? child_age) && (child_age <=? 17) then COURSE_SENIOR
    else COURSE_DEFAULT in
  let full_name := get_or answers "parent_name" (JStr "") in
  let phone := get_or answers "parent_phone" JNull in
  let email := get_or answers "parent_email" JNull in
  let user_data : Dict :=
    [("parent_name", full_name);
     ("parent_phone", phone);
     ("parent_email", email);
     ("parent_contact_tg", get_or answers "parent_contact_tg" JNull);
     ("child_name", get_or answers "child_name" JNull);
     ("child_age", JInt child_age);
     ("child_interests", get_or answers "child_interests" JNull);
     ("course_name", JStr course_name)]%string in
  match parent with
  | None => raise AttributeError        (* [parent.id] *)
  | Some parent =>
      match column (get_or answers "child_name" (JStr "Ребенок")) with
      | None => raise SQLAlchemyError   (* [name] is not nullable *)
      | Some name =>
          child <- Db.add_child_profile config fails (Parent.id parent)
                     name child_age
                     (column (get_or answers "child_interests" JNull))
                     (Some course_name) None ;;
          Db.complete_onboarding_in_db config fails now
            (Parent.id parent) (column full_name) (column phone)
            (column email) user_data ;;
          (if delivers user_id OnboardingDone
           then emit (Answer user_id OnboardingDone)
           else raise TelegramError) ;;
          emit (FsmClear user_id)
      end
  end.

End Finish.

End Onboarding.

(* ================================================================== *)
(** ** Vocabulary of the properties *)
(* ================================================================== *)

Module Spec.
Import Calendar.

(** A slot moved by [c]. *)
Definition shift (c : Z) (x : Slot) : Slot :=
  {| start := start x + c; end_ := end_ x + c |}.

(** Slots listed one after the other without sharing time. *)
Definition sequential_non_overlapping (l : list Slot) : Prop :=
  forall (i j : nat) (a b : Slot),
    nth_error l i = Some a -> nth_error l j = Some b ->
    (i < j)%nat -> end_ a <= start b.

(** Scenario A as the specification words it: nine slots in a row that
    do not overlap, the first at [first_start]. *)
Definition nine_sequential_slots (first_start : Z) (l : list Slot)
  : Prop :=
  List.length l = 9%nat
  /\ sequential_non_overlapping l
  /\ option_map start (hd_error l) = Some first_start.

(** The database answers and no session fails. *)
Definition healthy (config : Config.t) (fails : Db.Op -> bool) : Prop :=
  Config.DATABASE_URL config = true /\ forall op, fails op = false.

(** A message the handler takes to its off-topic branch: no intent with
    an action, no template, and the relevance check says no. *)
Definition off_topic (intent_recognizer : option (Text -> option Text))
           {Template : Type}
           (find_template_by_keywords : Text -> option Template)
           (is_query_relevant_ai : Text -> list DialogHistory.t -> bool)
           (message : SalesFunnel.Message) : Prop :=
  let detected_intent :=
    match intent_recognizer with
    | Some recognize => recognize (SalesFunnel.text message)
    | None => None
    end in
  SalesFunnel.in_intent_to_action detected_intent = false
  /\ find_template_by_keywords
       match detected_intent with
       | Some [] | None => SalesFunnel.text message
       | Some i => i
       end = None
  /\ forall history,
      fst (Llm.is_query_relevant_with_layout_correction
             is_query_relevant_ai (SalesFunnel.text message) history)
      = false.

(** How many times [notify_admin_of_block] was called. *)
Definition block_notices (es : list Io.Effect) : nat :=
  List.length
    (filter (fun e => match e with
                      | Io.NotifyAdminOfBlock _ _ => true
                      | _ => false
                      end) es).

(** The operators' chats the block notices of a run reached, oldest
    first: each call sends through [_send_to_admins]. *)
Definition block_messages (ADMIN_IDS : list Z) (delivers : Z -> bool)
           (es : list Io.Effect) : list Z :=
  flat_map (fun e => match e with
                     | Io.NotifyAdminOfBlock _ _ =>
                         AdminNotifications._send_to_admins ADMIN_IDS delivers
                     | _ => []
                     end) es.

(** The specification's count for one crossing of the limit: exactly
    one notification reached an operator between the two logs. *)
Definition one_operator_notification (ADMIN_IDS : list Z)
           (delivers : Z -> bool) (before after : list Io.Effect) : Prop :=
  List.length (block_messages ADMIN_IDS delivers after)
  = S (List.length (block_messages ADMIN_IDS delivers before)).

(** The replies sent to a chat, oldest first. *)
Definition replies_to (chat_id : Z) (es : list Io.Effect) : list Io.Reply :=
  flat_map (fun e => match e with
                     | Io.Answer c r => if c =? chat_id then [r] else []
                     | _ => []
                     end) es.

Definition is_calendar_delete (e : Io.Effect) : Prop :=
  match e with Io.CalendarDelete _ => True | _ => False end.
Definition is_sheet_row (e : Io.Effect) : Prop :=
  match e with Io.SheetsAddBooking _ _ => True | _ => False end.

(** The lesson cannot be stored: there is no database, or the session
    that finds the parent or the one that inserts the lesson raises. *)
Definition lesson_not_storable (config : Config.t) (fails : Db.Op -> bool)
  : Prop :=
  Config.DATABASE_URL config = false
  \/ fails Db.OpGetOrCreateParent = true
  \/ fails Db.OpAddTrialLesson = true.

(** What onboarding completion writes, as the specification lists it:
    the child record, the contact fields, the completion time. *)
Definition child_created (before after : Database) : Prop :=
  List.length (children after) = S (List.length (children before)).

Definition contact_fields_written (after : Database) (user_id : Z) : Prop :=
  exists p name, Db.parent_by_telegram_id after user_id = Some p
                 /\ Parent.full_name p = Some name.

Definition completion_time_written (after : Database) (user_id : Z) : Prop :=
  exists p t, Db.parent_by_telegram_id after user_id = Some p
              /\ Parent.onboarding_completed_at p = Some t.

(** All three together or none of them. *)
Definition onboarding_all_or_nothing (before after : Database) (user_id : Z)
  : Prop :=
  (child_created before after /\ contact_fields_written after user_id
   /\ completion_time_written after user_id)
  \/ (~ child_created before after /\ ~ contact_fields_written after user_id
      /\ ~ completion_time_written after user_id).

(** The child record of a finished questionnaire gets committed: the
    database answers for the parent and for the child, and the answers
    hold an age and a name for the child. *)
Definition child_record_committed (config : Config.t)
           (fails : Db.Op -> bool) (answers : Dict) : Prop :=
  Config.DATABASE_URL config = true
  /\ fails Db.OpGetOrCreateParent = false
  /\ Onboarding.get_or answers "child_age" (JInt 0) <> JNull
  /\ Onboarding.column
       (Onboarding.get_or answers "child_name" (JStr "Ребенок")) <> None
  /\ fails Db.OpAddChildProfile = false.

(** At most two words, each of Latin letters only. *)
Definition few_latin_words (text : Text) : Prop :=
  (List.length (Llm.split text) <= 2)%nat
  /\ forall w, In w (Llm.split text) ->
               w <> [] /\ forall c, In c w -> Llm.is_latin c = true.

(** The trigger of the layout retry as the specification words it, with
    "at least 2:1", which is also what the comment in the code says. *)
Definition stated_trigger (text : Text) : Prop :=
  (Llm.count Llm.is_cyrillic text = 0 /\ Llm.count Llm.is_latin text > 0)
  \/ (0 < Llm.count Llm.is_cyrillic text
      /\ 2 * Llm.count Llm.is_cyrillic text <= Llm.count Llm.is_latin text)
  \/ few_latin_words text.

(** *** A small world for concrete runs *)

(** An onboarded parent, Telegram user 42, with the given counter and
    flag. *)
Definition sample_parent (count : Z) (blocked : bool) : Parent.t :=
  {| Parent.id := 1; Parent.telegram_id := 42;
     Parent.username := None; Parent.full_name := None;
     Parent.phone := None; Parent.email := None;
     Parent.onboarding_step := ONBOARDING_COMPLETED;
     Parent.onboarding_started_at := Some 0;
     Parent.onboarding_completed_at := Some 0;
     Parent.is_enrolled := false; Parent.is_blocked := blocked;
     Parent.irrelevant_count := count;
     Parent.user_data := None |}.

(** The same user before onboarding is finished. *)
Definition sample_newcomer : Parent.t := Db.new_parent 1 42 None 0 None.

(** A planned lesson of that parent with no reminder sent. *)
Definition sample_lesson (id scheduled_at : Z) : TrialLesson.t :=
  {| TrialLesson.id := id; TrialLesson.parent_id := 1;
     TrialLesson.child_id := 1; TrialLesson.event_id := None;
     TrialLesson.scheduled_at := scheduled_at;
     TrialLesson.status := PLANNED;
     TrialLesson.course_name := None; TrialLesson.notes := None;
     TrialLesson.reminder_24h_sent := false;
     TrialLesson.reminder_1h_sent := false;
     TrialLesson.reminder_10min_sent := false |}.

Definition sample_world (ps : list Parent.t) (ls : list TrialLesson.t)
  : Io.World :=
  {| Io.db := {| parents := ps; children := []; trial_lessons := ls;
                 dialog_history := [];
                 next_parent_id := 2; next_child_id := 1;
                 next_lesson_id := 100 |};
     Io.effects := [] |}.

(** The text [qqq] from user 42. *)
Definition sample_message : SalesFunnel.Message :=
  {| SalesFunnel.user_id := 42; SalesFunnel.username := None;
     SalesFunnel.text := [113; 113; 113]%N |}.

(** The handler with collaborators that find no intent and no template
    and judge every question off-topic. *)
Definition sample_handler : SalesFunnel.Message -> Io.M unit :=
  SalesFunnel.handle_text_message
    (Config.defaults true) (fun _ => false) (fun _ _ => true) None unit
    (fun _ => None) (fun _ _ _ => []) (fun _ _ => false)
    (fun _ => Io.ret tt) (fun _ _ _ => Io.ret tt).

(** The answers of a finished questionnaire. *)
Definition sample_answers : Dict :=
  [("parent_name", JStr "Anna"); ("child_name", JStr "Petya");
   ("child_age", JInt 10); ("child_interests", JStr "robots");
   ("parent_phone", JStr "+70000000000"); ("parent_email", JNull);
   ("parent_contact_tg", JNull)]%string.

(** The text [ghbdtn], which is the Russian greeting typed on the
    English layout, and the text [abя]. *)
Definition mistyped_greeting : Text := [103; 104; 98; 100; 116; 110]%N.
Definition two_to_one : Text := [97; 98; 1103]%N.

End Spec.


(* ================================================================== *)
(** ** backend/utils/retry.py *)
(* ================================================================== *)

Module Retry.

(** What the wrapper of [sync_retry] and [async_retry] raises: an
    exception of the wrapped function, the [TypeError] of [raise None],
    the [OverflowError] of the power in the delay, or the [ValueError]
    of [time.sleep] on a negative delay. *)
Inductive Raised (Error : Type) :=
| FromFunc (e : Error)
| RaiseNone
| Overflow
| SleepRefused.
Arguments FromFunc {Error} e.
Arguments RaiseNone {Error}.
Arguments Overflow {Error}.
Arguments SleepRefused {Error}.

Inductive Outcome (Result Error : Type) :=
| Return (r : Result)
| Raise (e : Raised Error).
Arguments Return {Result Error} r.
Arguments Raise {Result Error} e.

(** [range(start, stop)] *)
Definition range (start stop : Z) : list Z :=
  map (fun i => start + Z.of_nat i) (seq 0 (Z.to_nat (stop - start))).

Section Wrapper.
Variables State Result Error Delay : Type.

Variable max_attempts : Z.
(** [min(initial_delay * (exponential_base ** (attempt - 1)), max_delay)];
    [None] when the power overflows. *)
Variable delay : Z -> option Delay.
(** [any(isinstance(e, exc_type) for exc_type in retryable_exceptions)] *)
Variable should_retry : Error -> bool.
(** The callback; what it raises is logged and dropped. *)
Variable on_retry : option (Error -> Z -> State -> State).
(** [time.sleep(delay)] / [await asyncio.sleep(delay)]; [None] when the
    call raises. *)
Variable sleep : Delay -> State -> option State.
(** One call of the wrapped function. *)
Variable func : State -> (Result + Error) * State.

(** The [for attempt in range(1, max_attempts + 1)] loop over the
    remaining attempts, and the [raise last_exception] after it. *)
Fixpoint attempts (remaining : list Z) (last_exception : option Error)
         (s : State) : Outcome Result Error * State :=
  match remaining with
  | [] =>
      (Raise (match last_exception with
              | Some e => FromFunc e
              | None => RaiseNone
              end), s)
  | attempt :: rest =>
      match func s with
      | (inl r, s1) => (Return r, s1)
      | (inr e, s1) =>
          if negb (should_retry e) || (max_attempts <=? attempt)
          then (Raise (FromFunc e), s1)
          else
            match delay attempt with
            | None => (Raise Overflow, s1)
            | Some d =>
                let s2 := match on_retry with
                          | Some callback => callback e attempt s1
                          | None => s1
                          end in
                match sleep d s2 with
                | None => (Raise SleepRefused, s2)
                | Some s3 => attempts rest (Some e) s3
                end
            end
      end
  end.

Definition wrapper (s : State) : Outcome Result Error * State :=
  attempts (range 1 (max_attempts + 1)) None s.

End Wrapper.

Arguments attempts {State Result Error Delay}.
Arguments wrapper {State Result Error Delay}.

(** A state with a counter of the calls of the wrapped function, to
    count them. *)
Section Counting.
Variables State Result Error Delay : Type.

Definition counted (func : State -> (Result + Error) * State)
  : State * nat -> (Result + Error) * (State * nat) :=
  fun sn => let (out, s1) := func (fst sn) in (out, (s1, S (snd sn))).

Definition uncounted_callback
           (on_retry : option (Error -> Z -> State -> State))
  : option (Error -> Z -> State * nat -> State * nat) :=
  match on_retry with
  | Some callback => Some (fun e attempt sn =>
                             (callback e attempt (fst sn), snd sn))
  | None => None
  end.

Definition uncounted_sleep (sleep : Delay -> State -> option State)
  : Delay -> State * nat -> option (State * nat) :=
  fun d sn => match sleep d (fst sn) with
              | Some s => Some (s, snd sn)
              | None => None
              end.

End Counting.

Arguments counted {State Result Error}.
Arguments uncounted_callback {State Error}.
Arguments uncounted_sleep {State Delay}.

End Retry.

(* ================================================================== *)
(** ** backend/services/sheets_service.py *)
(* ================================================================== *)

Module Sheets.

(** A row of the sheet as the API returns it: the cells up to the last
    one that is filled. *)
Definition Row := list string.

(** [row[i] = v]; [None] is the [IndexError]. *)
Fixpoint set_cell (i : nat) (v : string) (row : Row) : option Row :=
  match row, i with
  | [], _ => None
  | _ :: rest, O => Some (v :: rest)
  | c :: rest, S i' => match set_cell i' v rest with
                       | Some rest' => Some (c :: rest')
                       | None => None
                       end
  end.

(** [len(row) > 7 and row[7] == event_id] *)
Definition is_event_row (event_id : string) (row : Row) : bool :=
  (7 <? List.length row)%nat && String.eqb (nth 7 row EmptyString) event_id.

(** [for i, row in enumerate(rows, start=i): if ...: found; break] *)
Fixpoint find_row (event_id : string) (i : Z) (rows : list Row)
  : option (Z * Row) :=
  match rows with
  | [] => None
  | row :: rest =>
      if is_event_row event_id row then Some (i, row)
      else find_row event_id (i + 1) rest
  end.

(** [while len(found_row) < 10: found_row.append('')] *)
Definition pad (found_row : Row) : Row :=
  found_row ++ repeat EmptyString (10 - List.length found_row).

(** [f"{new_status} {now.strftime(..)}"], and [f" | {note}"] after it
    for a note that is not empty; [now] is the formatted time. *)
Definition note_with_date (new_status note now : string) : string :=
  let dated := (new_status ++ " " ++ now)%string in
  match note with
  | EmptyString => dated
  | _ => (dated ++ " | " ++ note)%string
  end.

Section Service.
Variables State Error : Type.

(** [values().get(range="<sheet>!A:J").execute()] and the ['values']
    entry of its result, if it has one. *)
Variable get_all : State -> (option (list Row) + Error) * State.
(** [values().update(range="<sheet>!A{i}:J{i}", body=[row]).execute()] *)
Variable update : Z -> Row -> State -> (unit + Error) * State.
(** [time.sleep] for that many seconds. *)
Variable sleep : Z -> State -> State.

(** [@sync_retry(max_attempts=3, initial_delay=1.0, max_delay=10.0,
    retryable_exceptions=[.., Exception])]: the delays are 1 and 2
    seconds. *)
Definition with_retries {Result : Type}
           (func : State -> (Result + Error) * State)
  : State -> Retry.Outcome Result Error * State :=
  Retry.wrapper 3
    (fun attempt => Some (Z.min (1 * 2 ^ (attempt - 1)) 10))
    (fun _ => true) None
    (fun d s => Some (sleep d s))
    func.

Definition update_booking_status (event_id new_status note now : string)
  : State -> bool * State :=
  fun s =>
    match with_retries get_all s with
    | (Retry.Raise _, s1) => (false, s1)
    | (Retry.Return result, s1) =>
        let values := match result with Some v => v | None => [] end in
        if (List.length values <? 2)%nat then (false, s1)
        else
          match find_row event_id 2 (tl values) with
          | None => (false, s1)
          | Some (row_index, found_row) =>
              let note_with_date := note_with_date new_status note now in
              match set_cell 6 new_status (pad found_row) with
              | None => (false, s1)
              | Some with_status =>
                  match set_cell 9 note_with_date with_status with
                  | None => (false, s1)
                  | Some found_row' =>
                      match with_retries (update row_index found_row') s1
                      with
                      | (Retry.Return _, s2) => (true, s2)
                      | (Retry.Raise _, s2) => (false, s2)
                      end
                  end
              end
          end
    end.

End Service.

Arguments with_retries {State Error} sleep {Result} func.
Arguments update_booking_status {State Error}.

End Sheets.

(* ================================================================== *)
(** ** backend/keyboards/inline.py *)
(* ================================================================== *)

Module Keyboards.

(** The buttons of the slot keyboard: one per slot, with the text of
    [format_slot_button_text] and the callback data
    [slot_<datetime_start>], and the two control buttons. *)
Inductive InlineKeyboardButton :=
| SlotButton (slot : Calendar.Slot)
| RefreshButton
| CancelButton.

(** [l[:stop]] *)
Definition slice_to {A : Type} (stop : Z) (l : list A) : list A :=
  if stop <? 0 then firstn (Z.to_nat (Z.of_nat (List.length l) + stop)) l
  else firstn (Z.to_nat stop) l.

(** The [for slot in display_slots] loop, from the rows closed so far
    and the row being filled. *)
Fixpoint fill_rows (columns : Z) (display_slots : list Calendar.Slot)
         (keyboard : list (list InlineKeyboardButton))
         (row : list InlineKeyboardButton)
  : list (list InlineKeyboardButton) * list InlineKeyboardButton :=
  match display_slots with
  | [] => (keyboard, row)
  | slot :: rest =>
      let row := row ++ [SlotButton slot] in
      if Z.of_nat (List.length row) =? columns
      then fill_rows columns rest (keyboard ++ [row]) []
      else fill_rows columns rest keyboard row
  end.

Definition create_slots_keyboard (slots : list Calendar.Slot)
           (max_slots columns : Z) : list (list InlineKeyboardButton) :=
  let display_slots := slice_to max_slots slots in
  let (keyboard, row) := fill_rows columns display_slots [] [] in
  let keyboard := match row with
                  | [] => keyboard
                  | _ => keyboard ++ [row]
                  end in
  let control_row :=
    (if (List.length display_slots <? List.length slots)%nat
     then [RefreshButton] else [])
    ++ [CancelButton] in
  match control_row with
  | [] => keyboard
  | _ => keyboard ++ [control_row]
  end.

End Keyboards.
(** *** Order of the slots *)

Module SlotOrder.
Import Calendar.
(** Slots listed in the order of their start times. *)
Definition chronological (l : list Slot) : Prop :=
  forall (i j : nat) (a b : Slot),
    nth_error l i = Some a -> nth_error l j = Some b ->
    (i < j)%nat -> start a < start b.

(** Every start lies in [lo, hi) and is later than the one before. *)
Fixpoint ascending_within (lo hi : Z) (l : list Slot) : Prop :=
  match l with
  | [] => True
  | x :: rest => lo <= start x < hi /\ ascending_within (start x + 1) hi rest
  end.
End SlotOrder.
(** *** What a booking leaves behind *)

Module BookingTrace.
Import Io Calendar Booking.

(** The event a reschedule removed: the id handed over, when it is not
    empty and [delete_event] answered [True]. *)
Definition cancelled_event (delete_event : string -> bool)
           (cancel_event_id : option string) : option string :=
  match cancel_event_id with
  | Some id => if truthy_str (Some id) && delete_event id then Some id
               else None
  | None => None
  end.

Definition deletion_seen (delete_event : string -> bool)
           (cancel_event_id : option string) : list Effect :=
  match cancelled_event delete_event cancel_event_id with
  | Some id => [CalendarDelete id]
  | None => []
  end.

(** Why a booking is refused, if it is: the slot is not clear or the
    calendar cannot be read (both reported as taken), or the event
    cannot be created. *)
Definition refusal (get_busy_slots : Provider)
           (create_event :
              Z -> Z -> list DescriptionPart -> option CalendarEvent)
           (start_time end_time : Z) (description : list DescriptionPart)
  : option string :=
  match get_busy_slots start_time end_time with
  | None => Some SLOT_TAKEN
  | Some busy_slots =>
      if slot_is_clear busy_slots start_time end_time then
        match create_event start_time end_time description with
        | None => Some (str HttpError)
        | Some _ => None
        end
      else Some SLOT_TAKEN
  end.

(** The sheet row of a booking, when the sheet takes it. *)
Definition sheet_row_seen (sheets_service : option (string -> option bool))
           (event_id : option string) (cancel_event_id : option string)
  : list Effect :=
  let status := if truthy_str cancel_event_id
                then STATUS_RESCHEDULED else STATUS_CREATED in
  match sheets_service with
  | Some add =>
      match add status with
      | Some true => [SheetsAddBooking event_id status]
      | _ => []
      end
  | None => []
  end.
End BookingTrace.

(** *** Reminders of a sweep *)

Module Reminders.
Import Time Io.

(** A reminder of one kind is due for a lesson at a sweep: the lesson
    starts inside the window of that kind and the flag of the kind is
    not set. *)
Definition due (now_msk : Z) (l : TrialLesson.t) (when : Reminder) : Prop :=
  match when with
  | Reminder24h =>
      now_msk + timedelta 0 23 50 <= TrialLesson.scheduled_at l
      /\ TrialLesson.scheduled_at l <= now_msk + timedelta 0 24 10
      /\ TrialLesson.reminder_24h_sent l = false
  | Reminder1h =>
      now_msk + timedelta 0 0 50 <= TrialLesson.scheduled_at l
      /\ TrialLesson.scheduled_at l <= now_msk + timedelta 0 1 10
      /\ TrialLesson.reminder_1h_sent l = false
  end.

Definition reminder_sent (when : Reminder) (l : TrialLesson.t) : bool :=
  match when with
  | Reminder24h => TrialLesson.reminder_24h_sent l
  | Reminder1h => TrialLesson.reminder_1h_sent l
  end.

(** How many reminders of one kind a log holds for a lesson. *)
Definition reminders_sent (lesson : Z) (when : Reminder) (es : list Effect)
  : nat :=
  List.length
    (filter (fun e => match e, when with
                      | ReminderMessage _ l Reminder24h, Reminder24h
                      | ReminderMessage _ l Reminder1h, Reminder1h =>
                          l =? lesson
                      | _, _ => false
                      end) es).

End Reminders.

(** Where an outcome of the retry wrapper comes from: a value or an
    exception is the one a call of the function left, with the state
    that call left; the [TypeError] of [raise None] has no origin; an
    overflow or a refused sleep belongs to an attempt before the last
    one. *)
Module RetryTrace.
Import Retry.

Section Origin.
Variables State Result Error Delay : Type.
Variable max_attempts : Z.
Variable delay : Z -> option Delay.
Variable sleep : Delay -> State -> option State.
Variable func : State -> (Result + Error) * State.

Definition explained (out : Outcome Result Error) (s' : State) : Prop :=
  match out with
  | Return r => exists s0, func s0 = (inl r, s')
  | Raise (FromFunc e) => exists s0, func s0 = (inr e, s')
  | Raise RaiseNone => False
  | Raise Overflow =>
      exists attempt, 1 <= attempt < max_attempts /\ delay attempt = None
  | Raise SleepRefused =>
      exists attempt d s0,
        1 <= attempt < max_attempts /\ delay attempt = Some d
        /\ sleep d s0 = None
  end.

End Origin.

Arguments explained {State Result Error Delay}.

End RetryTrace.

(** Collaborators and a world for concrete runs of the booking and of
    the sweep. *)
Module Samples.
Import Time Calendar Io Db Booking Spec.

Definition answering : Db.Op -> bool := fun _ => false.

(** A calendar with nothing in it, one with 10:00-11:00 taken, and one
    that cannot be read. *)
Definition free_calendar : Provider := fun _ _ => Some [].
Definition busy_morning : Provider :=
  fun _ _ => Some [{| start := timedelta 0 10 0; end_ := timedelta 0 11 0 |}].
Definition unreadable_calendar : Provider := fun _ _ => None.

Definition accepting
  : Z -> Z -> list DescriptionPart -> option CalendarEvent :=
  fun _ _ _ => Some {| id := Some "ev1"%string; htmlLink := EmptyString |}.

(** User 42, onboarded, with no child and no lesson. *)
Definition world0 : World := sample_world [sample_parent 0 false] [].

(** The same user before onboarding. *)
Definition world_newcomer : World := sample_world [sample_newcomer] [].

(** The text [при]. *)
Definition cyrillic_word : Text := [1087; 1088; 1080]%N.

(** A function that raises at every call, with delays that never fail. *)
Definition always_failing : unit -> (unit + unit) * unit :=
  fun s => (inr tt, s).
Definition no_delay : Z -> option unit := fun _ => Some tt.
Definition no_sleep : unit -> unit -> option unit := fun _ s => Some s.

(** A sheet of a header and two bookings, the second one of event
    [ev2]; the state is the list of the update requests that went
    through. *)
Definition sheet_rows : list Sheets.Row :=
  [["date"; "time"; "name"; "contact"; "phone"; "course"; "status";
    "event"];
   ["01.01"; "10:00"; "Anna"; "anna"; "1"; "py"; "created"; "ev1"];
   ["02.01"; "11:00"; "Olga"; "olga"; "2"; "py"; "created"; "ev2"]]%string.
Definition sheet_get_all
  : list (Z * Sheets.Row) -> (option (list Sheets.Row) + unit)
                             * list (Z * Sheets.Row) :=
  fun s => (inl (Some sheet_rows), s).
Definition sheet_update (i : Z) (row : Sheets.Row)
  : list (Z * Sheets.Row) -> (unit + unit) * list (Z * Sheets.Row) :=
  fun s => (inl tt, s ++ [(i, row)]).

(** Five slots of one hour from 10:00 on. *)
Definition five_slots : list Slot :=
  map (fun h => {| start := timedelta 0 h 0; end_ := timedelta 0 (h + 1) 0 |})
      [10; 11; 12; 13; 14].

End Samples.

(* ================================================================== *)
(** * Properties *)
(* ================================================================== *)

(** ** Free slots *)

Section CalendarFacts.
Import Time Calendar Spec.

Lemma slot_interval_pos : 0 < slot_interval.
Proof. reflexivity. Qed.

Lemma overlaps_true_iff (s e : Z) (b : Slot) :
  overlaps s e b = true <-> s < end_ b /\ e > start b.
Proof.
  unfold overlaps. rewrite andb_true_iff, Z.ltb_lt, Z.gtb_gt. tauto.
Qed.

Lemma is_busy_true_iff (busy_slots : list Slot) (s e : Z) :
  is_busy busy_slots s e = true <->
  exists b, In b busy_slots /\ s < end_ b /\ e > start b.
Proof.
  induction busy_slots as [|b rest IH]; simpl.
  - split; [discriminate | intros [b [[] _]]].
  - destruct (overlaps s e b) eqn:Hov.
    + split; [intros _ | reflexivity].
      exists b. split; [now left | now apply overlaps_true_iff].
    + rewrite IH. split.
      * intros [b' [Hin Hb']]. exists b'. split; [now right | exact Hb'].
      * intros [b' [[<- | Hin] Hb']].
        -- apply overlaps_true_iff in Hb'. congruence.
        -- now exists b'.
Qed.

Lemma is_busy_false_iff (busy_slots : list Slot) (s e : Z) :
  is_busy busy_slots s e = false <->
  forall b, In b busy_slots -> ~ (s < end_ b /\ e > start b).
Proof.
  rewrite <- not_true_iff_false, is_busy_true_iff. split.
  - intros Hno b Hin Hb. apply Hno. now exists b.
  - intros Hall [b [Hin Hb]]. exact (Hall b Hin Hb).
Qed.

(** What the day loop collects, whenever the fuel covers the distance
    to the end of the day. *)
Lemma scan_slots_In (busy_slots : list Slot) (eod dur : Z) :
  forall (fuel : nat) (cur : Z) (x : Slot),
    eod - cur <= Z.of_nat fuel * slot_interval ->
    In x (scan_slots fuel busy_slots eod dur cur) <->
    exists k, 0 <= k /\ start x = cur + k * slot_interval
              /\ end_ x = start x + timedelta 0 0 dur
              /\ start x < eod /\ end_ x <= eod
              /\ is_busy busy_slots (start x) (end_ x) = false.
Proof.
  pose proof slot_interval_pos as Hpos.
  induction fuel as [|fuel IH]; intros cur x Hfuel.
  - simpl. split; [intros [] |].
    intros (k & Hk & Hs & _ & Hlt & _). nia.
  - cbn [scan_slots].
    destruct (cur <? eod) eqn:Hcur.
    2:{ apply Z.ltb_ge in Hcur. split; [intros [] |].
        intros (k & Hk & Hs & _ & Hlt & _). nia. }
    apply Z.ltb_lt in Hcur.
    destruct (cur + timedelta 0 0 dur >? eod) eqn:Hend.
    { apply Z.gtb_gt in Hend. split; [intros [] |].
      intros (k & Hk & Hs & He & _ & Hle & _). nia. }
    assert (Hend' : cur + timedelta 0 0 dur <= eod).
    { destruct (Z.gtb_spec (cur + timedelta 0 0 dur) eod);
        [discriminate | lia]. }
    assert (Hfuel' : eod - (cur + slot_interval)
                     <= Z.of_nat fuel * slot_interval) by lia.
    specialize (IH (cur + slot_interval) x Hfuel').
    assert (Hrest :
      (exists k, 0 <= k /\ start x = cur + k * slot_interval
              /\ end_ x = start x + timedelta 0 0 dur
              /\ start x < eod /\ end_ x <= eod
              /\ is_busy busy_slots (start x) (end_ x) = false) <->
      (start x = cur /\ end_ x = cur + timedelta 0 0 dur
       /\ is_busy busy_slots cur (cur + timedelta 0 0 dur) = false)
      \/ In x (scan_slots fuel busy_slots eod dur (cur + slot_interval))).
    { rewrite IH. split.
      - intros (k & Hk & Hs & He & Hlt & Hle & Hb).
        destruct (Z.eq_dec k 0) as [-> | Hk0].
        + left. rewrite Z.mul_0_l, Z.add_0_r in Hs.
          rewrite He, Hs in *. auto.
        + right. exists (k - 1). repeat split; try assumption; lia.
      - intros [(Hs & He & Hb) | (k & Hk & Hs & He & Hlt & Hle & Hb)].
        + exists 0. rewrite Hs, He. repeat split; try assumption; lia.
        + exists (k + 1). repeat split; try assumption; lia. }
    rewrite Hrest.
    destruct (is_busy busy_slots cur (cur + timedelta 0 0 dur)) eqn:Hb.
    + split; [now right |].
      intros [(_ & _ & Hf) | Hin]; [discriminate | exact Hin].
    + simpl. split.
      * intros [<- | Hin]; [left; simpl; auto | now right].
      * intros [(Hs & He & _) | Hin]; [left | now right].
        destruct x as [xs xe]; simpl in *. now subst.
Qed.

(** The fuel [day_free_slots] gives the loop is enough for it to reach
    the end of the day. *)
Lemma scan_fuel_enough (current_day end_of_day : Z) :
  end_of_day - current_day
  <= Z.of_nat (scan_fuel current_day end_of_day) * slot_interval.
Proof.
  pose proof slot_interval_pos as Hpos. unfold scan_fuel.
  destruct (Z_le_gt_dec (end_of_day - current_day) 0) as [Hle | Hgt].
  - nia.
  - rewrite Nat2Z.inj_succ, Z2Nat.id by (apply Z.div_pos; lia).
    pose proof (Z.mul_succ_div_gt (end_of_day - current_day)
                  slot_interval Hpos). nia.
Qed.

Lemma replace_start_of_day (t h : Z) :
  0 <= h <= 23 ->
  replace t (Some h) (Some 0) (Some 0) (Some 0)
  = Some (day_floor t + h * US_PER_HOUR).
Proof.
  intros Hh. unfold replace, field, in_range.
  replace ((0 <=? h) && (h <=? 23)) with true
    by (symmetry; apply andb_true_iff; split; apply Z.leb_le; lia).
  cbn [andb Z.leb]. simpl. f_equal. lia.
Qed.

Lemma replace_end_of_day (t h h' : Z) :
  0 <= h <= 23 -> 0 <= h' <= 23 ->
  replace (day_floor t + h * US_PER_HOUR) (Some h') (Some 0) None None
  = Some (day_floor t + h' * US_PER_HOUR).
Proof.
  intros Hh Hh'.
  set (cd := day_floor t + h * US_PER_HOUR).
  assert (Hs : second_of cd = 0).
  { unfold second_of, cd, day_floor, US_PER_DAY, US_PER_HOUR,
      US_PER_MINUTE, US_PER_SECOND. Z.div_mod_to_equations. lia. }
  assert (Hu : microsecond_of cd = 0).
  { unfold microsecond_of, cd, day_floor, US_PER_DAY, US_PER_HOUR,
      US_PER_MINUTE, US_PER_SECOND. Z.div_mod_to_equations. lia. }
  assert (Hd : day_floor cd = day_floor t).
  { unfold cd, day_floor, US_PER_DAY, US_PER_HOUR, US_PER_MINUTE,
      US_PER_SECOND. Z.div_mod_to_equations. lia. }
  unfold replace, field. rewrite Hs, Hu, Hd. unfold in_range.
  replace ((0 <=? h') && (h' <=? 23)) with true
    by (symmetry; apply andb_true_iff; split; apply Z.leb_le; lia).
  simpl. f_equal. lia.
Qed.

Lemma is_busy_shift (c : Z) (busy_slots : list Slot) (s e : Z) :
  is_busy (map (shift c) busy_slots) (s + c) (e + c)
  = is_busy busy_slots s e.
Proof.
  induction busy_slots as [|b rest IH]; simpl; [reflexivity |].
  rewrite IH. unfold overlaps, shift; simpl.
  replace (s + c <? end_ b + c) with (s <? end_ b)
    by (destruct (Z.ltb_spec s (end_ b)), (Z.ltb_spec (s + c) (end_ b + c));
        lia || reflexivity).
  replace (e + c >? start b + c) with (e >? start b)
    by (destruct (Z.gtb_spec e (start b)),
          (Z.gtb_spec (e + c) (start b + c)); lia || reflexivity).
  reflexivity.
Qed.

(** The day loop does not depend on where the day lies. *)
Lemma scan_slots_shift (c : Z) (busy_slots : list Slot) (eod dur : Z) :
  forall (fuel : nat) (cur : Z),
    scan_slots fuel (map (shift c) busy_slots) (eod + c) dur (cur + c)
    = map (shift c) (scan_slots fuel busy_slots eod dur cur).
Proof.
  induction fuel as [|fuel IH]; intros cur; [reflexivity |].
  cbn [scan_slots].
  replace (cur + c <? eod + c) with (cur <? eod)
    by (destruct (Z.ltb_spec cur eod), (Z.ltb_spec (cur + c) (eod + c));
        lia || reflexivity).
  destruct (cur <? eod); [| reflexivity].
  replace (cur + c + timedelta 0 0 dur >? eod + c)
    with (cur + timedelta 0 0 dur >? eod)
    by (destruct (Z.gtb_spec (cur + timedelta 0 0 dur) eod),
          (Z.gtb_spec (cur + c + timedelta 0 0 dur) (eod + c));
        lia || reflexivity).
  destruct (cur + timedelta 0 0 dur >? eod); [reflexivity |].
  replace (cur + c + timedelta 0 0 dur)
    with (cur + timedelta 0 0 dur + c) by lia.
  rewrite is_busy_shift.
  replace (cur + c + slot_interval) with (cur + slot_interval + c) by lia.
  rewrite IH.
  destruct (is_busy busy_slots cur (cur + timedelta 0 0 dur));
    [reflexivity |].
  simpl. unfold shift at 2. simpl. reflexivity.
Qed.

(** The slots of a working day 09:00-18:00 with nothing busy, counted
    from midnight. *)
Lemma scan_empty_day :
  scan_slots 19 [] (18 * US_PER_HOUR) 60 (9 * US_PER_HOUR)
  = map (fun k => {| start := timedelta 0 9 (30 * k);
                     end_ := timedelta 0 10 (30 * k) |})
        (map Z.of_nat (seq 0 17)).
Proof. vm_compute. reflexivity. Qed.

End CalendarFacts.

Section CalendarClaims.
Import Time Calendar Spec.

(** A one-day horizon is the day loop of that day, on what the provider
    lists for it; a day for which the provider raises gives nothing. *)
Lemma get_free_slots_one_day (config : Config.t) (get_busy_slots : Provider)
      (now : Z) (skip_today : bool) :
  0 <= Config.START_HOUR config <= 23 ->
  0 <= Config.END_HOUR config <= 23 ->
  get_free_slots config get_busy_slots now 1 None None skip_today
  = Some
      match get_busy_slots
              (day_floor (now + timedelta (if skip_today then 1 else 0) 0 0)
               + Config.START_HOUR config * US_PER_HOUR)
              (day_floor (now + timedelta (if skip_today then 1 else 0) 0 0)
               + Config.END_HOUR config * US_PER_HOUR) with
      | None => []
      | Some busy_slots =>
          day_free_slots busy_slots
            (day_floor (now + timedelta (if skip_today then 1 else 0) 0 0)
             + Config.START_HOUR config * US_PER_HOUR)
            (day_floor (now + timedelta (if skip_today then 1 else 0) 0 0)
             + Config.END_HOUR config * US_PER_HOUR)
            (Config.SLOT_DURATION config)
      end.
Proof.
  intros Hs He. unfold get_free_slots, or_default.
  set (off := if skip_today then 1 else 0).
  assert (Hoffs : day_offsets off 1 = [off]).
  { unfold day_offsets. simpl. f_equal. lia. }
  rewrite Hoffs. cbn [days_loop].
  rewrite replace_start_of_day by lia.
  rewrite replace_end_of_day by lia.
  now rewrite app_nil_r.
Qed.





(** C2, as the code has it.  With no busy interval, working hours
    09:00-18:00 and 60-minute slots, one day of [get_free_slots] is the
    17 slots that start every 30 minutes from 09:00 to 17:00, in that
    order; each lasts 60 minutes, so neighbours share 30 minutes, and
    the last one ends at 18:00. *)
Theorem C2_scenario_A_half_hour_steps
        (now : Z) (skip_today database_url : bool) :
  get_free_slots (Config.defaults database_url) (fun _ _ => Some [])
                 now 1 None None skip_today
  = Some
      (map (fun k =>
              {| start := day_floor (now + timedelta
                                             (if skip_today then 1 else 0)
                                             0 0)
                          + timedelta 0 9 (30 * k);
                 end_ := day_floor (now + timedelta
                                            (if skip_today then 1 else 0)
                                            0 0)
                         + timedelta 0 10 (30 * k) |})
           (map Z.of_nat (seq 0 17))).
Proof.
  rewrite get_free_slots_one_day by (simpl; lia).
  cbn [Config.defaults Config.START_HOUR Config.END_HOUR
       Config.SLOT_DURATION].
  set (d := day_floor (now + timedelta (if skip_today then 1 else 0) 0 0)).
  f_equal. unfold day_free_slots, scan_fuel.
  replace (d + 18 * US_PER_HOUR - (d + 9 * US_PER_HOUR))
    with (9 * US_PER_HOUR) by lia.
  change (S (Z.to_nat (9 * US_PER_HOUR / slot_interval))) with 19%nat.
  replace (d + 18 * US_PER_HOUR) with (18 * US_PER_HOUR + d) by lia.
  replace (d + 9 * US_PER_HOUR) with (9 * US_PER_HOUR + d) by lia.
  change (@nil Slot) with (map (shift d) []).
  rewrite scan_slots_shift, scan_empty_day, map_map.
  apply map_ext. intros k. unfold shift. simpl. f_equal; lia.
Qed.

(** Scenario A at a concrete clock, midnight of day 0 with today
    included: the list has 17 slots, not nine. *)
Lemma C2_nine_slots_counterexample :
  ~ (exists l,
        get_free_slots (Config.defaults true) (fun _ _ => Some []) 0 1
                       None None false = Some l
        /\ nine_sequential_slots (9 * US_PER_HOUR) l).
Proof.
  intros (l & Hrun & Hlen & _).
  vm_compute in Hrun. injection Hrun as <-. discriminate Hlen.
Qed.

End CalendarClaims.

(** ** Sessions and tables *)

Section DatabaseFacts.
Import Io Db.

Lemma session_ok {A} (config : Config.t) (fails : Op -> bool) (op : Op)
      (body : Database -> A * Database) (w : World) :
  Spec.healthy config fails ->
  session config fails op body w
  = (Return (fst (body (db w))),
     {| db := snd (body (db w)); effects := effects w |}).
Proof.
  intros [Hurl Hok]. unfold session. rewrite Hurl, Hok. simpl.
  destruct (body (db w)); reflexivity.
Qed.

Lemma find_update_where {A} (f c : A -> bool) (g : A -> A) (rows : list A) :
  (forall r, f (g r) = f r) ->
  find f (update_where c g rows)
  = option_map (fun r => if c r then g r else r) (find f rows).
Proof.
  intros Hpres. induction rows as [|r rows IH]; simpl; [reflexivity |].
  destruct (c r) eqn:Hc.
  - rewrite Hpres. destruct (f r); simpl; [now rewrite Hc | exact IH].
  - destruct (f r); simpl; [now rewrite Hc | exact IH].
Qed.

Lemma parent_after_moderation (d : Database) (user_id : Z) (p : Parent.t)
      (blocked : option bool) (count : option Z) :
  parent_by_telegram_id d user_id = Some p ->
  find (fun q => Parent.telegram_id q =? user_id)
       (update_where (fun q => Parent.id q =? Parent.id p)
                     (set_moderation blocked count) (parents d))
  = Some (set_moderation blocked count p).
Proof.
  intros Hfind. unfold parent_by_telegram_id in Hfind.
  rewrite find_update_where by reflexivity.
  rewrite Hfind. simpl. now rewrite Z.eqb_refl.
Qed.

Lemma for_each_app {A} (xs ys : list A) (body : A -> M unit) (w w' : World) :
  for_each xs body w = (Return tt, w') ->
  for_each (xs ++ ys) body w = for_each ys body w'.
Proof.
  revert w. induction xs as [|x xs IH]; intros w Hrun.
  - cbn in Hrun. injection Hrun as <-. reflexivity.
  - cbn [for_each app] in *. unfold bind in *.
    destruct (body x w) as [[[] | e] w1]; [| discriminate].
    now apply IH.
Qed.

End DatabaseFacts.

(** ** Moderation *)

Section ModerationFacts.
Import Io Db SalesFunnel Spec.

Variable config : Config.t.
Variable fails : Db.Op -> bool.
Variable delivers : Z -> Reply -> bool.
Variable intent_recognizer : option (Text -> option Text).
Variable Template : Type.
Variable find_template_by_keywords : Text -> option Template.
Variable build_template_response :
  Template -> list DialogHistory.t -> Dict -> Text.
Variable is_query_relevant_ai : Text -> list DialogHistory.t -> bool.
Variable cmd_book : Message -> M unit.
Variable answer_relevant :
  Message -> list DialogHistory.t -> option Parent.t -> M unit.
(** [config.ADMIN_IDS], and whether a message to an operator's chat
    goes through. *)
Variable ADMIN_IDS : list Z.
Variable admin_delivers : Z -> bool.

Let handle :=
  handle_text_message config fails delivers intent_recognizer Template
    find_template_by_keywords build_template_response is_query_relevant_ai
    cmd_book answer_relevant.

Hypothesis Hhealthy : healthy config fails.

Lemma handle_irrelevant_step (message : Message) (w : World) (p : Parent.t)
      (history : list DialogHistory.t) :
  (forall r, delivers (user_id message) r = true) ->
  parent_by_telegram_id (db w) (user_id message) = Some p ->
  Parent.is_blocked p = false ->
  exists w' p',
    handle_irrelevant config fails delivers message (profile_of p) history w
    = (Return tt, w')
    /\ parent_by_telegram_id (db w') (user_id message) = Some p'
    /\ Parent.irrelevant_count p' = Parent.irrelevant_count p + 1
    /\ Parent.onboarding_completed_at p' = Parent.onboarding_completed_at p
    /\ Parent.is_blocked p'
       = (IRRELEVANT_QUERY_LIMIT <=? Parent.irrelevant_count p + 1)
    /\ effects w'
       = effects w
         ++ (if Parent.irrelevant_count p + 1 =? 1
             then [Answer (user_id message) SoftNudge]
             else if Parent.irrelevant_count p + 1 <? IRRELEVANT_QUERY_LIMIT
             then [Answer (user_id message) HandoffOffer]
             else [Answer (user_id message) BlockedHandoff;
                   NotifyAdminOfBlock (user_id message)
                                      (last_entries 5 history)]).
Proof.
  intros Hdel Hfind Hnb.
  pose proof Hhealthy as [Hurl Hok].
  unfold handle_irrelevant, bind, increment_irrelevant_count.
  rewrite Hurl. cbn [negb].
  rewrite session_ok by assumption. rewrite Hfind. cbn [fst snd].
  set (n := Parent.irrelevant_count p + 1).
  set (d1 := set_parents _ (db w)).
  assert (Hfind1 : parent_by_telegram_id d1 (user_id message)
                   = Some (set_moderation None (Some n) p)).
  { unfold parent_by_telegram_id, d1. cbn [parents set_parents].
    now apply parent_after_moderation. }
  unfold IRRELEVANT_QUERY_LIMIT.
  destruct (n =? 1) eqn:H1.
  - unfold answer. rewrite Hdel. unfold emit. cbn [db effects].
    eexists _, _. split; [reflexivity |]. cbn [db].
    split; [exact Hfind1 |]. cbn.
    repeat split; try reflexivity. rewrite Hnb.
    apply Z.eqb_eq in H1. symmetry. apply Z.leb_gt. lia.
  - destruct (n <? 3) eqn:H3.
    + unfold answer. rewrite Hdel. unfold emit. cbn [db effects].
      eexists _, _. split; [reflexivity |]. cbn [db].
      split; [exact Hfind1 |]. cbn.
      repeat split; try reflexivity. rewrite Hnb.
      apply Z.ltb_lt in H3. symmetry. apply Z.leb_gt. lia.
    + assert (Hge : (n >=? 3) = true).
      { apply Z.ltb_ge in H3. apply Z.geb_le. lia. }
      rewrite Hge. unfold block_user.
      rewrite session_ok by assumption. cbn [fst snd db effects].
      unfold answer. rewrite Hdel. unfold emit, notify_admin_of_block, emit.
      cbn [db effects].
      eexists _, _. split; [reflexivity |]. cbn [db].
      split.
      * unfold parent_by_telegram_id. cbn [parents set_parents].
        unfold profile_of. cbn [Profile.id].
        replace (fun p0 : Parent.t => Parent.id p0 =? Parent.id p)
          with (fun q : Parent.t =>
                  Parent.id q =? Parent.id (set_moderation None (Some n) p))
          by reflexivity.
        apply parent_after_moderation. exact Hfind1.
      * cbn. repeat split; try reflexivity.
        -- apply Z.ltb_ge in H3. symmetry. apply Z.leb_le. lia.
        -- now rewrite <- app_assoc.
Qed.

(** One off-topic message of an onboarded, unblocked user. *)
Lemma off_topic_step (message : Message) (w : World) (p : Parent.t) (t : Z) :
  (forall r, delivers (user_id message) r = true) ->
  parent_by_telegram_id (db w) (user_id message) = Some p ->
  Parent.is_blocked p = false ->
  Parent.onboarding_completed_at p = Some t ->
  off_topic intent_recognizer find_template_by_keywords
            is_query_relevant_ai message ->
  exists w' history p',
    handle message w = (Return tt, w')
    /\ parent_by_telegram_id (db w') (user_id message) = Some p'
    /\ Parent.irrelevant_count p' = Parent.irrelevant_count p + 1
    /\ Parent.onboarding_completed_at p' = Some t
    /\ Parent.is_blocked p'
       = (IRRELEVANT_QUERY_LIMIT <=? Parent.irrelevant_count p + 1)
    /\ effects w'
       = effects w
         ++ (if Parent.irrelevant_count p + 1 =? 1
             then [Answer (user_id message) SoftNudge]
             else if Parent.irrelevant_count p + 1 <? IRRELEVANT_QUERY_LIMIT
             then [Answer (user_id message) HandoffOffer]
             else [Answer (user_id message) BlockedHandoff;
                   NotifyAdminOfBlock (user_id message) history]).
Proof.
  intros Hdel Hfind Hnb Hon (Hintent & Htpl & Hrel).
  pose proof Hhealthy as [Hurl Hok].
  unfold handle, handle_text_message, try_except, bind.
  unfold get_full_parent_data. rewrite Hurl. cbn [negb].
  rewrite session_ok by assumption. rewrite Hfind. cbn [fst snd].
  unfold profile_of at 1. cbn [Profile.is_blocked]. rewrite Hnb.
  unfold profile_of at 1. cbn [Profile.onboarding_completed_at]. rewrite Hon.
  unfold load_dialog. rewrite Hurl. cbn [negb].
  rewrite session_ok by assumption. cbn [fst snd db effects].
  unfold get_or_create_parent. rewrite Hurl. cbn [negb].
  rewrite session_ok by assumption. cbn [fst snd db effects].
  rewrite Hfind. cbn [fst snd db effects].
  unfold save_dialog. rewrite Hurl. cbn [negb].
  rewrite session_ok by assumption. cbn [fst snd db effects].
  cbv zeta in Hintent, Htpl. rewrite Hintent, Htpl, Hrel. cbn [negb].
  set (w1 := {| db := insert_dialog _ (db w); effects := effects w |}).
  destruct (handle_irrelevant_step message w1 p
              (last_entries 20
                 (filter (fun e => DialogHistory.parent_id e =? user_id message)
                         (dialog_history (db w)))) Hdel Hfind Hnb)
    as (w' & p' & Hrun & Hp' & Hcount & Honb & Hblocked & Heff).
  rewrite Hrun. eexists w', _, p'. split; [reflexivity |].
  repeat split; try assumption.
  - now rewrite Honb.
  - exact Heff.
Qed.

(** A message of a blocked user stops at the guard. *)
Lemma blocked_step (message : Message) (w : World) (p : Parent.t) :
  parent_by_telegram_id (db w) (user_id message) = Some p ->
  Parent.is_blocked p = true ->
  handle message w = (Return tt, w).
Proof.
  intros Hfind Hb. pose proof Hhealthy as [Hurl Hok].
  unfold handle, handle_text_message, try_except, bind.
  unfold get_full_parent_data. rewrite Hurl. cbn [negb].
  rewrite session_ok by assumption. rewrite Hfind. cbn [fst snd].
  unfold profile_of at 1. cbn [Profile.is_blocked]. rewrite Hb.
  unfold ret. now destruct w.
Qed.

Lemma blocked_run (messages : list Message) (w : World) (p : Parent.t)
      (u : Z) :
  (forall m, In m messages -> user_id m = u) ->
  parent_by_telegram_id (db w) u = Some p ->
  Parent.is_blocked p = true ->
  for_each messages handle w = (Return tt, w).
Proof.
  induction messages as [|m ms IH]; intros Hall Hfind Hb; [reflexivity |].
  cbn [for_each]. unfold bind.
  rewrite (blocked_step m w p).
  - apply IH; auto. intros m' Hin. apply Hall. now right.
  - rewrite (Hall m (or_introl eq_refl)). exact Hfind.
  - exact Hb.
Qed.

Lemma block_notices_app (es es' : list Effect) :
  block_notices (es ++ es') = (block_notices es + block_notices es')%nat.
Proof. unfold block_notices. now rewrite filter_app, length_app. Qed.

Lemma block_messages_app (es es' : list Effect) :
  block_messages ADMIN_IDS admin_delivers (es ++ es')
  = block_messages ADMIN_IDS admin_delivers es
    ++ block_messages ADMIN_IDS admin_delivers es'.
Proof. unfold block_messages. apply flat_map_app. Qed.

Lemma replies_to_app (chat_id : Z) (es es' : list Effect) :
  replies_to chat_id (es ++ es')
  = replies_to chat_id es ++ replies_to chat_id es'.
Proof. unfold replies_to. apply flat_map_app. Qed.

(** Three off-topic messages in a row, from a counter of 0. *)
Lemma three_strikes (m1 m2 m3 : Message) (w : World) (p : Parent.t) (t : Z) :
  user_id m2 = user_id m1 -> user_id m3 = user_id m1 ->
  (forall r, delivers (user_id m1) r = true) ->
  parent_by_telegram_id (db w) (user_id m1) = Some p ->
  Parent.is_blocked p = false ->
  Parent.irrelevant_count p = 0 ->
  Parent.onboarding_completed_at p = Some t ->
  (forall m, In m [m1; m2; m3] ->
             off_topic intent_recognizer find_template_by_keywords
                       is_query_relevant_ai m) ->
  exists w' p',
    for_each [m1; m2; m3] handle w = (Return tt, w')
    /\ parent_by_telegram_id (db w') (user_id m1) = Some p'
    /\ Parent.is_blocked p' = true
    /\ block_notices (effects w') = S (block_notices (effects w))
    /\ block_messages ADMIN_IDS admin_delivers (effects w')
       = block_messages ADMIN_IDS admin_delivers (effects w)
         ++ AdminNotifications._send_to_admins ADMIN_IDS admin_delivers
    /\ replies_to (user_id m1) (effects w')
       = replies_to (user_id m1) (effects w)
         ++ [SoftNudge; HandoffOffer; BlockedHandoff].
Proof.
  intros Hu2 Hu3 Hdel Hfind Hnb Hzero Hon Hoff.
  destruct (off_topic_step m1 w p t Hdel Hfind Hnb Hon
              (Hoff m1 (or_introl eq_refl)))
    as (w1 & h1 & p1 & Hrun1 & Hp1 & Hc1 & Hon1 & Hb1 & He1).
  rewrite Hzero in Hc1, Hb1, He1. cbn in Hb1, He1.
  rewrite <- Hu2 in Hp1, Hdel.
  destruct (off_topic_step m2 w1 p1 t Hdel Hp1 Hb1 Hon1
              (Hoff m2 (or_intror (or_introl eq_refl))))
    as (w2 & h2 & p2 & Hrun2 & Hp2 & Hc2 & Hon2 & Hb2 & He2).
  rewrite Hc1 in Hc2, Hb2, He2. cbn in Hb2, He2.
  rewrite Hu2, <- Hu3 in Hp2, Hdel.
  destruct (off_topic_step m3 w2 p2 t Hdel Hp2 Hb2 Hon2
              (Hoff m3 (or_intror (or_intror (or_introl eq_refl)))))
    as (w3 & h3 & p3 & Hrun3 & Hp3 & Hc3 & Hon3 & Hb3 & He3).
  rewrite Hc2 in Hc3, Hb3, He3. cbn in Hb3, He3.
  exists w3, p3. cbn [for_each]. unfold bind, ret.
  rewrite Hrun1, Hrun2, Hrun3. split; [reflexivity |].
  rewrite Hu3 in Hp3. split; [exact Hp3 |]. split; [exact Hb3 |].
  rewrite He3, He2, He1, Hu2, Hu3.
  rewrite !block_notices_app, !block_messages_app, !replies_to_app.
  generalize (block_notices (effects w))
             (block_messages ADMIN_IDS admin_delivers (effects w))
             (replies_to (user_id m1) (effects w)).
  intros k ms rs. cbn. rewrite Z.eqb_refl. cbn. split; [lia |].
  rewrite !app_nil_r. split; [reflexivity |].
  now rewrite <- !app_assoc.
Qed.

(** C3, as the code has it.  An off-topic message of an onboarded,
    unblocked user raises the user's counter by one and is answered by
    the counter's new value: at 1 the soft nudge; between 1 and the
    limit of 3 the offer to call a manager; from 3 on the profile is
    blocked and [notify_admin_of_block] is called, once.  That call
    sends the notice to each id of [ADMIN_IDS] whose chat takes it: to
    nobody when the list is empty.  Three such messages in a row,
    starting from a counter of 0, end with the profile blocked and that
    one call, and whatever the user sends after them adds no reply, no
    call and no message to an operator. *)
Theorem C3_off_topic_escalation :
  (forall (message : Message) (w : World) (p : Parent.t) (t : Z),
      (forall r, delivers (user_id message) r = true) ->
      parent_by_telegram_id (db w) (user_id message) = Some p ->
      Parent.is_blocked p = false ->
      Parent.onboarding_completed_at p = Some t ->
      off_topic intent_recognizer find_template_by_keywords
                is_query_relevant_ai message ->
      exists w' history p',
        handle message w = (Return tt, w')
        /\ parent_by_telegram_id (db w') (user_id message) = Some p'
        /\ Parent.irrelevant_count p' = Parent.irrelevant_count p + 1
        /\ (Parent.irrelevant_count p' = 1 ->
            Parent.is_blocked p' = false
            /\ effects w' = effects w ++ [Answer (user_id message) SoftNudge])
        /\ (1 < Parent.irrelevant_count p' < IRRELEVANT_QUERY_LIMIT ->
            Parent.is_blocked p' = false
            /\ effects w'
               = effects w ++ [Answer (user_id message) HandoffOffer])
        /\ (IRRELEVANT_QUERY_LIMIT <= Parent.irrelevant_count p' ->
            Parent.is_blocked p' = true
            /\ effects w'
               = effects w ++ [Answer (user_id message) BlockedHandoff;
                               NotifyAdminOfBlock (user_id message) history]
            /\ block_notices (effects w') = S (block_notices (effects w))
            /\ block_messages ADMIN_IDS admin_delivers (effects w')
               = block_messages ADMIN_IDS admin_delivers (effects w)
                 ++ AdminNotifications._send_to_admins ADMIN_IDS
                                                       admin_delivers))
  /\
  (forall (m1 m2 m3 : Message) (more : list Message) (w : World)
          (p : Parent.t) (t : Z),
      user_id m2 = user_id m1 -> user_id m3 = user_id m1 ->
      (forall m, In m more -> user_id m = user_id m1) ->
      (forall r, delivers (user_id m1) r = true) ->
      parent_by_telegram_id (db w) (user_id m1) = Some p ->
      Parent.is_blocked p = false ->
      Parent.irrelevant_count p = 0 ->
      Parent.onboarding_completed_at p = Some t ->
      (forall m, In m [m1; m2; m3] ->
                 off_topic intent_recognizer find_template_by_keywords
                           is_query_relevant_ai m) ->
      exists w' p',
        for_each ([m1; m2; m3] ++ more) handle w = (Return tt, w')
        /\ parent_by_telegram_id (db w') (user_id m1) = Some p'
        /\ Parent.is_blocked p' = true
        /\ block_notices (effects w') = S (block_notices (effects w))
        /\ block_messages ADMIN_IDS admin_delivers (effects w')
           = block_messages ADMIN_IDS admin_delivers (effects w)
             ++ AdminNotifications._send_to_admins ADMIN_IDS admin_delivers
        /\ replies_to (user_id m1) (effects w')
           = replies_to (user_id m1) (effects w)
             ++ [SoftNudge; HandoffOffer; BlockedHandoff]).
Proof.
  split.
  - intros message w p t Hdel Hfind Hnb Hon Hoff.
    destruct (off_topic_step message w p t Hdel Hfind Hnb Hon Hoff)
      as (w' & history & p' & Hrun & Hp' & Hcount & _ & Hblocked & Heff).
    exists w', history, p'. rewrite <- Hcount in Hblocked, Heff.
    unfold IRRELEVANT_QUERY_LIMIT in *.
    split; [exact Hrun |]. split; [exact Hp' |]. split; [exact Hcount |].
    split; [| split].
    + intros H1. rewrite Hblocked, Heff, H1. split; reflexivity.
    + intros H2. rewrite Hblocked, Heff.
      destruct (Z.eqb_spec (Parent.irrelevant_count p') 1); [lia |].
      destruct (Z.ltb_spec (Parent.irrelevant_count p') 3); [| lia].
      split; [apply Z.leb_gt; lia | reflexivity].
    + intros H3. rewrite Hblocked, Heff.
      destruct (Z.eqb_spec (Parent.irrelevant_count p') 1); [lia |].
      destruct (Z.ltb_spec (Parent.irrelevant_count p') 3); [lia |].
      split; [apply Z.leb_le; lia |]. split; [reflexivity |].
      rewrite block_notices_app, block_messages_app.
      split.
      * generalize (block_notices (effects w)). intros k. cbn. lia.
      * cbn. now rewrite app_nil_r.
  - intros m1 m2 m3 more w p t Hu2 Hu3 Hmore Hdel Hfind Hnb Hzero Hon Hoff.
    destruct (three_strikes m1 m2 m3 w p t Hu2 Hu3 Hdel Hfind Hnb Hzero
                Hon Hoff)
      as (w' & p' & Hrun & Hp' & Hb' & Hnotices & Hreplies).
    exists w', p'. split; [| auto].
    rewrite (for_each_app _ more _ w w' Hrun).
    exact (blocked_run more w' p' (user_id m1) Hmore Hp' Hb').
Qed.

(** C4.  While the profile of the sender is blocked the handler returns
    at its guard: no reply, no notification, no change of the tables,
    for one message and so for any run of messages.
    [unblock_and_reset] clears the flag and sets the counter to 0 in
    one statement. *)
Theorem C4_blocked_until_unblock :
  (forall (messages : list Message) (w : World) (p : Parent.t) (u : Z),
      (forall m, In m messages -> user_id m = u) ->
      parent_by_telegram_id (db w) u = Some p ->
      Parent.is_blocked p = true ->
      for_each messages handle w = (Return tt, w))
  /\
  (forall (w : World) (p : Parent.t) (u : Z),
      parent_by_telegram_id (db w) u = Some p ->
      exists w' p',
        unblock_and_reset config fails u w = (Return true, w')
        /\ effects w' = effects w
        /\ parent_by_telegram_id (db w') u = Some p'
        /\ Parent.is_blocked p' = false
        /\ Parent.irrelevant_count p' = 0
        /\ Parent.id p' = Parent.id p).
Proof.
  split.
  - intros messages w p u. apply blocked_run.
  - intros w p u Hfind. unfold unblock_and_reset.
    rewrite session_ok by assumption. cbn [fst snd].
    assert (Hhit : existsb (fun q => Parent.telegram_id q =? u)
                           (parents (db w)) = true).
    { unfold parent_by_telegram_id in Hfind. apply find_some in Hfind.
      apply existsb_exists. exists p. exact Hfind. }
    rewrite Hhit.
    eexists _, _. split; [reflexivity |]. split; [reflexivity |].
    cbn [db]. unfold parent_by_telegram_id in *.
    cbn [parents set_parents].
    rewrite find_update_where by reflexivity. rewrite Hfind. cbn [option_map].
    apply find_some in Hfind. destruct Hfind as [_ Hm]. rewrite Hm.
    repeat split; reflexivity.
Qed.

End ModerationFacts.

Section ModerationWitnesses.
Import Io Db SalesFunnel Spec.

Lemma sample_healthy : healthy (Config.defaults true) (fun _ => false).
Proof. split; reflexivity. Qed.

Lemma sample_off_topic :
  off_topic None (fun _ : Text => @None unit) (fun _ _ => false)
            sample_message.
Proof. repeat split. Qed.

(** Three off-topic messages from a counter of 0 with no operator
    configured, as by default: the profile is blocked and no operator
    gets a message. *)
Lemma C3_no_operator_counterexample :
  let w0 := sample_world [sample_parent 0 false] [] in
  let w1 :=
    snd (for_each [sample_message; sample_message; sample_message]
                  sample_handler w0) in
  option_map Parent.is_blocked (parent_by_telegram_id (db w1) 42)
  = Some true
  /\ ~ one_operator_notification [] (fun _ => true)
                                 (effects w0) (effects w1).
Proof.
  cbv zeta. split; [vm_compute; reflexivity |].
  unfold one_operator_notification. vm_compute. discriminate.
Qed.

(** Three off-topic messages and a fourth one, from a counter of 0, with
    the operators 7 and 8, of whom 8 cannot be reached. *)
Lemma C3_off_topic_escalation_witness :
  exists w',
    for_each ([sample_message; sample_message; sample_message]
              ++ [sample_message])
             sample_handler (sample_world [sample_parent 0 false] [])
    = (Return tt, w')
    /\ block_notices (effects w') = 1%nat
    /\ block_messages [7; 8] (fun admin_id => admin_id =? 7) (effects w')
       = [7].
Proof.
  assert (Hmore : forall m, In m [sample_message] ->
                            user_id m = user_id sample_message)
    by (intros m [<- | []]; reflexivity).
  assert (Hoff : forall m,
             In m [sample_message; sample_message; sample_message] ->
             off_topic None (fun _ : Text => @None unit) (fun _ _ => false) m)
    by (intros m [<- | [<- | [<- | []]]]; exact sample_off_topic).
  destruct (proj2 (C3_off_topic_escalation
                     (Config.defaults true) (fun _ => false)
                     (fun _ _ => true) None unit (fun _ => None)
                     (fun _ _ _ => []) (fun _ _ => false)
                     (fun _ => ret tt) (fun _ _ _ => ret tt)
                     [7; 8] (fun admin_id => admin_id =? 7)
                     sample_healthy)
              sample_message sample_message sample_message [sample_message]
              (sample_world [sample_parent 0 false] [])
              (sample_parent 0 false) 0
              eq_refl eq_refl Hmore (fun _ => eq_refl)
              eq_refl eq_refl eq_refl eq_refl Hoff)
    as (w' & p' & Hrun & _ & _ & Hnotices & Hmessages & _).
  exists w'. split; [exact Hrun |]. split; [exact Hnotices |].
  exact Hmessages.
Defined.

(** Two messages of a user blocked at a counter of 3. *)
Lemma C4_blocked_until_unblock_witness :
  for_each [sample_message; sample_message] sample_handler
           (sample_world [sample_parent 3 true] [])
  = (Return tt, sample_world [sample_parent 3 true] []).
Proof.
  apply (proj1 (C4_blocked_until_unblock
                  (Config.defaults true) (fun _ => false)
                  (fun _ _ => true) None unit (fun _ => None)
                  (fun _ _ _ => []) (fun _ _ => false)
                  (fun _ => ret tt) (fun _ _ _ => ret tt)
                  sample_healthy)
               [sample_message; sample_message]
               (sample_world [sample_parent 3 true] [])
               (sample_parent 3 true) 42).
  - intros m [<- | [<- | []]]; reflexivity.
  - reflexivity.
  - reflexivity.
Defined.

End ModerationWitnesses.

(** ** Reminder and completion sweeps *)

Section SchedulerFacts.
Import Io Db Time Scheduler Spec.

(** A lesson whose flag for a window is set is not selected for that
    window again. *)
Lemma select_reminders_skips_sent (now_msk : Z)
      (planned_lessons : list TrialLesson.t) (l : TrialLesson.t) :
  (In (l, Reminder24h) (select_reminders now_msk planned_lessons) ->
   TrialLesson.reminder_24h_sent l = false)
  /\ (In (l, Reminder1h) (select_reminders now_msk planned_lessons) ->
      TrialLesson.reminder_1h_sent l = false).
Proof.
  unfold select_reminders. split; intros Hin;
    apply in_flat_map in Hin; destruct Hin as (x & _ & Hin);
    repeat match type of Hin with
           | In _ (if ?c then _ else _) => destruct c eqn:?
           end;
    simpl in Hin; try tauto;
    destruct Hin as [Heq | []]; inversion Heq; subst;
    repeat match goal with
           | H : _ && _ = true |- _ => apply andb_true_iff in H; destruct H
           end;
    now apply negb_true_iff.
Qed.

(** A send that fails does not make the reminder task fail: the task
    returns, with nothing delivered. *)
Lemma send_reminder_message_swallows
      (renders : TrialLesson.t -> bool) (delivers : Z -> bool)
      (lesson : TrialLesson.t) (when : Reminder) (w : World)
      (parent : Parent.t) :
  find (fun p => Parent.id p =? TrialLesson.parent_id lesson)
       (parents (db w)) = Some parent ->
  renders lesson = true ->
  delivers (Parent.telegram_id parent) = false ->
  gathered (send_reminder_message renders delivers lesson when) w
  = (Return (Return tt), w).
Proof.
  intros Hparent Hrender Hsend.
  unfold gathered, send_reminder_message, bind, get_db.
  now rewrite Hparent, Hrender, Hsend.
Qed.

(** Both sweeps stop at their [async with]: the imported factory is
    [None]. *)
Lemma reminder_sweep_raises
      (config : Config.t) (fails : Op -> bool)
      (renders : TrialLesson.t -> bool) (delivers : Z -> bool)
      (now_msk now_utc now_utc' : Z) (w : World) :
  check_and_send_reminders config fails renders delivers
                           now_msk now_utc now_utc' w
  = (Raise TypeError, w).
Proof. unfold check_and_send_reminders, bind, session, raise. reflexivity. Qed.

Lemma completion_check_raises
      (config : Config.t) (fails : Op -> bool) (now_utc : Z) (w : World) :
  check_completed_lessons config fails now_utc w = (Raise TypeError, w).
Proof. unfold check_completed_lessons, bind, session, raise. reflexivity. Qed.

End SchedulerFacts.

Section SchedulerClaims.
Import Io Db Time Scheduler Spec Reminders.

(** C5.  Two reminder sweeps in a row, whatever the clocks, the tables
    and Telegram do: no lesson gets more than one reminder of a kind
    out of them; a flag that is set after them was set before or
    belongs to a reminder that was sent; and the selection never takes
    a lesson whose flag for the window is set.  As tasks.py is wired
    the sweep does not get that far: each run raises [TypeError] at its
    [async with] and leaves the tables and the log as they were. *)
Theorem C5_at_most_one_reminder
        (config : Config.t) (fails : Op -> bool)
        (renders : TrialLesson.t -> bool) (delivers : Z -> bool)
        (now_msk now_utc now_utc' later_msk later_utc later_utc' : Z)
        (w : World) :
  let first :=
    check_and_send_reminders config fails renders delivers
                             now_msk now_utc now_utc' in
  let second :=
    check_and_send_reminders config fails renders delivers
                             later_msk later_utc later_utc' in
  let w1 := snd (first w) in
  let w2 := snd (second w1) in
  (forall lesson when,
      (reminders_sent lesson when (effects w2)
       <= S (reminders_sent lesson when (effects w)))%nat)
  /\ (forall l' when,
         In l' (trial_lessons (db w2)) ->
         reminder_sent when l' = true ->
         (exists l, In l (trial_lessons (db w))
                    /\ TrialLesson.id l = TrialLesson.id l'
                    /\ reminder_sent when l = true)
         \/ (reminders_sent (TrialLesson.id l') when (effects w)
             < reminders_sent (TrialLesson.id l') when (effects w2))%nat)
  /\ (forall now lessons l when,
         In (l, when) (select_reminders now lessons) ->
         reminder_sent when l = false)
  /\ first w = (Raise TypeError, w)
  /\ second w1 = (Raise TypeError, w1).
Proof.
  cbv zeta. rewrite !reminder_sweep_raises. cbn [snd].
  rewrite ?reminder_sweep_raises. cbn [snd].
  split; [intros lesson when; lia|].
  split.
  { intros l' when Hin Hsent. left. exists l'. auto. }
  split; [|split; reflexivity].
  intros now lessons l when Hin.
  destruct (select_reminders_skips_sent now lessons l) as [H24 H1].
  destruct when; cbn [reminder_sent]; auto.
Qed.

(** C6, where the code leaves it.  Two planned lessons, 90 and 30
    minutes before the check, the database reachable: the check raises
    [TypeError] at its [async with], before its query, and both lessons
    stay [PLANNED]. *)
Theorem C6_completion_check_completes_nothing :
  let now_utc := timedelta 0 10 0 in
  let w0 := sample_world [sample_parent 0 false]
                         [sample_lesson 1 (now_utc - timedelta 0 0 90);
                          sample_lesson 3 (now_utc - timedelta 0 0 30)] in
  let run := check_completed_lessons (Config.defaults true)
                                     (fun _ => false) now_utc w0 in
  fst run = Raise TypeError
  /\ map (fun l => (TrialLesson.id l, TrialLesson.status l))
         (trial_lessons (db (snd run)))
     = [(1, PLANNED); (3, PLANNED)].
Proof.
  cbv zeta. rewrite completion_check_raises. cbn [fst snd].
  split; reflexivity.
Qed.

End SchedulerClaims.

(** ** Booking *)

Section BookingFacts.
Import Io Db Calendar Booking Spec.

Variable config : Config.t.
Variable fails : Db.Op -> bool.
Variable delete_event : string -> bool.
Variable get_busy_slots : Provider.
Variable create_event : Z -> Z -> list DescriptionPart -> option CalendarEvent.
Variable sheets_service : option (string -> option bool).

(** The lesson block under its [try]: it always answers, touches
    nothing outside the tables, and answers [None] without a new lesson
    row when the lesson cannot be stored. *)
Lemma save_lesson_guarded (start_time : Z) (user_name user_contact : string)
      (user_id : Z) (event_id : option string) (child_id : option Z)
      (course_name notes : option string) (w : World) :
  exists l w',
    try_except
      (save_lesson config fails start_time user_name user_contact user_id
                   event_id child_id course_name notes)
      (fun _ => ret None) w
    = (Return l, w')
    /\ effects w' = effects w
    /\ (Config.DATABASE_URL config = false
        \/ fails OpGetOrCreateParent = true
        \/ fails OpAddTrialLesson = true ->
        l = None /\ trial_lessons (db w') = trial_lessons (db w)).
Proof.
  unfold try_except, save_lesson, bind, get_or_create_parent.
  destruct (Config.DATABASE_URL config) eqn:Hurl; cbn [negb].
  2:{ unfold ret. cbn. eexists _, _. repeat split; reflexivity. }
  unfold get_children, add_child_profile, add_trial_lesson, session,
    insert_child, insert_lesson, insert_parent, ret.
  rewrite Hurl. cbn [negb].
  repeat match goal with
         | |- context [if fails ?op then _ else _] =>
             destruct (fails op) eqn:?
         | |- context [match parent_by_telegram_id ?d ?u with _ => _ end] =>
             destruct (parent_by_telegram_id d u) eqn:?
         | |- context [if negb (truthy_int ?c) then _ else _] =>
             destruct (truthy_int c) eqn:?; cbn [negb]
         | |- context [if truthy_int ?c then _ else _] =>
             destruct (truthy_int c) eqn:?
         | |- context [match filter ?f ?l with _ => _ end] =>
             destruct (filter f l) eqn:?
         | |- context [match ?c with Some _ => _ | None => _ end] =>
             destruct c eqn:?
         end;
    cbn [db effects fst snd];
    (eexists _, _; split; [reflexivity |]; split; [reflexivity |];
     intros [H | [H | H]]; try congruence; split; reflexivity).
Qed.

(** The sheet row under its [try]: at most one row is added. *)
Lemma sheet_row_guarded (event_id : option string) (status : string)
      (w : World) :
  exists sheet,
    try_except
      (bind (add_booking sheets_service event_id status) (fun _ => ret tt))
      (fun _ => ret tt) w
    = (Return tt, {| db := db w; effects := effects w ++ sheet |})
    /\ Forall is_sheet_row sheet.
Proof.
  unfold try_except, bind, add_booking, raise, ret, emit.
  destruct sheets_service as [add |].
  - destruct (add status) as [[|] |]; cbn.
    + eexists [_]. split; [reflexivity |]. repeat constructor.
    + exists []. rewrite app_nil_r. destruct w.
      split; [reflexivity | constructor].
    + exists []. rewrite app_nil_r. destruct w.
      split; [reflexivity | constructor].
  - exists []. rewrite app_nil_r. destruct w.
    split; [reflexivity | constructor].
Qed.

Lemma slot_is_clear_false (busy_slots : list Slot) (s e : Z) (b : Slot) :
  In b busy_slots -> s < end_ b -> e > start b ->
  slot_is_clear busy_slots s e = false.
Proof.
  intros Hin Hs He. induction busy_slots as [|x rest IH]; [destruct Hin |].
  simpl. destruct Hin as [-> | Hin].
  - replace (s <? end_ b) with true by (symmetry; apply Z.ltb_lt; lia).
    replace (e >? start b) with true by (symmetry; apply Z.gtb_gt; lia).
    reflexivity.
  - destruct ((s <? end_ x) && (e >? start x)); [reflexivity | auto].
Qed.

(** Every run of [book_slot], by what the calendar answers. *)
Lemma book_slot_trace (start_time end_time : Z)
      (user_name user_contact user_phone : string) (user_id : option Z)
      (cancel_event_id : option string) (child_id : option Z)
      (course_name notes : option string) (w : World) :
  exists r w' pre post,
    book_slot config fails delete_event get_busy_slots create_event
              sheets_service start_time end_time user_name user_contact
              user_phone user_id cancel_event_id child_id course_name notes w
    = (Return r, w')
    /\ effects w'
       = effects w ++ pre ++ CalendarList start_time end_time :: post
    /\ Forall is_calendar_delete pre
    /\ match get_busy_slots start_time end_time with
       | None => r = NotBooked SLOT_TAKEN /\ post = [] /\ db w' = db w
       | Some busy_slots =>
           if slot_is_clear busy_slots start_time end_time then
             match create_event start_time end_time
                     (description_parts user_id user_name user_contact
                                        user_phone) with
             | None => success r = false /\ post = [] /\ db w' = db w
             | Some event =>
                 exists cancelled l sheet,
                   r = Booked (id event) (htmlLink event) start_time
                              end_time cancelled l
                   /\ post = CalendarInsert start_time end_time
                               (description_parts user_id user_name
                                                  user_contact user_phone)
                             :: sheet
                   /\ Forall is_sheet_row sheet
                   /\ (lesson_not_storable config fails ->
                       l = None
                       /\ trial_lessons (db w') = trial_lessons (db w))
             end
           else r = NotBooked SLOT_TAKEN /\ post = [] /\ db w' = db w
       end.
Proof.
  unfold book_slot, try_except at 1, bind at 1.
  set (cancel := if truthy_str cancel_event_id then _ else _).
  assert (Hcancel : exists c pre,
             cancel w
             = (Return c, {| db := db w; effects := effects w ++ pre |})
             /\ Forall is_calendar_delete pre).
  { unfold cancel. destruct (truthy_str cancel_event_id).
    - destruct cancel_event_id as [id |].
      + destruct (delete_event id).
        * unfold bind, emit, ret. cbn. eexists _, [_].
          split; [reflexivity |]. repeat constructor.
        * exists None, []. unfold ret. rewrite app_nil_r. destruct w.
          split; [reflexivity | constructor].
      + exists None, []. unfold ret. rewrite app_nil_r. destruct w.
        split; [reflexivity | constructor].
    - exists None, []. unfold ret. rewrite app_nil_r. destruct w.
      split; [reflexivity | constructor]. }
  destruct Hcancel as (c & pre & Hc & Hpre). rewrite Hc. clear Hc cancel.
  unfold bind at 1, is_slot_available, bind at 1, emit. cbn [db effects].
  destruct (get_busy_slots start_time end_time) as [busy |].
  2:{ unfold ret. cbn. eexists _, _, pre, []. split; [reflexivity |].
      cbn. rewrite <- app_assoc. repeat split; auto. }
  unfold ret at 1. destruct (slot_is_clear busy start_time end_time).
  2:{ unfold ret. cbn. eexists _, _, pre, []. split; [reflexivity |].
      cbn. rewrite <- app_assoc. repeat split; auto. }
  cbn [negb]. cbv zeta. unfold bind at 1.
  destruct (create_event start_time end_time
              (description_parts user_id user_name user_contact user_phone))
    as [event |].
  2:{ unfold raise, ret. cbn. eexists _, _, pre, []. split; [reflexivity |].
      cbn. rewrite <- app_assoc. repeat split; auto. }
  unfold bind at 1, emit, ret at 1. cbn [db effects].
  unfold bind at 1.
  set (w1 := {| db := db w; effects := _ |}).
  assert (Hsheet : exists sheet,
             match sheets_service with
             | Some _ =>
                 try_except
                   (bind (add_booking sheets_service (id event)
                            (if truthy_str cancel_event_id
                             then STATUS_RESCHEDULED else STATUS_CREATED))
                         (fun _ => ret tt))
                   (fun _ => ret tt)
             | None => ret tt
             end w1
             = (Return tt, {| db := db w1; effects := effects w1 ++ sheet |})
             /\ Forall is_sheet_row sheet).
  { destruct sheets_service eqn:Hs.
    - rewrite <- Hs. apply sheet_row_guarded.
    - exists []. unfold ret. rewrite app_nil_r. destruct w1.
      split; [reflexivity | constructor]. }
  destruct Hsheet as (sheet & Hsheet & Hrows). rewrite Hsheet. clear Hsheet.
  unfold bind at 1.
  set (w2 := {| db := db w1; effects := _ |}).
  assert (Hsave : exists l w',
             (if truthy_int user_id
              then match user_id with
                   | Some uid =>
                       try_except
                         (save_lesson config fails start_time user_name
                                      user_contact uid (id event) child_id
                                      course_name notes)
                         (fun _ => ret None)
                   | None => ret None
                   end
              else ret None) w2 = (Return l, w')
             /\ effects w' = effects w2
             /\ (lesson_not_storable config fails ->
                 l = None /\ trial_lessons (db w') = trial_lessons (db w2))).
  { destruct (truthy_int user_id); [destruct user_id as [uid |] |].
    - apply save_lesson_guarded.
    - exists None, w2. auto.
    - exists None, w2. auto. }
  destruct Hsave as (l & w' & Hsave & Heff & Hstore). rewrite Hsave.
  unfold ret. eexists _, w', pre, _. split; [reflexivity |].
  split; [| split; [exact Hpre |]].
  - rewrite Heff. unfold w2, w1. cbn [effects].
    rewrite <- !app_assoc. cbn. reflexivity.
  - exists c, l, sheet. repeat split; auto; now apply Hstore.
Qed.

(** C7.  [book_slot] lists the busy intervals of the slot's window
    before anything is created, and the event insertion, when there is
    one, is the request right after that reading; before it come only
    the deletion of a superseded event.  When the provider lists an
    interval that overlaps the slot, the result is the failure
    [SLOT_TAKEN], nothing follows the reading (no event is inserted),
    and the tables are untouched (no lesson row). *)
Theorem C7_recheck_before_create (start_time end_time : Z)
      (user_name user_contact user_phone : string) (user_id : option Z)
      (cancel_event_id : option string) (child_id : option Z)
      (course_name notes : option string) (w : World) :
  (exists r w' pre post,
      book_slot config fails delete_event get_busy_slots create_event
                sheets_service start_time end_time user_name user_contact
                user_phone user_id cancel_event_id child_id course_name
                notes w
      = (Return r, w')
      /\ effects w'
         = effects w ++ pre ++ CalendarList start_time end_time :: post
      /\ Forall is_calendar_delete pre
      /\ (post = []
          \/ exists description sheet,
              post = CalendarInsert start_time end_time description :: sheet
              /\ Forall is_sheet_row sheet))
  /\
  (forall (busy_slots : list Slot) (b : Slot),
      get_busy_slots start_time end_time = Some busy_slots ->
      In b busy_slots -> start_time < end_ b -> end_time > start b ->
      exists w' pre,
        book_slot config fails delete_event get_busy_slots create_event
                  sheets_service start_time end_time user_name user_contact
                  user_phone user_id cancel_event_id child_id course_name
                  notes w
        = (Return (NotBooked SLOT_TAKEN), w')
        /\ effects w' = effects w ++ pre ++ [CalendarList start_time end_time]
        /\ Forall is_calendar_delete pre
        /\ db w' = db w).
Proof.
  destruct (book_slot_trace start_time end_time user_name user_contact
              user_phone user_id cancel_event_id child_id course_name notes w)
    as (r & w' & pre & post & Hrun & Heff & Hpre & Hcases).
  split.
  - exists r, w', pre, post. repeat (split; [assumption |]).
    destruct (get_busy_slots start_time end_time) as [busy |];
      [| left; tauto].
    destruct (slot_is_clear busy start_time end_time); [| left; tauto].
    destruct (create_event _ _ _); [| left; tauto].
    destruct Hcases as (cancelled & l & sheet & _ & Hpost & Hrows & _).
    right. eauto.
  - intros busy_slots b Hget Hin Hs He. rewrite Hget in Hcases.
    rewrite (slot_is_clear_false busy_slots _ _ b Hin Hs He) in Hcases.
    destruct Hcases as (-> & -> & Hdb).
    exists w', pre. auto.
Qed.

(** C10.  Once the slot is clear and the calendar event is created,
    [book_slot] answers success with that event, whatever the database
    does; when the lesson cannot be stored (no database, or the
    session of the parent lookup or of the lesson insert raises) the
    result has [lesson_id = None] and no lesson row was added. *)
Theorem C10_success_without_lesson_row (start_time end_time : Z)
      (user_name user_contact user_phone : string) (user_id : option Z)
      (cancel_event_id : option string) (child_id : option Z)
      (course_name notes : option string) (w : World)
      (busy_slots : list Slot) (event : CalendarEvent) :
  get_busy_slots start_time end_time = Some busy_slots ->
  slot_is_clear busy_slots start_time end_time = true ->
  create_event start_time end_time
               (description_parts user_id user_name user_contact user_phone)
  = Some event ->
  exists r w',
    book_slot config fails delete_event get_busy_slots create_event
              sheets_service start_time end_time user_name user_contact
              user_phone user_id cancel_event_id child_id course_name notes w
    = (Return r, w')
    /\ success r = true
    /\ (exists cancelled l,
           r = Booked (id event) (htmlLink event) start_time end_time
                      cancelled l)
    /\ In (CalendarInsert start_time end_time
             (description_parts user_id user_name user_contact user_phone))
          (effects w')
    /\ (lesson_not_storable config fails ->
        lesson_id r = None
        /\ trial_lessons (db w') = trial_lessons (db w)).
Proof.
  intros Hget Hclear Hcreate.
  destruct (book_slot_trace start_time end_time user_name user_contact
              user_phone user_id cancel_event_id child_id course_name notes w)
    as (r & w' & pre & post & Hrun & Heff & Hpre & Hcases).
  rewrite Hget, Hclear, Hcreate in Hcases.
  destruct Hcases as (c & l & sheet & -> & -> & Hrows & Hstore).
  exists (Booked (id event) (htmlLink event) start_time end_time c l), w'.
  split; [exact Hrun |]. split; [reflexivity |]. split; [eauto |]. split.
  - rewrite Heff. apply in_or_app. right. apply in_or_app. right.
    right. now left.
  - exact Hstore.
Qed.

End BookingFacts.

Section BookingWitnesses.
Import Io Db Calendar Booking Spec Time.

(** A slot 10:30-11:30 asked for while 10:00-11:00 is busy. *)
Lemma C7_recheck_before_create_witness :
  exists w' pre,
    book_slot (Config.defaults true) (fun _ => false) (fun _ => true)
              (fun _ _ => Some [{| start := timedelta 0 10 0;
                                   end_ := timedelta 0 11 0 |}])
              (fun _ _ _ => Some {| id := None; htmlLink := "" |}) None
              (timedelta 0 10 30) (timedelta 0 11 30)
              "" "" "" (Some 42) None None None None
              (sample_world [sample_parent 0 false] [])
    = (Return (NotBooked SLOT_TAKEN), w')
    /\ effects w'
       = effects (sample_world [sample_parent 0 false] [])
         ++ pre ++ [CalendarList (timedelta 0 10 30) (timedelta 0 11 30)]
    /\ Forall is_calendar_delete pre
    /\ db w' = db (sample_world [sample_parent 0 false] []).
Proof.
  apply (proj2 (C7_recheck_before_create
                  (Config.defaults true) (fun _ => false) (fun _ => true)
                  (fun _ _ => Some [{| start := timedelta 0 10 0;
                                       end_ := timedelta 0 11 0 |}])
                  (fun _ _ _ => Some {| id := None; htmlLink := "" |}) None
                  (timedelta 0 10 30) (timedelta 0 11 30)
                  "" "" "" (Some 42) None None None None
                  (sample_world [sample_parent 0 false] []))
               [{| start := timedelta 0 10 0; end_ := timedelta 0 11 0 |}]
               {| start := timedelta 0 10 0; end_ := timedelta 0 11 0 |}).
  - reflexivity.
  - now left.
  - reflexivity.
  - reflexivity.
Defined.

(** A free slot booked while the insert of the lesson row fails. *)
Lemma C10_success_without_lesson_row_witness :
  exists r w',
    book_slot (Config.defaults true)
              (fun op => match op with OpAddTrialLesson => true
                                  | _ => false end)
              (fun _ => true) (fun _ _ => Some [])
              (fun _ _ _ => Some {| id := None; htmlLink := "" |}) None
              (timedelta 0 10 0) (timedelta 0 11 0)
              "" "" "" (Some 42) None None None None
              (sample_world [sample_parent 0 false] [])
    = (Return r, w')
    /\ success r = true /\ lesson_id r = None
    /\ trial_lessons (db w') = [].
Proof.
  destruct (C10_success_without_lesson_row
              (Config.defaults true)
              (fun op => match op with OpAddTrialLesson => true
                                  | _ => false end)
              (fun _ => true) (fun _ _ => Some [])
              (fun _ _ _ => Some {| id := None; htmlLink := "" |}) None
              (timedelta 0 10 0) (timedelta 0 11 0)
              "" "" "" (Some 42) None None None None
              (sample_world [sample_parent 0 false] [])
              [] {| id := None; htmlLink := "" |}
              eq_refl eq_refl eq_refl)
    as (r & w' & Hrun & Hok & _ & _ & Hnone).
  exists r, w'. split; [exact Hrun |]. split; [exact Hok |].
  apply Hnone. right. right. reflexivity.
Defined.

End BookingWitnesses.

(** ** Onboarding *)

Section OnboardingClaims.
Import Io Db Onboarding Spec.

(** The profile update fails after the child record was committed: the
    child is there, the contact fields and the completion time are
    not. *)
Lemma C8_child_without_profile_counterexample :
  let w0 := sample_world [sample_newcomer] [] in
  let w1 :=
    snd (finish_onboarding
           (Config.defaults true)
           (fun op => match op with OpCompleteOnboarding => true
                               | _ => false end)
           (fun _ _ => true) (fun _ => None) 1000 sample_answers 42 None
           w0) in
  ~ onboarding_all_or_nothing (db w0) (db w1) 42.
Proof.
  cbv zeta. intros [(_ & _ & (p & t & Hp & Ht)) | (Hno & _)].
  - vm_compute in Hp. injection Hp as <-. discriminate Ht.
  - apply Hno. vm_compute. reflexivity.
Qed.

(** C8, as the code has it.  For a user whose parent row exists,
    [finish_onboarding] writes in two sessions.  The child record is
    committed first, by a session of its own: when that does not
    happen, nothing at all is written.  When it does, the child stays,
    whatever follows: if the one UPDATE of [complete_onboarding_in_db]
    fails, the handler raises, the child is there and the parents table
    is as before; if it goes through, name, phone, email,
    questionnaire, step and completion time of the user's row are
    written together. *)
Theorem C8_profile_update_atomic
        (config : Config.t) (fails : Op -> bool)
        (delivers : Z -> Reply -> bool) (parse_int : string -> option Z)
        (now : Z) (answers : Dict) (user_id : Z) (username : option string)
        (w : World) (p : Parent.t) :
  parent_by_telegram_id (db w) user_id = Some p ->
  exists r w',
    finish_onboarding config fails delivers parse_int now answers user_id
                      username w = (r, w')
    /\ (parents (db w') = parents (db w)
        \/ exists user_data,
            parents (db w')
            = update_where (fun q => Parent.id q =? Parent.id p)
                (set_onboarding_completed now
                   (column (get_or answers "parent_name" (JStr "")))
                   (column (get_or answers "parent_phone" JNull))
                   (column (get_or answers "parent_email" JNull))
                   user_data)
                (parents (db w))
            /\ child_created (db w) (db w'))
    /\ (~ child_record_committed config fails answers -> db w' = db w)
    /\ (child_record_committed config fails answers ->
        (exists child,
            children (db w') = children (db w) ++ [child]
            /\ Child.parent_id child = Parent.id p)
        /\ (fails OpCompleteOnboarding = true ->
            r = Raise SQLAlchemyError
            /\ parents (db w') = parents (db w))
        /\ (fails OpCompleteOnboarding = false ->
            exists user_data,
              parents (db w')
              = update_where (fun q => Parent.id q =? Parent.id p)
                  (set_onboarding_completed now
                     (column (get_or answers "parent_name" (JStr "")))
                     (column (get_or answers "parent_phone" JNull))
                     (column (get_or answers "parent_email" JNull))
                     user_data)
                  (parents (db w)))).
Proof.
  intros Hfind.
  unfold child_record_committed, finish_onboarding, bind,
    get_or_create_parent, add_child_profile, complete_onboarding_in_db,
    session, insert_child, raise, ret, emit.
  destruct (Config.DATABASE_URL config) eqn:Hurl; cbn [negb];
    [destruct (fails OpGetOrCreateParent) eqn:Hgp;
     [| cbn [db effects fst snd]; rewrite Hfind] |];
  repeat match goal with
         | |- context [if fails ?op then _ else _] =>
             destruct (fails op) eqn:?
         | |- context [if delivers ?a ?b then _ else _] =>
             destruct (delivers a b) eqn:?
         | |- context [match get_or ?a ?k ?d with _ => _ end] =>
             destruct (get_or a k d) eqn:?
         | |- context [match column ?c with _ => _ end] =>
             destruct (column c) eqn:?
         end;
    cbn [db effects fst snd parents children set_parents];
    (eexists _, _; split; [reflexivity |]; cbn [db parents children]).
  all: split;
    [ first [ left; reflexivity
            | right; eexists _; split; [reflexivity |];
              unfold child_created; cbn [children set_parents];
              rewrite length_app; simpl; lia ] |].
  all: split;
    [ first [ intros _; reflexivity
            | intros Hnot; exfalso; apply Hnot;
              repeat split; congruence ] |].
  all: first
    [ intros (Hu & Hg & Hage & Hname & Hchild); exfalso; congruence
    | intros _;
      split; [eexists; split; reflexivity |];
      split; [ first [ intros _; split; reflexivity
                     | intros Hf; exfalso; congruence ]
             | first [ intros _; eexists; reflexivity
                     | intros Hf; exfalso; congruence ] ] ].
Qed.

(** The sample questionnaire, finished while the update of the profile
    fails: the child is there, the parent row is as before. *)
Lemma C8_profile_update_atomic_witness :
  exists w' child,
    finish_onboarding (Config.defaults true)
                      (fun op => match op with OpCompleteOnboarding => true
                                          | _ => false end)
                      (fun _ _ => true) (fun _ => None) 1000 sample_answers
                      42 None (sample_world [sample_newcomer] [])
    = (Raise SQLAlchemyError, w')
    /\ children (db w') = [child]
    /\ parents (db w') = [sample_newcomer].
Proof.
  destruct (C8_profile_update_atomic
              (Config.defaults true)
              (fun op => match op with OpCompleteOnboarding => true
                                  | _ => false end)
              (fun _ _ => true)
              (fun _ => None) 1000 sample_answers 42 None
              (sample_world [sample_newcomer] []) sample_newcomer eq_refl)
    as (r & w' & Hrun & _ & _ & Hcommitted).
  destruct Hcommitted as ((child & Hchild & _) & Hfails & _).
  { repeat split; discriminate. }
  destruct (Hfails eq_refl) as [-> Hparents].
  exists w', child. split; [exact Hrun |]. split; assumption.
Defined.

End OnboardingClaims.

(** ** Keyboard-layout retry *)

Section LayoutClaims.
Import Llm Spec.

Lemma fullmatch_latin_iff (w : Text) :
  fullmatch_latin w = true
  <-> w <> [] /\ forall c, In c w -> is_latin c = true.
Proof.
  unfold fullmatch_latin. destruct w as [|c w].
  - split; [discriminate | intros [H _]; now destruct H].
  - rewrite forallb_forall. split.
    + intros H. split; [discriminate | exact H].
    + intros [_ H]. exact H.
Qed.

Lemma few_latin_words_iff (text : Text) :
  (List.length (split text) <=? 2)%nat
  && forallb fullmatch_latin (split text) = true
  <-> few_latin_words text.
Proof.
  unfold few_latin_words.
  rewrite andb_true_iff, Nat.leb_le, forallb_forall.
  split; intros [Hlen Hall]; (split; [exact Hlen |]); intros w Hw;
    apply fullmatch_latin_iff; auto.
Qed.

(** What [needs_layout_correction] computes. *)
Lemma needs_layout_correction_iff (text : Text) :
  needs_layout_correction text = true
  <-> (count is_cyrillic text = 0 /\ count is_latin text > 0)
      \/ count is_latin text > 2 * count is_cyrillic text
      \/ few_latin_words text.
Proof.
  unfold needs_layout_correction. rewrite <- few_latin_words_iff.
  destruct (Z.eqb_spec (count is_cyrillic text) 0) as [H0 | H0];
    destruct (Z.gtb_spec (count is_latin text) 0) as [Hl | Hl];
    destruct (Z.gtb_spec (count is_latin text) (2 * count is_cyrillic text))
      as [H2 | H2]; cbn [andb];
    destruct ((List.length (split text) <=? 2)%nat
              && forallb fullmatch_latin (split text));
    split; intros H; try reflexivity; try discriminate; try tauto; try lia;
    destruct H as [[? ?] | [? | ?]]; try lia; try discriminate.
Qed.

(** Every code point below 123 that is a Latin letter is moved by the
    layout table. *)
Lemma latin_key_moves :
  forallb (fun c => implb (is_latin c)
                      (negb (N.eqb match lookup (maketrans (eng ++ upper eng)
                                                           (rus ++ upper rus)) c
                                   with Some v => v | None => c end c)))
          (map N.of_nat (seq 0 123)) = true.
Proof. vm_compute. reflexivity. Qed.

Lemma to_russian_layout_moves_latin (c : N) :
  is_latin c = true ->
  match lookup (maketrans (eng ++ upper eng) (rus ++ upper rus)) c with
  | Some v => v | None => c end <> c.
Proof.
  intros Hc. pose proof latin_key_moves as Hall.
  rewrite forallb_forall in Hall.
  assert (Hlt : (c < 123)%N).
  { unfold is_latin, between in Hc.
    apply orb_true_iff in Hc.
    destruct Hc as [Hc | Hc]; apply andb_true_iff in Hc;
      destruct Hc as [_ Hc]; apply N.leb_le in Hc; lia. }
  specialize (Hall c).
  assert (Hin : In c (map N.of_nat (seq 0 123))).
  { apply in_map_iff. exists (N.to_nat c). split; [apply N2Nat.id |].
    apply in_seq. lia. }
  specialize (Hall Hin). rewrite Hc in Hall. cbn [implb] in Hall.
  apply negb_true_iff, N.eqb_neq in Hall. exact Hall.
Qed.

Lemma Text_eqb_map_fixed (f : N -> N) (t : Text) :
  Text_eqb (map f t) t = true -> forall c, In c t -> f c = c.
Proof.
  induction t as [|x t IH]; simpl; [intros _ c [] |].
  intros H c [<- | Hin]; apply andb_true_iff in H; destruct H as [Hx Ht].
  - now apply N.eqb_eq.
  - now apply IH.
Qed.

Lemma count_pos_In (class : N -> bool) (t : Text) :
  0 < count class t -> exists c, In c t /\ class c = true.
Proof.
  unfold count. induction t as [|x t IH]; simpl; [lia |].
  destruct (class x) eqn:Hx.
  - intros _. exists x. auto.
  - intros H. destruct (IH H) as (c & Hin & Hc). exists c. auto.
Qed.

(** A text with a Latin letter never survives the layout table. *)
Lemma to_russian_layout_changes (text : Text) :
  0 < count is_latin text ->
  Text_eqb (to_russian_layout text) text = false.
Proof.
  intros Hpos. destruct (count_pos_In _ _ Hpos) as (c & Hin & Hc).
  apply not_true_iff_false. intros Heq.
  unfold to_russian_layout, translate in Heq.
  apply (to_russian_layout_moves_latin c Hc).
  exact (Text_eqb_map_fixed _ _ Heq c Hin).
Qed.

(** C9, where the code leaves it.  The text [abя]: two Latin letters,
    one Cyrillic letter, one word, so the Cyrillic letters are
    outnumbered two to one and the specification's trigger holds.  The
    comment in the code asks for "at least twice as many" Latin
    letters; the test is a strict [>]: no correction is attempted and
    the text the classifier turned down is not classified again. *)
Theorem C9_two_to_one_not_corrected :
  stated_trigger two_to_one
  /\ needs_layout_correction two_to_one = false
  /\ is_query_relevant_with_layout_correction
       (fun (q : Text) (_ : unit) => negb (Text_eqb q two_to_one))
       two_to_one tt
     = (false, [two_to_one]).
Proof.
  split.
  - right. left. vm_compute. split; [reflexivity | discriminate].
  - split; vm_compute; reflexivity.
Qed.

(** X30: [is_query_relevant_with_layout_correction] asks the classifier
    once when it answers yes, and once when it answers no and no
    correction is needed.  When it answers no and a correction is
    needed, the question is passed through the keyboard-layout table
    and classified once more if that changed it, which it does whenever
    the question has a Latin letter; the second answer is the verdict.
    A question the table leaves unchanged is not classified again. *)
Theorem layout_retry_reclassifies_once {History : Type}
        (is_query_relevant_ai : Text -> History -> bool)
        (question : Text) (history : History) :
  let run :=
    is_query_relevant_with_layout_correction is_query_relevant_ai
                                             question history in
  (is_query_relevant_ai question history = true ->
   run = (true, [question]))
  /\ (is_query_relevant_ai question history = false ->
      (needs_layout_correction question = false ->
       run = (false, [question]))
      /\ (needs_layout_correction question = true ->
          run = if Text_eqb (to_russian_layout question) question
                then (false, [question])
                else (is_query_relevant_ai (to_russian_layout question)
                                           history,
                      [question; to_russian_layout question]))
      /\ (needs_layout_correction question = true ->
          0 < count is_latin question ->
          run = (is_query_relevant_ai (to_russian_layout question) history,
                 [question; to_russian_layout question]))).
Proof.
  cbv zeta. unfold is_query_relevant_with_layout_correction.
  split; intros Hanswer; rewrite Hanswer; cbn [negb andb];
    [reflexivity |].
  split; [| split].
  - intros ->. reflexivity.
  - intros ->. now destruct (Text_eqb (to_russian_layout question) question).
  - intros -> Hpos. now rewrite to_russian_layout_changes.
Qed.

(** The mistyped greeting, with a classifier that turns down exactly
    that text: the retry classifies its transliteration. *)
Lemma layout_retry_reclassifies_once_witness :
  is_query_relevant_with_layout_correction
    (fun (q : Text) (_ : unit) => negb (Text_eqb q mistyped_greeting))
    mistyped_greeting tt
  = (true, [mistyped_greeting; to_russian_layout mistyped_greeting]).
Proof.
  apply (proj2 (proj2 (proj2
           (layout_retry_reclassifies_once
              (fun (q : Text) (_ : unit) =>
                 negb (Text_eqb q mistyped_greeting))
              mistyped_greeting tt) eq_refl))).
  - reflexivity.
  - reflexivity.
Defined.

End LayoutClaims.

(* ================================================================== *)
(** * Further properties of the code *)
(* ================================================================== *)

(** ** Free slots over several days *)

Section FreeSlotsFacts.
Import Time Calendar Spec SlotOrder.

Lemma in_range_true (lo hi v : Z) :
  in_range lo hi v = true <-> lo <= v <= hi.
Proof.
  unfold in_range. rewrite andb_true_iff, !Z.leb_le. tauto.
Qed.

Lemma replace_hour_inv (t h : Z) (m s u : option Z) (c : Z) :
  replace t (Some h) m s u = Some c -> 0 <= h <= 23.
Proof.
  unfold replace, field.
  destruct (in_range 0 23 h) eqn:E; [|discriminate].
  intros _. now apply in_range_true.
Qed.

Lemma replace_start_inv (t h c : Z) :
  replace t (Some h) (Some 0) (Some 0) (Some 0) = Some c ->
  0 <= h <= 23 /\ c = day_floor t + h * US_PER_HOUR.
Proof.
  intros H. pose proof (replace_hour_inv _ _ _ _ _ _ H) as Hh.
  rewrite replace_start_of_day in H by assumption.
  split; [assumption | congruence].
Qed.

Lemma replace_end_inv (t h h' c : Z) :
  0 <= h <= 23 ->
  replace (day_floor t + h * US_PER_HOUR) (Some h') (Some 0) None None
  = Some c ->
  0 <= h' <= 23 /\ c = day_floor t + h' * US_PER_HOUR.
Proof.
  intros Hh H. pose proof (replace_hour_inv _ _ _ _ _ _ H) as Hh'.
  rewrite replace_end_of_day in H by assumption.
  split; [assumption | congruence].
Qed.

Lemma day_floor_days (t d : Z) :
  day_floor (t + timedelta d 0 0) = day_floor t + d * US_PER_DAY.
Proof.
  unfold day_floor, timedelta.
  replace (t + (d * US_PER_DAY + 0 * US_PER_HOUR + 0 * US_PER_MINUTE))
    with (t + d * US_PER_DAY) by lia.
  rewrite Z.div_add by (unfold US_PER_DAY, US_PER_HOUR, US_PER_MINUTE,
                          US_PER_SECOND; lia).
  lia.
Qed.

(** The loop over the days, hour by hour: what a day contributes. *)
Lemma days_loop_In (get_busy_slots : Provider) (now sh eh dur : Z) :
  forall (offsets : list Z) (l : list Slot) (x : Slot),
    days_loop get_busy_slots now sh eh dur offsets = Some l ->
    In x l ->
    0 <= sh <= 23 /\ 0 <= eh <= 23
    /\ exists d busy_slots,
        In d offsets
        /\ get_busy_slots
             (day_floor (now + timedelta d 0 0) + sh * US_PER_HOUR)
             (day_floor (now + timedelta d 0 0) + eh * US_PER_HOUR)
           = Some busy_slots
        /\ In x (day_free_slots busy_slots
                   (day_floor (now + timedelta d 0 0) + sh * US_PER_HOUR)
                   (day_floor (now + timedelta d 0 0) + eh * US_PER_HOUR)
                   dur).
Proof.
  induction offsets as [|d rest IH]; intros l x Hl Hx; simpl in Hl.
  - inversion Hl; subst. destruct Hx.
  - destruct (replace (now + timedelta d 0 0) (Some sh) (Some 0) (Some 0)
                      (Some 0)) as [cd|] eqn:Hcd; [|discriminate].
    apply replace_start_inv in Hcd. destruct Hcd as [Hsh ->].
    destruct (replace (day_floor (now + timedelta d 0 0) + sh * US_PER_HOUR)
                      (Some eh) (Some 0) None None) as [eod|] eqn:Heod;
      [|discriminate].
    apply replace_end_inv in Heod; [|assumption]. destruct Heod as [Heh ->].
    destruct (days_loop get_busy_slots now sh eh dur rest) as [later|] eqn:Hl';
      [|discriminate].
    inversion Hl; subst l; clear Hl.
    apply in_app_or in Hx. destruct Hx as [Hx | Hx].
    + split; [assumption|]. split; [assumption|].
      destruct (get_busy_slots _ _) as [busy|] eqn:Hb; [|destruct Hx].
      exists d, busy. split; [now left|]. split; assumption.
    + destruct (IH later x eq_refl Hx) as (_ & _ & d' & busy & Hd & Hb & Hin).
      split; [assumption|]. split; [assumption|].
      exists d', busy. split; [now right|]. split; assumption.
Qed.

Lemma day_offsets_In (start_offset days d : Z) :
  In d (day_offsets start_offset days) ->
  start_offset <= d < start_offset + days.
Proof.
  unfold day_offsets. rewrite in_map_iff.
  intros (i & <- & Hi). apply in_seq in Hi. lia.
Qed.

Lemma ascending_within_weaken (lo lo' hi hi' : Z) (l : list Slot) :
  lo' <= lo -> hi <= hi' ->
  ascending_within lo hi l -> ascending_within lo' hi' l.
Proof.
  revert lo lo'. induction l as [|x r IH]; intros lo lo' Hlo Hhi; simpl.
  - trivial.
  - intros [Hx Hr]. split; [lia|].
    apply (IH (start x + 1) (start x + 1)); [lia | assumption | assumption].
Qed.

Lemma ascending_within_app (lo mid hi : Z) (l1 l2 : list Slot) :
  lo <= mid ->
  ascending_within lo mid l1 -> ascending_within mid hi l2 -> mid <= hi ->
  ascending_within lo hi (l1 ++ l2).
Proof.
  revert lo. induction l1 as [|x r IH]; intros lo Hlo H1 H2 Hhi; simpl.
  - apply (ascending_within_weaken mid lo hi hi); [lia | lia | assumption].
  - destruct H1 as [Hx Hr]. split; [lia|].
    destruct r as [|y r'].
    + simpl. apply (ascending_within_weaken mid (start x + 1) hi hi);
        [lia | lia | assumption].
    + apply IH; try assumption. simpl in Hr. lia.
Qed.

Lemma ascending_within_lower (lo hi : Z) (l : list Slot) :
  ascending_within lo hi l ->
  forall (j : nat) (b : Slot), nth_error l j = Some b -> lo <= start b < hi.
Proof.
  revert lo. induction l as [|x r IH]; intros lo H j b Hb.
  - destruct j; discriminate.
  - destruct H as [Hx Hr]. destruct j as [|j]; simpl in Hb.
    + inversion Hb; subst. assumption.
    + specialize (IH _ Hr j b Hb). lia.
Qed.

Lemma ascending_within_chronological (lo hi : Z) (l : list Slot) :
  ascending_within lo hi l -> chronological l.
Proof.
  revert lo. induction l as [|x r IH]; intros lo H i j a b Ha Hb Hij.
  - destruct i; discriminate.
  - destruct H as [Hx Hr].
    destruct j as [|j]; [lia|]. simpl in Hb.
    destruct i as [|i]; simpl in Ha.
    + inversion Ha; subst a.
      pose proof (ascending_within_lower _ _ _ Hr j b Hb). lia.
    + apply (IH (start x + 1) Hr i j); [assumption | assumption | lia].
Qed.

Lemma scan_slots_ascending (busy_slots : list Slot) (eod dur : Z) :
  forall (fuel : nat) (cur : Z),
    ascending_within cur eod (scan_slots fuel busy_slots eod dur cur).
Proof.
  induction fuel as [|fuel IH]; intros cur; simpl; [trivial|].
  destruct (cur <? eod) eqn:Hlt; [|exact I].
  destruct (cur + timedelta 0 0 dur >? eod); [exact I|].
  apply Z.ltb_lt in Hlt.
  pose proof slot_interval_pos as Hpos.
  destruct (is_busy busy_slots cur (cur + timedelta 0 0 dur)).
  - apply (ascending_within_weaken (cur + slot_interval) cur eod eod);
      [lia | lia | apply IH].
  - simpl. split; [lia|].
    apply (ascending_within_weaken (cur + slot_interval) (cur + 1) eod eod);
      [lia | lia | apply IH].
Qed.

End FreeSlotsFacts.

Section FreeSlotsProperties.
Import Time Calendar Spec SlotOrder.

Lemma days_loop_ascending (get_busy_slots : Provider) (now sh eh dur s : Z) :
  forall (n a : nat) (l : list Slot),
    days_loop get_busy_slots now sh eh dur
              (map (fun i => s + Z.of_nat i) (seq a n)) = Some l ->
    ascending_within
      (day_floor now + (s + Z.of_nat a) * US_PER_DAY)
      (day_floor now + (s + Z.of_nat a + Z.of_nat n) * US_PER_DAY) l.
Proof.
  induction n as [|n IH]; intros a l Hl; simpl in Hl.
  - inversion Hl. exact I.
  - destruct (replace (now + timedelta (s + Z.of_nat a) 0 0) (Some sh)
                      (Some 0) (Some 0) (Some 0)) as [cd|] eqn:Hcd;
      [|discriminate].
    apply replace_start_inv in Hcd. destruct Hcd as [Hsh ->].
    destruct (replace (day_floor (now + timedelta (s + Z.of_nat a) 0 0)
                       + sh * US_PER_HOUR)
                      (Some eh) (Some 0) None None) as [eod|] eqn:Heod;
      [|discriminate].
    apply replace_end_inv in Heod; [|assumption]. destruct Heod as [Heh ->].
    destruct (days_loop get_busy_slots now sh eh dur
                        (map (fun i => s + Z.of_nat i) (seq (S a) n)))
      as [later|] eqn:Hl'; [|discriminate].
    inversion Hl; subst l; clear Hl.
    specialize (IH (S a) later Hl').
    rewrite day_floor_days.
    assert (HH : US_PER_DAY = 24 * US_PER_HOUR) by reflexivity.
    assert (Hpos : 0 < US_PER_HOUR) by reflexivity.
    apply (ascending_within_app _
             (day_floor now + (s + Z.of_nat (S a)) * US_PER_DAY)).
    + lia.
    + match goal with
      | |- ascending_within _ _ ?found =>
          assert (Hday : ascending_within
                           (day_floor now + (s + Z.of_nat a) * US_PER_DAY
                            + sh * US_PER_HOUR)
                           (day_floor now + (s + Z.of_nat a) * US_PER_DAY
                            + eh * US_PER_HOUR) found)
      end.
      { destruct (get_busy_slots _ _); [|exact I].
        apply scan_slots_ascending. }
      revert Hday. apply ascending_within_weaken; nia.
    + replace (s + Z.of_nat a + Z.of_nat (S n))
        with (s + Z.of_nat (S a) + Z.of_nat n) by lia.
      exact IH.
    + nia.
Qed.

(** X1: every slot [get_free_slots] returns, over any number of days,
    belongs to one of the requested days, starts a whole number of
    half-hours after that day's opening hour, lasts [SLOT_DURATION]
    minutes, ends by the closing hour, and overlaps none of the busy
    intervals the calendar reported for that day. *)
Theorem free_slots_sound
        (config : Config.t) (get_busy_slots : Provider) (now days : Z)
        (start_hour end_hour : option Z) (skip_today : bool)
        (free_slots : list Slot) (x : Slot) :
  get_free_slots config get_busy_slots now days start_hour end_hour
                 skip_today = Some free_slots ->
  In x free_slots ->
  exists (day_offset : Z) (busy_slots : list Slot),
    let current_day :=
      day_floor (now + timedelta day_offset 0 0)
      + or_default start_hour (Config.START_HOUR config) * US_PER_HOUR in
    let end_of_day :=
      day_floor (now + timedelta day_offset 0 0)
      + or_default end_hour (Config.END_HOUR config) * US_PER_HOUR in
    (if skip_today then 1 else 0) <= day_offset
    /\ day_offset < (if skip_today then 1 else 0) + days
    /\ get_busy_slots current_day end_of_day = Some busy_slots
    /\ (exists k, 0 <= k /\ start x = current_day + k * slot_interval)
    /\ end_ x = start x + timedelta 0 0 (Config.SLOT_DURATION config)
    /\ end_ x <= end_of_day
    /\ forall b, In b busy_slots ->
                 ~ (start x < end_ b /\ end_ x > start b).
Proof.
  unfold get_free_slots. intros Hl Hx.
  destruct (days_loop_In _ _ _ _ _ _ _ _ Hl Hx)
    as (_ & _ & d & busy & Hd & Hb & Hin).
  apply day_offsets_In in Hd.
  unfold day_free_slots in Hin.
  apply scan_slots_In in Hin; [|apply scan_fuel_enough].
  destruct Hin as (k & Hk & Hs & He & _ & Heod & Hfree).
  exists d, busy. cbv zeta.
  split; [lia|]. split; [lia|]. split; [exact Hb|].
  split; [exists k; split; assumption|].
  split; [exact He|]. split; [exact Heod|].
  now apply is_busy_false_iff.
Qed.

Lemma free_slots_sound_witness :
  exists (day_offset : Z) (busy_slots : list Slot),
    1 <= day_offset /\ day_offset < 1 + 7
    /\ (fun _ _ => Some [{| start := timedelta 1 10 0;
                            end_ := timedelta 1 11 0 |}])
         (day_floor (0 + timedelta day_offset 0 0) + 9 * US_PER_HOUR)
         (day_floor (0 + timedelta day_offset 0 0) + 18 * US_PER_HOUR)
       = Some busy_slots
    /\ (exists k, 0 <= k
                  /\ timedelta 1 11 0
                     = day_floor (0 + timedelta day_offset 0 0)
                       + 9 * US_PER_HOUR + k * slot_interval)
    /\ timedelta 1 12 0 = timedelta 1 11 0 + timedelta 0 0 60
    /\ timedelta 1 12 0
       <= day_floor (0 + timedelta day_offset 0 0) + 18 * US_PER_HOUR
    /\ forall b, In b busy_slots ->
                 ~ (timedelta 1 11 0 < end_ b /\ timedelta 1 12 0 > start b).
Proof.
  apply (free_slots_sound
           (Config.defaults true)
           (fun _ _ => Some [{| start := timedelta 1 10 0;
                                end_ := timedelta 1 11 0 |}])
           0 7 None None true
           _
           {| start := timedelta 1 11 0; end_ := timedelta 1 12 0 |}
           eq_refl).
  vm_compute. tauto.
Defined.

(** X2: the slots come out in chronological order: each one starts
    later than the one before it, within a day and from one day to the
    next. *)
Theorem free_slots_chronological
        (config : Config.t) (get_busy_slots : Provider) (now days : Z)
        (start_hour end_hour : option Z) (skip_today : bool)
        (free_slots : list Slot) :
  get_free_slots config get_busy_slots now days start_hour end_hour
                 skip_today = Some free_slots ->
  chronological free_slots.
Proof.
  unfold get_free_slots, day_offsets. intros Hl.
  apply days_loop_ascending with (a := 0%nat) in Hl.
  revert Hl. apply ascending_within_chronological.
Qed.

Lemma free_slots_chronological_witness :
  chronological
    (map (fun k => {| start := timedelta 1 9 (30 * k);
                      end_ := timedelta 1 10 (30 * k) |})
         (map Z.of_nat (seq 0 17))
     ++ map (fun k => {| start := timedelta 2 9 (30 * k);
                         end_ := timedelta 2 10 (30 * k) |})
            (map Z.of_nat (seq 0 17))).
Proof.
  apply (free_slots_chronological
           (Config.defaults true) (fun _ _ => Some []) 0 2 None None true).
  vm_compute. reflexivity.
Defined.

End FreeSlotsProperties.

Section FreeSlotsEdges.
Import Time Calendar Spec SlotOrder.

Lemma replace_hour_None (t h : Z) (m s u : option Z) :
  ~ 0 <= h <= 23 -> replace t (Some h) m s u = None.
Proof.
  intros Hh. destruct (replace t (Some h) m s u) eqn:E; [|reflexivity].
  apply replace_hour_inv in E. contradiction.
Qed.

Lemma days_loop_bad_hours (get_busy_slots : Provider) (now sh eh dur d : Z)
      (rest : list Z) :
  ~ (0 <= sh <= 23 /\ 0 <= eh <= 23) ->
  days_loop get_busy_slots now sh eh dur (d :: rest) = None.
Proof.
  intros Hbad. simpl.
  destruct (replace (now + timedelta d 0 0) (Some sh) (Some 0) (Some 0)
                    (Some 0)) as [cd|] eqn:Hcd; [|reflexivity].
  apply replace_start_inv in Hcd. destruct Hcd as [Hsh ->].
  rewrite replace_hour_None; [reflexivity | tauto].
Qed.

Lemma day_offsets_cons (start_offset days : Z) :
  0 < days ->
  day_offsets start_offset days
  = start_offset :: day_offsets (start_offset + 1) (days - 1).
Proof.
  intros Hd. unfold day_offsets.
  replace (Z.to_nat days) with (S (Z.to_nat (days - 1))) by lia.
  simpl. f_equal; [lia|].
  rewrite <- seq_shift, map_map. apply map_ext. intros i. lia.
Qed.

Lemma days_loop_provider_down (now sh eh dur : Z) (offsets : list Z) :
  0 <= sh <= 23 -> 0 <= eh <= 23 ->
  days_loop (fun _ _ => None) now sh eh dur offsets = Some [].
Proof.
  intros Hsh Heh. induction offsets as [|d rest IH]; simpl.
  - reflexivity.
  - rewrite replace_start_of_day, replace_end_of_day, IH by assumption.
    reflexivity.
Qed.

(** X3: a bad hour makes [get_free_slots] raise.  With no day to scan
    it returns the empty list.  With at least one day, when the opening
    or the closing hour in force is outside 0..23, the first day
    already raises, whatever the calendar answers: a closing hour of 24
    cannot be used.  (The exception is the [ValueError] of [replace];
    at the very end of [datetime]'s range the addition before it
    raises first.) *)
Theorem free_slots_raises_on_bad_hour
        (config : Config.t) (get_busy_slots : Provider) (now days : Z)
        (start_hour end_hour : option Z) (skip_today : bool) :
  (days <= 0 ->
   get_free_slots config get_busy_slots now days start_hour end_hour
                  skip_today = Some [])
  /\ (0 < days ->
      ~ (0 <= or_default start_hour (Config.START_HOUR config) <= 23
         /\ 0 <= or_default end_hour (Config.END_HOUR config) <= 23) ->
      get_free_slots config get_busy_slots now days start_hour end_hour
                     skip_today = None).
Proof.
  unfold get_free_slots. split.
  - intros Hd. unfold day_offsets.
    replace (Z.to_nat days) with 0%nat by lia. reflexivity.
  - intros Hd. rewrite (day_offsets_cons _ _ Hd).
    apply days_loop_bad_hours.
Qed.

(** X4: a day whose busy-slot request fails is skipped and the other
    days are scanned as usual: when the request for today fails, the
    answer is the one obtained with today left out; when every request
    fails, the answer is the empty list, not an error. *)
Theorem free_slots_skip_failed_day
        (config : Config.t) (get_busy_slots : Provider) (now days : Z)
        (start_hour end_hour : option Z) :
  let sh := or_default start_hour (Config.START_HOUR config) in
  let eh := or_default end_hour (Config.END_HOUR config) in
  0 <= sh <= 23 -> 0 <= eh <= 23 ->
  (0 < days ->
   get_busy_slots (day_floor now + sh * US_PER_HOUR)
                  (day_floor now + eh * US_PER_HOUR) = None ->
   get_free_slots config get_busy_slots now days start_hour end_hour false
   = get_free_slots config get_busy_slots now (days - 1) start_hour
                    end_hour true)
  /\ (forall skip_today,
         get_free_slots config (fun _ _ => None) now days start_hour
                        end_hour skip_today = Some []).
Proof.
  intros sh eh Hsh Heh. split.
  - intros Hd Hfail. unfold get_free_slots.
    rewrite (day_offsets_cons 0 days Hd). cbn [days_loop].
    fold sh eh.
    rewrite replace_start_of_day, replace_end_of_day by assumption.
    replace (day_floor (now + timedelta 0 0 0)) with (day_floor now)
      by (f_equal; unfold timedelta; lia).
    rewrite Hfail. change (0 + 1) with 1.
    destruct (days_loop get_busy_slots now sh eh
                        (Config.SLOT_DURATION config)
                        (day_offsets 1 (days - 1))); reflexivity.
  - intros skip_today. unfold get_free_slots.
    now apply days_loop_provider_down.
Qed.

Lemma free_slots_skip_failed_day_witness :
  get_free_slots (Config.defaults true)
                 (fun s _ => if s <? US_PER_DAY then None else Some [])
                 0 2 None None false
  = get_free_slots (Config.defaults true)
                   (fun s _ => if s <? US_PER_DAY then None else Some [])
                   0 1 None None true.
Proof.
  refine (proj1 (free_slots_skip_failed_day
                   (Config.defaults true)
                   (fun s _ => if s <? US_PER_DAY then None else Some [])
                   0 2 None None _ _) _ _);
    vm_compute; try split; congruence.
Defined.

End FreeSlotsEdges.

(** ** Runs of a booking *)

Section BookingRuns.
Import Io Db Calendar Booking Spec BookingTrace.

Variable config : Config.t.
Variable fails : Db.Op -> bool.
Variable delete_event : string -> bool.
Variable get_busy_slots : Provider.
Variable create_event : Z -> Z -> list DescriptionPart -> option CalendarEvent.
Variable sheets_service : option (string -> option bool).

Let book := book_slot config fails delete_event get_busy_slots create_event
                      sheets_service.

(** The first step of [book_slot], the deletion of a reschedule. *)
Lemma cancel_step (cancel_event_id : option string) (w : World) :
  (if truthy_str cancel_event_id then
     match cancel_event_id with
     | Some id =>
         if delete_event id
         then bind (emit (CalendarDelete id)) (fun _ => ret (Some id))
         else ret None
     | None => ret None
     end
   else ret None) w
  = (Return (cancelled_event delete_event cancel_event_id),
     {| db := db w;
        effects := effects w ++ deletion_seen delete_event cancel_event_id |}).
Proof.
  unfold deletion_seen, cancelled_event.
  destruct cancel_event_id as [id|]; cbn [truthy_str].
  - destruct (negb (String.eqb id "")); cbn [andb].
    + destruct (delete_event id); cbn.
      * reflexivity.
      * unfold ret. rewrite app_nil_r. now destruct w.
    + unfold ret. rewrite app_nil_r. now destruct w.
  - unfold ret. cbn. rewrite app_nil_r. now destruct w.
Qed.

Lemma sheet_step (event_id : option string) (cancel_event_id : option string)
      (w : World) :
  match sheets_service with
  | Some _ =>
      try_except
        (bind (add_booking sheets_service event_id
                 (if truthy_str cancel_event_id
                  then STATUS_RESCHEDULED else STATUS_CREATED))
              (fun _ => ret tt))
        (fun _ => ret tt)
  | None => ret tt
  end w
  = (Return tt,
     {| db := db w;
        effects := effects w
                   ++ sheet_row_seen sheets_service event_id
                                     cancel_event_id |}).
Proof.
  unfold sheet_row_seen, try_except, bind, add_booking, raise, ret, emit.
  destruct sheets_service as [add|].
  - destruct (add _) as [[|]|]; cbn; try reflexivity;
      rewrite app_nil_r; now destruct w.
  - cbn. rewrite app_nil_r. now destruct w.
Qed.

(** A refused booking: the answer and the world it leaves. *)
Lemma book_slot_refused (start_time end_time : Z)
      (user_name user_contact user_phone : string) (user_id : option Z)
      (cancel_event_id : option string) (child_id : option Z)
      (course_name notes : option string) (w : World) (error : string) :
  refusal get_busy_slots create_event start_time end_time
          (description_parts user_id user_name user_contact user_phone)
  = Some error ->
  book start_time end_time user_name user_contact user_phone user_id
       cancel_event_id child_id course_name notes w
  = (Return (NotBooked error),
     {| db := db w;
        effects := effects w
                   ++ deletion_seen delete_event cancel_event_id
                   ++ [CalendarList start_time end_time] |}).
Proof.
  unfold refusal, book, book_slot, try_except at 1, bind at 1.
  rewrite cancel_step.
  unfold bind at 1, is_slot_available, bind at 1, emit. cbn [db effects].
  rewrite <- app_assoc.
  destruct (get_busy_slots start_time end_time) as [busy|].
  2:{ intros [= <-]. reflexivity. }
  unfold ret at 1. destruct (slot_is_clear busy start_time end_time).
  2:{ intros [= <-]. reflexivity. }
  cbn [negb]. cbv zeta. unfold bind at 1.
  destruct (create_event _ _ _); [discriminate|].
  intros [= <-]. reflexivity.
Qed.

(** An accepted booking, up to the block that stores the lesson. *)
Lemma book_slot_accepted (start_time end_time : Z)
      (user_name user_contact user_phone : string) (user_id : option Z)
      (cancel_event_id : option string) (child_id : option Z)
      (course_name notes : option string) (w : World)
      (busy_slots : list Slot) (event : CalendarEvent) :
  get_busy_slots start_time end_time = Some busy_slots ->
  slot_is_clear busy_slots start_time end_time = true ->
  create_event start_time end_time
               (description_parts user_id user_name user_contact user_phone)
  = Some event ->
  let w2 :=
    {| db := db w;
       effects := effects w
                  ++ deletion_seen delete_event cancel_event_id
                  ++ [CalendarList start_time end_time;
                      CalendarInsert start_time end_time
                        (description_parts user_id user_name user_contact
                                           user_phone)]
                  ++ sheet_row_seen sheets_service (id event)
                                    cancel_event_id |} in
  book start_time end_time user_name user_contact user_phone user_id
       cancel_event_id child_id course_name notes w
  = let (l, w') :=
      (if truthy_int user_id then
         match user_id with
         | Some uid =>
             try_except
               (save_lesson config fails start_time user_name user_contact
                            uid (id event) child_id course_name notes)
               (fun _ => ret None)
         | None => ret None
         end
       else ret None) w2 in
    match l with
    | Return l =>
        (Return (Booked (id event) (htmlLink event) start_time end_time
                        (cancelled_event delete_event cancel_event_id) l),
         w')
    | Raise e => (Return (NotBooked (str e)), w')
    end.
Proof.
  intros Hbusy Hclear Hevent w2.
  unfold book, book_slot, try_except at 1, bind at 1.
  rewrite cancel_step.
  unfold bind at 1, is_slot_available, bind at 1, emit. cbn [db effects].
  rewrite Hbusy. unfold ret at 1. rewrite Hclear.
  cbn [negb]. cbv zeta. unfold bind at 1. rewrite Hevent.
  unfold bind at 1, emit, ret at 1. cbn [db effects].
  unfold bind at 1. rewrite sheet_step. cbn [db effects].
  unfold bind at 1.
  replace ((((effects w ++ deletion_seen delete_event cancel_event_id)
             ++ [CalendarList start_time end_time])
            ++ [CalendarInsert start_time end_time
                  (description_parts user_id user_name user_contact
                                     user_phone)])
           ++ sheet_row_seen sheets_service (id event) cancel_event_id)
    with (effects w2).
  2:{ unfold w2. cbn [effects]. rewrite <- !app_assoc. reflexivity. }
  replace {| db := db w; effects := effects w2 |} with w2 by reflexivity.
  match goal with
  | |- _ = (let (_, _) := ?m w2 in _) => destruct (m w2) as [[l|e] w']
  end; reflexivity.
Qed.

End BookingRuns.

Section StoredLesson.
Import Io Db Calendar Booking Spec BookingTrace.

Variable config : Config.t.
Variable fails : Db.Op -> bool.
Hypothesis Hhealthy : healthy config fails.

Lemma find_app_last {A} (f : A -> bool) (l : list A) (x : A) :
  find f l = None -> f x = true -> find f (l ++ [x]) = Some x.
Proof.
  intros Hnone Hx. induction l as [|y r IH]; simpl in *.
  - now rewrite Hx.
  - destruct (f y); [discriminate | auto].
Qed.

Lemma filter_app_last_none {A} (f : A -> bool) (l : list A) (x : A) :
  filter f l = [] -> f x = true -> filter f (l ++ [x]) = [x].
Proof.
  intros Hnone Hx. rewrite filter_app, Hnone. simpl. now rewrite Hx.
Qed.

(** The lesson block of [book_slot] when the database answers and no
    child is named: the parent is looked up or created, the lesson is
    meant for the parent's first child or for a new one.  With an event
    id the INSERT of the lesson raises and no lesson is stored. *)
Lemma save_lesson_stores (start_time : Z) (user_name user_contact : string)
      (user_id : Z) (event_id : option string)
      (course_name notes : option string) (w : World) :
  (forall c, In c (children (db w)) -> 0 < Child.id c) ->
  0 < next_child_id (db w) ->
  exists (p : Parent.t) (c : Child.t) (d' : Database),
    save_lesson config fails start_time user_name user_contact user_id
                event_id None course_name notes w
    = (match event_id with
       | Some _ => Raise SQLAlchemyError
       | None => Return (Some (next_lesson_id (db w)))
       end, {| db := d'; effects := effects w |})
    /\ trial_lessons d'
       = trial_lessons (db w)
         ++ match event_id with
            | Some _ => []
            | None =>
                [{| TrialLesson.id := next_lesson_id (db w);
                    TrialLesson.parent_id := Parent.id p;
                    TrialLesson.child_id := Child.id c;
                    TrialLesson.event_id := None;
                    TrialLesson.scheduled_at := start_time;
                    TrialLesson.status := PLANNED;
                    TrialLesson.course_name := course_name;
                    TrialLesson.notes := notes;
                    TrialLesson.reminder_24h_sent := false;
                    TrialLesson.reminder_1h_sent := false;
                    TrialLesson.reminder_10min_sent := false |}]
            end
    /\ parent_by_telegram_id d' user_id = Some p
    /\ hd_error (filter (fun c => Child.parent_id c =? Parent.id p)
                        (children d')) = Some c
    /\ (forall c, In c (children d') -> 0 < Child.id c)
    /\ 0 < next_child_id d'
    /\ (parents d' = parents (db w)
        \/ parent_by_telegram_id (db w) user_id = None
           /\ parents d'
              = parents (db w)
                ++ [new_parent (next_parent_id (db w)) user_id
                               (Some user_contact) 0 None])
    /\ (children d' = children (db w)
        \/ filter (fun c => Child.parent_id c =? Parent.id p)
                  (children (db w)) = []
           /\ children d'
              = children (db w)
                ++ [{| Child.id := next_child_id (db w);
                       Child.parent_id := Parent.id p;
                       Child.name := if String.eqb user_name ""
                                     then CHILD_PLACEHOLDER else user_name;
                       Child.age := 0;
                       Child.interests := Some ""%string;
                       Child.course_name := course_name;
                       Child.lessons_count := Some 0 |}]).
Proof.
  destruct Hhealthy as [Hurl Hfails]. intros Hids Hnext.
  unfold save_lesson, bind, get_or_create_parent.
  rewrite Hurl. cbn [negb].
  unfold get_children, add_child_profile, add_trial_lesson, bind, session,
    insert_child, insert_lesson, insert_parent, ret, raise, to_utc_naive.
  rewrite Hurl, !Hfails. cbn [negb truthy_int].
  assert (Hnz : (next_child_id (db w) =? 0) = false)
    by (apply Z.eqb_neq; lia).
  assert (Hfirst : forall (q : Parent.t) c rest,
             filter (fun c => Child.parent_id c =? Parent.id q)
                    (children (db w)) = c :: rest ->
             (Child.id c =? 0) = false).
  { intros q c rest Hc. apply Z.eqb_neq.
    assert (H : In c (c :: rest)) by now left.
    rewrite <- Hc in H. apply filter_In in H.
    specialize (Hids c (proj1 H)). lia. }
  assert (Hgrown : forall c x, In c (children (db w) ++ [x]) ->
                               Child.id x = next_child_id (db w) ->
                               0 < Child.id c).
  { intros c x Hin Hx. apply in_app_or in Hin.
    destruct Hin as [Hin | [<- | []]]; [now apply Hids | lia]. }
  destruct event_id as [event_id|];
    destruct (parent_by_telegram_id (db w) user_id) as [p|] eqn:Hp.
  2, 4: set (p := new_parent (next_parent_id (db w)) user_id
                             (Some user_contact) 0 None);
     change (next_parent_id (db w)) with (Parent.id p).
  all: cbn [db effects fst snd parents children Parent.id];
    destruct (filter (fun c => Child.parent_id c =? Parent.id p)
                     (children (db w))) as [|c rest] eqn:Hc;
    cbn [db effects fst snd parents children trial_lessons next_child_id
         next_lesson_id Child.id truthy_int];
    [ rewrite Hnz
    | rewrite (Hfirst p c rest Hc) ];
    cbn [negb db effects fst snd parents children trial_lessons
         next_child_id next_lesson_id];
    [ eexists p,
        {| Child.id := next_child_id (db w);
           Child.parent_id := Parent.id p;
           Child.name := if String.eqb user_name ""
                         then CHILD_PLACEHOLDER else user_name;
           Child.age := 0;
           Child.interests := Some ""%string;
           Child.course_name := course_name;
           Child.lessons_count := Some 0 |}, _
    | eexists p, c, _ ];
    (split; [reflexivity|]);
    cbn [trial_lessons parents children next_lesson_id next_child_id
         Child.id];
    (split; [rewrite ?app_nil_r; reflexivity|]).
  all: first
    [ solve [ split; [exact Hp|];
              split; [rewrite (filter_app_last_none _ _ _ Hc);
                      [reflexivity | cbn; apply Z.eqb_refl]|];
              split; [intros c Hin; now apply (Hgrown c _ Hin)|];
              split; [lia|]; split; [now left|];
              right; split; [exact Hc | reflexivity] ]
    | solve [ split; [exact Hp|]; split; [now rewrite Hc|];
              split; [exact Hids|]; split; [exact Hnext|];
              split; now left ]
    | solve [ split; [apply find_app_last;
                      [exact Hp | cbn; apply Z.eqb_refl]|];
              split; [rewrite (filter_app_last_none _ _ _ Hc);
                      [reflexivity | cbn; apply Z.eqb_refl]|];
              split; [intros c Hin; now apply (Hgrown c _ Hin)|];
              split; [lia|]; split; [right; split; reflexivity|];
              right; split; [exact Hc | reflexivity] ]
    | solve [ split; [apply find_app_last;
                      [exact Hp | cbn; apply Z.eqb_refl]|];
              split; [now rewrite Hc|];
              split; [exact Hids|]; split; [exact Hnext|];
              split; [right; split; reflexivity | now left] ] ].
Qed.

End StoredLesson.

Section BookingProperties.
Import Io Db Calendar Booking Spec BookingTrace.

Variable config : Config.t.
Variable fails : Db.Op -> bool.
Variable delete_event : string -> bool.
Variable get_busy_slots : Provider.
Variable create_event : Z -> Z -> list DescriptionPart -> option CalendarEvent.
Variable sheets_service : option (string -> option bool).

Let book := book_slot config fails delete_event get_busy_slots create_event
                      sheets_service.

Lemma refusal_None (start_time end_time : Z)
      (description : list DescriptionPart) :
  refusal get_busy_slots create_event start_time end_time description = None
  -> exists busy_slots event,
      get_busy_slots start_time end_time = Some busy_slots
      /\ slot_is_clear busy_slots start_time end_time = true
      /\ create_event start_time end_time description = Some event.
Proof.
  unfold refusal.
  destruct (get_busy_slots start_time end_time) as [busy|]; [|discriminate].
  destruct (slot_is_clear busy start_time end_time) eqn:Hc; [|discriminate].
  destruct (create_event start_time end_time description) as [ev|];
    [|discriminate].
  intros _. now exists busy, ev.
Qed.

(** X5: when the calendar cannot be read, [is_slot_available] answers
    [False]: [book_slot] then refuses with the same "slot already taken"
    error as for a busy slot, and creates no event, no sheet row and no
    database row; when the slot is clear but [create_event] raises, the
    error text of the exception is returned and, again, nothing is
    created. *)
Theorem booking_refused_on_calendar_failure
        (start_time end_time : Z)
        (user_name user_contact user_phone : string) (user_id : option Z)
        (cancel_event_id : option string) (child_id : option Z)
        (course_name notes : option string) (w : World) :
  let refused error :=
    book start_time end_time user_name user_contact user_phone user_id
         cancel_event_id child_id course_name notes w
    = (Return (NotBooked error),
       {| db := db w;
          effects := effects w
                     ++ deletion_seen delete_event cancel_event_id
                     ++ [CalendarList start_time end_time] |}) in
  (get_busy_slots start_time end_time = None -> refused SLOT_TAKEN)
  /\ (forall busy_slots,
         get_busy_slots start_time end_time = Some busy_slots ->
         slot_is_clear busy_slots start_time end_time = true ->
         create_event start_time end_time
           (description_parts user_id user_name user_contact user_phone)
         = None ->
         refused (str HttpError)).
Proof.
  intros refused. split.
  - intros Hread. apply book_slot_refused.
    unfold refusal. now rewrite Hread.
  - intros busy Hread Hclear Hcreate. apply book_slot_refused.
    unfold refusal. now rewrite Hread, Hclear, Hcreate.
Qed.

(** X6: in a reschedule the old event is deleted before the new slot is
    checked.  If the new booking is then refused (the slot is busy, the
    calendar cannot be read, or the event cannot be created), the answer
    is the failure and the old event stays deleted: the calendar saw the
    deletion and the read, and nothing else. *)
Theorem refused_reschedule_loses_old_event
        (start_time end_time : Z)
        (user_name user_contact user_phone : string) (user_id : option Z)
        (old_event_id : string) (child_id : option Z)
        (course_name notes : option string) (w : World) (error : string) :
  old_event_id <> ""%string ->
  delete_event old_event_id = true ->
  refusal get_busy_slots create_event start_time end_time
          (description_parts user_id user_name user_contact user_phone)
  = Some error ->
  book start_time end_time user_name user_contact user_phone user_id
       (Some old_event_id) child_id course_name notes w
  = (Return (NotBooked error),
     {| db := db w;
        effects := effects w
                   ++ [CalendarDelete old_event_id;
                       CalendarList start_time end_time] |}).
Proof.
  intros Hid Hdel Href.
  rewrite (book_slot_refused config fails delete_event get_busy_slots
             create_event sheets_service _ _ _ _ _ _ _ _ _ _ w error Href).
  unfold deletion_seen, cancelled_event, truthy_str.
  apply String.eqb_neq in Hid. rewrite Hid, Hdel. reflexivity.
Qed.

(** X7: what the outside world sees of an accepted booking, in order:
    the deletion of the old event (reschedule only), the availability
    read, the creation of the event, and at most one sheet row, with
    status "Создана" for a new booking and "Перенесена" for a
    reschedule.  A sheet that refuses or raises does not fail the
    booking, and neither does the database. *)
Theorem accepted_booking_trace
        (start_time end_time : Z)
        (user_name user_contact user_phone : string) (user_id : option Z)
        (cancel_event_id : option string) (child_id : option Z)
        (course_name notes : option string) (w : World)
        (busy_slots : list Slot) (event : CalendarEvent) :
  get_busy_slots start_time end_time = Some busy_slots ->
  slot_is_clear busy_slots start_time end_time = true ->
  create_event start_time end_time
               (description_parts user_id user_name user_contact user_phone)
  = Some event ->
  exists lesson w',
    book start_time end_time user_name user_contact user_phone user_id
         cancel_event_id child_id course_name notes w
    = (Return (Booked (id event) (htmlLink event) start_time end_time
                      (cancelled_event delete_event cancel_event_id)
                      lesson), w')
    /\ effects w'
       = effects w
         ++ deletion_seen delete_event cancel_event_id
         ++ [CalendarList start_time end_time;
             CalendarInsert start_time end_time
               (description_parts user_id user_name user_contact
                                  user_phone)]
         ++ sheet_row_seen sheets_service (id event) cancel_event_id.
Proof.
  intros Hread Hclear Hcreate.
  unfold book.
  rewrite (book_slot_accepted config fails delete_event get_busy_slots
             create_event sheets_service _ _ _ _ _ _ _ _ _ _ w busy_slots
             event Hread Hclear Hcreate).
  cbv zeta.
  destruct (truthy_int user_id); [destruct user_id as [uid|]|].
  - match goal with
    | |- context [try_except ?m ?h ?w2] =>
        destruct (save_lesson_guarded config fails start_time user_name
                    user_contact uid (id event) child_id course_name notes
                    w2) as (l & w' & Hsave & Heff & _)
    end.
    rewrite Hsave. exists l, w'. split; [reflexivity | exact Heff].
  - unfold ret. eexists _, _. split; reflexivity.
  - unfold ret. eexists _, _. split; reflexivity.
Qed.

(** X8: a booking with no Telegram user id ([None] or 0) never touches
    the database: whatever the calendar answers, the tables are left as
    they were and the answer carries no lesson id. *)
Theorem anonymous_booking_keeps_tables
        (start_time end_time : Z)
        (user_name user_contact user_phone : string) (user_id : option Z)
        (cancel_event_id : option string) (child_id : option Z)
        (course_name notes : option string) (w : World) :
  truthy_int user_id = false ->
  exists r w',
    book start_time end_time user_name user_contact user_phone user_id
         cancel_event_id child_id course_name notes w
    = (Return r, w')
    /\ db w' = db w
    /\ lesson_id r = None.
Proof.
  intros Hanon.
  destruct (refusal get_busy_slots create_event start_time end_time
              (description_parts user_id user_name user_contact user_phone))
    as [error|] eqn:Href.
  - unfold book.
    rewrite (book_slot_refused config fails delete_event get_busy_slots
               create_event sheets_service _ _ _ _ _ _ _ _ _ _ w error Href).
    eexists _, _. repeat split.
  - apply refusal_None in Href.
    destruct Href as (busy & event & Hread & Hclear & Hcreate).
    unfold book.
    rewrite (book_slot_accepted config fails delete_event get_busy_slots
               create_event sheets_service _ _ _ _ _ _ _ _ _ _ w busy
               event Hread Hclear Hcreate).
    cbv zeta. rewrite Hanon. unfold ret.
    eexists _, _. repeat split.
Qed.

End BookingProperties.

Section BookingStores.
Import Io Db Calendar Booking Spec BookingTrace.

Variable config : Config.t.
Variable fails : Db.Op -> bool.
Variable delete_event : string -> bool.
Variable get_busy_slots : Provider.
Variable create_event : Z -> Z -> list DescriptionPart -> option CalendarEvent.
Variable sheets_service : option (string -> option bool).
Hypothesis Hhealthy : healthy config fails.

(** An accepted booking of a Telegram user, with the database
    answering. *)
Lemma book_slot_stores (start_time end_time : Z)
      (user_name user_contact user_phone : string) (user_id : Z)
      (cancel_event_id : option string) (course_name notes : option string)
      (w : World) (busy_slots : list Slot) (event : CalendarEvent) :
  user_id <> 0 ->
  (forall c, In c (children (db w)) -> 0 < Child.id c) ->
  0 < next_child_id (db w) ->
  get_busy_slots start_time end_time = Some busy_slots ->
  slot_is_clear busy_slots start_time end_time = true ->
  create_event start_time end_time
               (description_parts (Some user_id) user_name user_contact
                                  user_phone)
  = Some event ->
  exists (p : Parent.t) (c : Child.t) (w' : World),
    book_slot config fails delete_event get_busy_slots create_event
              sheets_service start_time end_time user_name user_contact
              user_phone (Some user_id) cancel_event_id None course_name
              notes w
    = (Return (Booked (id event) (htmlLink event) start_time end_time
                      (cancelled_event delete_event cancel_event_id)
                      match id event with
                      | Some _ => None
                      | None => Some (next_lesson_id (db w))
                      end), w')
    /\ trial_lessons (db w')
       = trial_lessons (db w)
         ++ match id event with
            | Some _ => []
            | None =>
                [{| TrialLesson.id := next_lesson_id (db w);
                    TrialLesson.parent_id := Parent.id p;
                    TrialLesson.child_id := Child.id c;
                    TrialLesson.event_id := None;
                    TrialLesson.scheduled_at := start_time;
                    TrialLesson.status := PLANNED;
                    TrialLesson.course_name := course_name;
                    TrialLesson.notes := notes;
                    TrialLesson.reminder_24h_sent := false;
                    TrialLesson.reminder_1h_sent := false;
                    TrialLesson.reminder_10min_sent := false |}]
            end
    /\ parent_by_telegram_id (db w') user_id = Some p
    /\ hd_error (filter (fun c => Child.parent_id c =? Parent.id p)
                        (children (db w'))) = Some c
    /\ (forall c, In c (children (db w')) -> 0 < Child.id c)
    /\ 0 < next_child_id (db w')
    /\ (parents (db w') = parents (db w)
        \/ parent_by_telegram_id (db w) user_id = None
           /\ parents (db w')
              = parents (db w)
                ++ [new_parent (next_parent_id (db w)) user_id
                               (Some user_contact) 0 None])
    /\ (children (db w') = children (db w)
        \/ filter (fun c => Child.parent_id c =? Parent.id p)
                  (children (db w)) = []
           /\ children (db w')
              = children (db w)
                ++ [{| Child.id := next_child_id (db w);
                       Child.parent_id := Parent.id p;
                       Child.name := if String.eqb user_name ""
                                     then CHILD_PLACEHOLDER else user_name;
                       Child.age := 0;
                       Child.interests := Some ""%string;
                       Child.course_name := course_name;
                       Child.lessons_count := Some 0 |}]).
Proof.
  intros Huid Hids Hnext Hread Hclear Hcreate.
  rewrite (book_slot_accepted config fails delete_event get_busy_slots
             create_event sheets_service _ _ _ _ _ _ _ _ _ _ w busy_slots
             event Hread Hclear Hcreate).
  cbv zeta. cbn [truthy_int].
  replace (user_id =? 0) with false by (symmetry; now apply Z.eqb_neq).
  cbn [negb]. unfold try_except.
  match goal with
  | |- context [save_lesson _ _ _ _ _ _ _ _ _ _ ?w2] =>
      destruct (save_lesson_stores config fails Hhealthy start_time
                  user_name user_contact user_id (id event) course_name
                  notes w2 Hids Hnext)
        as (p & c & d' & Hsave & Hrest)
  end.
  rewrite Hsave. cbn [db] in Hrest.
  exists p, c.
  destruct (id event); unfold ret; cbn [db];
    (eexists; split; [reflexivity|]); exact Hrest.
Qed.

End BookingStores.

Section BookingStoresProperties.
Import Io Db Calendar Booking Spec BookingTrace.

Variable config : Config.t.
Variable fails : Db.Op -> bool.
Variable delete_event : string -> bool.
Variable get_busy_slots : Provider.
Variable create_event : Z -> Z -> list DescriptionPart -> option CalendarEvent.
Variable sheets_service : option (string -> option bool).
Hypothesis Hhealthy : healthy config fails.

(** X9: with the database answering, an accepted booking of a Telegram
    user (no child named, as the handlers call it) whose calendar event
    carries an id stores no lesson: the INSERT is refused, since the id
    is a [str] and the column a [BigInteger], the error is swallowed,
    and the answer is a success without lesson id.  The user's parent
    row and that parent's first child are there afterwards all the
    same, created when missing.  Only for an event without id is one
    lesson stored and its id returned: PLANNED at the slot's start, no
    event id, no reminder sent, of that parent and that child. *)
Theorem accepted_booking_lesson_row
        (start_time end_time : Z)
        (user_name user_contact user_phone : string) (user_id : Z)
        (cancel_event_id : option string) (course_name notes : option string)
        (w : World) (busy_slots : list Slot) (event : CalendarEvent) :
  user_id <> 0 ->
  (forall c, In c (children (db w)) -> 0 < Child.id c) ->
  0 < next_child_id (db w) ->
  get_busy_slots start_time end_time = Some busy_slots ->
  slot_is_clear busy_slots start_time end_time = true ->
  create_event start_time end_time
               (description_parts (Some user_id) user_name user_contact
                                  user_phone)
  = Some event ->
  exists (p : Parent.t) (c : Child.t) (stored : option Z) (w' : World),
    book_slot config fails delete_event get_busy_slots create_event
              sheets_service start_time end_time user_name user_contact
              user_phone (Some user_id) cancel_event_id None course_name
              notes w
    = (Return (Booked (id event) (htmlLink event) start_time end_time
                      (cancelled_event delete_event cancel_event_id)
                      stored), w')
    /\ parent_by_telegram_id (db w') user_id = Some p
    /\ hd_error (filter (fun c => Child.parent_id c =? Parent.id p)
                        (children (db w'))) = Some c
    /\ match id event with
       | Some _ =>
           stored = None /\ trial_lessons (db w') = trial_lessons (db w)
       | None =>
           exists lesson : TrialLesson.t,
             stored = Some (TrialLesson.id lesson)
             /\ trial_lessons (db w') = trial_lessons (db w) ++ [lesson]
             /\ TrialLesson.scheduled_at lesson = start_time
             /\ TrialLesson.status lesson = PLANNED
             /\ TrialLesson.event_id lesson = None
             /\ TrialLesson.reminder_24h_sent lesson = false
             /\ TrialLesson.reminder_1h_sent lesson = false
             /\ TrialLesson.parent_id lesson = Parent.id p
             /\ TrialLesson.child_id lesson = Child.id c
       end.
Proof.
  intros Huid Hids Hnext Hread Hclear Hcreate.
  destruct (book_slot_stores config fails delete_event get_busy_slots
              create_event sheets_service Hhealthy start_time end_time
              user_name user_contact user_phone user_id cancel_event_id
              course_name notes w busy_slots event Huid Hids Hnext Hread
              Hclear Hcreate)
    as (p & c & w' & Hbook & Hlessons & Hp & Hc & _).
  exists p, c. eexists. exists w'.
  split; [exact Hbook|]. split; [exact Hp|]. split; [exact Hc|].
  destruct (id event) as [google_id|].
  - split; [reflexivity|]. now rewrite app_nil_r in Hlessons.
  - eexists {| TrialLesson.id := next_lesson_id (db w) |}.
    split; [reflexivity|]. split; [exact Hlessons|].
    cbn. repeat split.
Qed.

(** X10: with the database answering, booking twice for the same
    Telegram user creates the parent row and the placeholder child at
    most once: both bookings succeed and the second one adds no parent
    and no child.  When both calendar events carry an id, neither
    booking returns a lesson id and the lessons table is as before;
    when neither does, two lessons are appended, of the same parent and
    the same child. *)
Theorem second_booking_reuses_parent_and_child
        (s1 e1 s2 e2 : Z)
        (user_name user_contact user_phone : string) (user_id : Z)
        (cancel1 cancel2 : option string) (course_name notes : option string)
        (w : World) (busy1 busy2 : list Slot) (event1 event2 : CalendarEvent) :
  user_id <> 0 ->
  (forall c, In c (children (db w)) -> 0 < Child.id c) ->
  0 < next_child_id (db w) ->
  get_busy_slots s1 e1 = Some busy1 -> slot_is_clear busy1 s1 e1 = true ->
  get_busy_slots s2 e2 = Some busy2 -> slot_is_clear busy2 s2 e2 = true ->
  create_event s1 e1 (description_parts (Some user_id) user_name
                                        user_contact user_phone)
  = Some event1 ->
  create_event s2 e2 (description_parts (Some user_id) user_name
                                        user_contact user_phone)
  = Some event2 ->
  let book start_time end_time cancel_event_id :=
    book_slot config fails delete_event get_busy_slots create_event
              sheets_service start_time end_time user_name user_contact
              user_phone (Some user_id) cancel_event_id None course_name
              notes in
  exists r1 w1 r2 w2,
    book s1 e1 cancel1 w = (Return r1, w1)
    /\ book s2 e2 cancel2 w1 = (Return r2, w2)
    /\ success r1 = true
    /\ success r2 = true
    /\ parents (db w2) = parents (db w1)
    /\ children (db w2) = children (db w1)
    /\ (id event1 <> None -> id event2 <> None ->
        lesson_id r1 = None /\ lesson_id r2 = None
        /\ trial_lessons (db w2) = trial_lessons (db w))
    /\ (id event1 = None -> id event2 = None ->
        exists l1 l2,
          lesson_id r1 = Some (TrialLesson.id l1)
          /\ lesson_id r2 = Some (TrialLesson.id l2)
          /\ trial_lessons (db w2) = trial_lessons (db w) ++ [l1; l2]
          /\ TrialLesson.parent_id l2 = TrialLesson.parent_id l1
          /\ TrialLesson.child_id l2 = TrialLesson.child_id l1).
Proof.
  intros Huid Hids Hnext Hread1 Hclear1 Hread2 Hclear2 Hcreate1 Hcreate2
         book.
  destruct (book_slot_stores config fails delete_event get_busy_slots
              create_event sheets_service Hhealthy s1 e1 user_name
              user_contact user_phone user_id cancel1 course_name notes w
              busy1 event1 Huid Hids Hnext Hread1 Hclear1 Hcreate1)
    as (p1 & c1 & w1 & Hbook1 & Hl1 & Hp1 & Hc1 & Hids1 & Hnext1 & _).
  destruct (book_slot_stores config fails delete_event get_busy_slots
              create_event sheets_service Hhealthy s2 e2 user_name
              user_contact user_phone user_id cancel2 course_name notes w1
              busy2 event2 Huid Hids1 Hnext1 Hread2 Hclear2 Hcreate2)
    as (p2 & c2 & w2 & Hbook2 & Hl2 & Hp2 & Hc2 & _ & _ & Hparents
        & Hchildren).
  assert (Hsame : parents (db w2) = parents (db w1)).
  { destruct Hparents as [H | [H _]]; [exact H | congruence]. }
  assert (Hp : p2 = p1).
  { unfold parent_by_telegram_id in Hp1, Hp2. rewrite Hsame in Hp2.
    congruence. }
  subst p2.
  assert (Hkids : children (db w2) = children (db w1)).
  { destruct Hchildren as [H | [H _]]; [exact H|].
    rewrite H in Hc1. discriminate. }
  assert (Hc : c2 = c1) by (rewrite Hkids in Hc2; congruence).
  subst c2.
  eexists _, w1, _, w2.
  split; [exact Hbook1|]. split; [exact Hbook2|].
  split; [reflexivity|]. split; [reflexivity|].
  split; [exact Hsame|]. split; [exact Hkids|].
  cbn [lesson_id]. split.
  - intros Hid1 Hid2.
    destruct (id event1); [|congruence].
    destruct (id event2); [|congruence].
    rewrite !app_nil_r in *. repeat split. congruence.
  - intros Hid1 Hid2. rewrite Hid1 in *. rewrite Hid2 in *.
    eexists {| TrialLesson.id := next_lesson_id (db w) |},
      {| TrialLesson.id := next_lesson_id (db w1) |}.
    split; [reflexivity|]. split; [reflexivity|]. split.
    { rewrite Hl2, Hl1, <- app_assoc. cbn [app TrialLesson.id].
      reflexivity. }
    split; reflexivity.
Qed.

End BookingStoresProperties.

(** ** Database functions *)

Section DatabaseProperties.
Import Io Db Spec.

Variable config : Config.t.
Variable fails : Db.Op -> bool.

(** X11: without [DATABASE_URL] the functions that guard for it answer
    their defaults (no parent, no profile, an empty history, a counter
    of 0) and the functions that do not guard raise the [TypeError] of
    calling the missing session factory; none of them changes
    anything. *)
Theorem without_database_url
        (user_id parent_id : Z) (username : option string)
        (role : DialogHistory.Role) (message : Text) (w : World) :
  Config.DATABASE_URL config = false ->
  get_or_create_parent config fails user_id username w = (Return None, w)
  /\ get_full_parent_data config fails user_id username w = (Return None, w)
  /\ increment_irrelevant_count config fails user_id username w
     = (Return 0, w)
  /\ load_dialog config fails parent_id w = (Return [], w)
  /\ save_dialog config fails parent_id role message w = (Return tt, w)
  /\ block_user config fails (Some parent_id) w = (Raise TypeError, w)
  /\ unblock_and_reset config fails user_id w = (Raise TypeError, w)
  /\ get_children config fails parent_id w = (Raise TypeError, w)
  /\ (forall name age interests course_name lessons_count,
         add_child_profile config fails parent_id name age interests
                           course_name lessons_count w
         = (Raise TypeError, w))
  /\ (forall child_id event_id scheduled_at course_name notes,
         add_trial_lesson config fails parent_id child_id event_id
                          scheduled_at course_name notes w
         = (Raise TypeError, w))
  /\ (forall now full_name phone email user_data,
         complete_onboarding_in_db config fails now parent_id full_name
                                   phone email user_data w
         = (Raise TypeError, w)).
Proof.
  intros Hurl.
  unfold get_or_create_parent, get_full_parent_data,
    increment_irrelevant_count, load_dialog, save_dialog, block_user,
    unblock_and_reset, get_children, add_child_profile, add_trial_lesson,
    complete_onboarding_in_db, session.
  rewrite Hurl. cbn [negb]. unfold ret.
  repeat split.
Qed.

(** X12: [mark_lesson_completed] never raises, whether its session
    fails or not, and sends nothing.  It answers [None], and then the
    tables are as before, or a lesson with the id asked for, which is
    in the table with the status COMPLETED.  With the database
    answering, it answers [None] exactly when no lesson has that id. *)
Theorem mark_lesson_completed_answers (lesson_id : Z) (w : World) :
  exists (r : option TrialLesson.t) (w' : World),
    mark_lesson_completed config fails lesson_id w = (Return r, w')
    /\ effects w' = effects w
    /\ match r with
       | Some l =>
           TrialLesson.id l = lesson_id
           /\ TrialLesson.status l = COMPLETED
           /\ In l (trial_lessons (db w'))
       | None => db w' = db w
       end
    /\ (healthy config fails ->
        (r = None <-> forall l, In l (trial_lessons (db w)) ->
                                TrialLesson.id l <> lesson_id)).
Proof.
  unfold mark_lesson_completed, try_except, session, healthy.
  destruct (Config.DATABASE_URL config); cbn [negb].
  2:{ exists None, w. unfold ret.
      split; [reflexivity|]. split; [reflexivity|]. split; [reflexivity|].
      intros [Hurl _]. discriminate. }
  destruct (fails OpMarkLessonCompleted) eqn:Hfail.
  { exists None, w. unfold ret.
    split; [reflexivity|]. split; [reflexivity|]. split; [reflexivity|].
    intros [_ Hok]. rewrite Hok in Hfail. discriminate. }
  set (hit := fun l => TrialLesson.id l =? lesson_id).
  set (updated := update_where hit (TrialLesson.with_status COMPLETED)
                               (trial_lessons (db w))).
  assert (Hupd : forall l, In l (trial_lessons (db w)) -> hit l = true ->
                           In (TrialLesson.with_status COMPLETED l) updated).
  { intros l Hin Hl. unfold updated, update_where. apply in_map_iff.
    exists l. rewrite Hl. now split. }
  destruct (find hit updated) as [l|] eqn:Hfind.
  - eexists (Some l), _. split; [reflexivity|]. cbn [effects db].
    split; [reflexivity|].
    pose proof (find_some _ _ Hfind) as [Hin Hhit].
    assert (Hid : TrialLesson.id l = lesson_id) by now apply Z.eqb_eq.
    unfold updated, update_where in Hin. apply in_map_iff in Hin.
    destruct Hin as (l0 & Hl & Hin0).
    split; [|intros _; split; [discriminate|]].
    + split; [exact Hid|]. split.
      * destruct (hit l0) eqn:H0; subst l; [reflexivity|].
        unfold hit in *. congruence.
      * cbn [trial_lessons set_trial_lessons]. unfold update_where.
        apply in_map_iff. exists l0. now split.
    + intros Hnone. exfalso. apply (Hnone l0 Hin0).
      destruct (hit l0) eqn:H0; subst l.
      * exact Hid.
      * exact Hid.
  - eexists None, _. split; [reflexivity|]. cbn [effects db].
    split; [reflexivity|].
    assert (Hnone : forall l, In l (trial_lessons (db w)) -> hit l = false).
    { intros l Hin. destruct (hit l) eqn:Hl; [|reflexivity].
      pose proof (find_none _ _ Hfind _ (Hupd l Hin Hl)) as Hall.
      unfold hit in *. cbn in Hall. congruence. }
    split.
    + unfold set_trial_lessons. destruct (db w) as [ps cs ls ds n1 n2 n3].
      cbn in *. f_equal. unfold updated, update_where.
      rewrite <- (map_id ls) at 2. apply map_ext_in.
      intros l Hin. now rewrite (Hnone l Hin).
    + intros _. split; [|reflexivity].
      intros _ l Hin Heq. specialize (Hnone l Hin). unfold hit in Hnone.
      apply Z.eqb_neq in Hnone. contradiction.
Qed.

Hypothesis Hhealthy : healthy config fails.

(** X13: with the database answering, [get_or_create_parent] creates at
    most one row per Telegram id: the first call answers the existing
    row or inserts one with the column defaults, and a second call, with
    whatever username, finds that same row and writes nothing. *)
Theorem get_or_create_parent_idempotent
        (telegram_id : Z) (username username' : option string) (w : World) :
  exists (p : Parent.t) (w1 : World),
    get_or_create_parent config fails telegram_id username w
    = (Return (Some p), w1)
    /\ get_or_create_parent config fails telegram_id username' w1
       = (Return (Some p), w1)
    /\ Parent.telegram_id p = telegram_id
    /\ effects w1 = effects w
    /\ (db w1 = db w
        \/ parent_by_telegram_id (db w) telegram_id = None
           /\ p = new_parent (next_parent_id (db w)) telegram_id username
                             0 None
           /\ parents (db w1) = parents (db w) ++ [p]).
Proof.
  destruct Hhealthy as [Hurl Hfails].
  unfold get_or_create_parent, session, insert_parent.
  rewrite Hurl, !Hfails. cbn [negb].
  destruct (parent_by_telegram_id (db w) telegram_id) as [p|] eqn:Hp.
  - exists p, {| db := db w; effects := effects w |}.
    cbn [db effects]. rewrite Hp.
    split; [reflexivity|]. split; [reflexivity|].
    split; [|split; [reflexivity | now left]].
    apply find_some in Hp. now apply Z.eqb_eq.
  - set (p := new_parent (next_parent_id (db w)) telegram_id username 0
                         None).
    eexists p, _. split; [reflexivity|]. cbn [db effects].
    assert (Hfound :
              parent_by_telegram_id
                {| parents := parents (db w) ++ [p];
                   children := children (db w);
                   trial_lessons := trial_lessons (db w);
                   dialog_history := dialog_history (db w);
                   next_parent_id := next_parent_id (db w) + 1;
                   next_child_id := next_child_id (db w);
                   next_lesson_id := next_lesson_id (db w) |} telegram_id
              = Some p).
    { unfold parent_by_telegram_id. cbn [parents].
      apply find_app_last; [exact Hp | cbn; apply Z.eqb_refl]. }
    rewrite Hfound.
    split; [reflexivity|]. split; [reflexivity|].
    split; [reflexivity|]. right. repeat split.
Qed.

(** X14: with the database answering, a message saved with
    [save_dialog] is the last one [load_dialog] then returns for that
    parent; the list has at most 20 entries, all of them of the parent
    asked for. *)
Theorem saved_message_is_loaded_last
        (parent_id : Z) (role : DialogHistory.Role) (message : Text)
        (w : World) :
  exists (w1 : World) (earlier : list DialogHistory.t),
    save_dialog config fails parent_id role message w = (Return tt, w1)
    /\ load_dialog config fails parent_id w1
       = (Return (earlier
                  ++ [{| DialogHistory.parent_id := parent_id;
                         DialogHistory.role := role;
                         DialogHistory.message := message |}]), w1)
    /\ (List.length earlier < 20)%nat
    /\ forall e, In e earlier -> DialogHistory.parent_id e = parent_id.
Proof.
  destruct Hhealthy as [Hurl Hfails].
  set (mine := filter (fun e => DialogHistory.parent_id e =? parent_id)
                      (dialog_history (db w))).
  set (entry := {| DialogHistory.parent_id := parent_id;
                   DialogHistory.role := role;
                   DialogHistory.message := message |}).
  assert (Hmine : forall e, In e mine -> DialogHistory.parent_id e = parent_id).
  { intros e He. apply filter_In in He. now apply Z.eqb_eq. }
  exists {| db := insert_dialog entry (db w); effects := effects w |},
    (skipn (List.length mine + 1 - 20) mine).
  unfold save_dialog, load_dialog, session, ret.
  rewrite Hurl, !Hfails. cbn [negb db effects].
  split; [reflexivity|]. split.
  - unfold insert_dialog at 1. cbn [dialog_history].
    rewrite filter_app. cbn [filter]. unfold entry at 1.
    cbn [DialogHistory.parent_id]. rewrite Z.eqb_refl. fold mine.
    unfold last_entries. rewrite length_app. cbn [List.length].
    rewrite skipn_app.
    replace (List.length mine + 1 - 20 - List.length mine)%nat with 0%nat
      by lia.
    reflexivity.
  - split.
    + rewrite length_skipn. lia.
    + intros e He. apply Hmine.
      rewrite <- (firstn_skipn (List.length mine + 1 - 20) mine).
      apply in_or_app. now right.
Qed.

End DatabaseProperties.

(** ** The text handler outside moderation *)

Section HandlerProperties.
Import Io Db SalesFunnel Spec.

Variable config : Config.t.
Variable fails : Db.Op -> bool.
Variable delivers : Z -> Reply -> bool.
Variable intent_recognizer : option (Text -> option Text).
Variable Template : Type.
Variable find_template_by_keywords : Text -> option Template.
Variable build_template_response :
  Template -> list DialogHistory.t -> Dict -> Text.
Variable is_query_relevant_ai : Text -> list DialogHistory.t -> bool.
Variable cmd_book : Message -> M unit.
Variable answer_relevant :
  Message -> list DialogHistory.t -> option Parent.t -> M unit.

Let handle :=
  handle_text_message config fails delivers intent_recognizer Template
    find_template_by_keywords build_template_response is_query_relevant_ai
    cmd_book answer_relevant.

(** X15: whatever the text, a user who has not finished onboarding gets
    the invitation to it and nothing else: no other message is sent, no
    dialog entry is stored and no counter changes.  This is so without
    [DATABASE_URL] (every user then runs on the minimal profile), for a
    known user who is not blocked and whose completion time is empty,
    and for an unknown user, who first gets a row with the column
    defaults. *)
Theorem not_onboarded_user_is_invited (message : Message) (w : World) :
  delivers (user_id message) OnboardingInvite = true ->
  let invited d :=
    handle message w
    = (Return tt,
       {| db := d;
          effects := effects w
                     ++ [Answer (user_id message) OnboardingInvite] |}) in
  (Config.DATABASE_URL config = false -> invited (db w))
  /\ (healthy config fails ->
      forall p,
        parent_by_telegram_id (db w) (user_id message) = Some p ->
        Parent.is_blocked p = false ->
        Parent.onboarding_completed_at p = None ->
        invited (db w))
  /\ (healthy config fails ->
      parent_by_telegram_id (db w) (user_id message) = None ->
      invited (snd (insert_parent
                      (fun id => new_parent id (user_id message)
                                            (username message) 0 None)
                      (db w)))).
Proof.
  intros Hdel invited. unfold invited, handle, handle_text_message,
    try_except, bind, get_full_parent_data, answer.
  split; [|split].
  - intros Hurl. rewrite Hurl. cbn [negb]. unfold ret.
    cbn [minimal_profile Profile.is_blocked Profile.onboarding_completed_at].
    rewrite Hdel. reflexivity.
  - intros Hh p Hfind Hnb Hon. pose proof Hh as [Hurl _].
    rewrite Hurl. cbn [negb]. rewrite session_ok by assumption.
    rewrite Hfind. cbn [fst snd].
    unfold profile_of at 1. cbn [Profile.is_blocked]. rewrite Hnb.
    unfold profile_of at 1. cbn [Profile.onboarding_completed_at].
    rewrite Hon, Hdel. unfold emit. cbn [db effects]. reflexivity.
  - intros Hh Hfind. pose proof Hh as [Hurl _].
    rewrite Hurl. cbn [negb]. rewrite session_ok by assumption.
    rewrite Hfind. unfold insert_parent. cbn [fst snd].
    unfold profile_of at 1, new_parent at 1.
    cbn [Profile.is_blocked Parent.is_blocked].
    unfold profile_of at 1, new_parent at 1.
    cbn [Profile.onboarding_completed_at Parent.onboarding_completed_at].
    rewrite Hdel. unfold emit. cbn [db effects]. reflexivity.
Qed.

(** X16: the error branch of the text handler reads the dialog from the
    database before it tells anybody.  When the profile cannot be read
    but the dialog can, the operators get the error notice and the user
    the apology; when the dialog cannot be read either, the handler
    raises and neither of them is told anything. *)
Theorem handler_error_branch (message : Message) (w : World) :
  Config.DATABASE_URL config = true ->
  fails OpGetFullParentData = true ->
  (fails OpLoadDialog = false ->
   delivers (user_id message) Apology = true ->
   handle message w
   = (Return tt,
      {| db := db w;
         effects := effects w
                    ++ [NotifyAdminOnError (user_id message);
                        Answer (user_id message) Apology] |}))
  /\ (fails OpLoadDialog = true ->
      handle message w = (Raise SQLAlchemyError, w)).
Proof.
  intros Hurl Hprofile.
  unfold handle, handle_text_message, try_except, bind,
    get_full_parent_data, load_dialog, session, notify_admin_on_error,
    answer, emit.
  rewrite Hurl, Hprofile. cbn [negb].
  split.
  - intros Hdialog Hdel. rewrite Hdialog. cbn [db effects].
    rewrite Hdel. cbn [db effects]. rewrite <- app_assoc. reflexivity.
  - intros Hdialog. rewrite Hdialog. reflexivity.
Qed.

Hypothesis Hhealthy : healthy config fails.

(** X17: the template branch of the text handler, with the database
    answering.  For an onboarded, unblocked user whose text has no
    intent with an action and matches a template, the reply, when
    Telegram takes it, is the template's answer, the moderation state
    is untouched, and the user's text and the answer are appended to the
    dialog under the parent's key.  The history handed to the template
    is what [load_dialog] returns for the Telegram id: the last 20
    entries whose [parent_id] equals that id. *)
Theorem template_answer_run (message : Message) (w : World) (p : Parent.t)
        (t : Z) (template : Template) :
  parent_by_telegram_id (db w) (user_id message) = Some p ->
  Parent.is_blocked p = false ->
  Parent.onboarding_completed_at p = Some t ->
  let detected_intent :=
    match intent_recognizer with
    | Some recognize => recognize (text message)
    | None => None
    end in
  in_intent_to_action detected_intent = false ->
  find_template_by_keywords
    match detected_intent with
    | Some [] | None => text message
    | Some i => i
    end = Some template ->
  let history :=
    last_entries 20
      (filter (fun e => DialogHistory.parent_id e =? user_id message)
              (dialog_history (db w))) in
  let response :=
    build_template_response template history
      (match Parent.user_data p with Some u => u | None => [] end) in
  delivers (user_id message) (TemplateAnswer response) = true ->
  exists w',
    handle message w = (Return tt, w')
    /\ effects w'
       = effects w ++ [Answer (user_id message) (TemplateAnswer response)]
    /\ parents (db w') = parents (db w)
    /\ dialog_history (db w')
       = dialog_history (db w)
         ++ [{| DialogHistory.parent_id := Parent.id p;
                DialogHistory.role := DialogHistory.user;
                DialogHistory.message := text message |};
             {| DialogHistory.parent_id := Parent.id p;
                DialogHistory.role := DialogHistory.assistant;
                DialogHistory.message := response |}].
Proof.
  intros Hfind Hnb Hon detected_intent Hintent Htpl history response Hdel.
  pose proof Hhealthy as [Hurl Hok].
  unfold handle, handle_text_message, try_except, bind.
  unfold get_full_parent_data. rewrite Hurl. cbn [negb].
  rewrite session_ok by assumption. rewrite Hfind. cbn [fst snd].
  unfold profile_of at 1. cbn [Profile.is_blocked]. rewrite Hnb.
  unfold profile_of at 1. cbn [Profile.onboarding_completed_at]. rewrite Hon.
  unfold load_dialog. rewrite Hurl. cbn [negb].
  rewrite session_ok by assumption. cbn [fst snd db effects].
  unfold get_or_create_parent. rewrite Hurl. cbn [negb].
  rewrite session_ok by assumption. cbn [fst snd db effects].
  rewrite Hfind. cbn [fst snd db effects].
  unfold save_dialog. rewrite Hurl. cbn [negb].
  rewrite session_ok by assumption. cbn [fst snd db effects].
  fold detected_intent. rewrite Hintent, Htpl.
  fold history. unfold profile_of at 1. cbn [Profile.user_data].
  fold response. unfold answer. rewrite Hdel.
  unfold emit, save_reply, save_dialog. cbn [db effects].
  rewrite Hurl. cbn [negb].
  rewrite session_ok by assumption. cbn [fst snd db effects].
  eexists. split; [reflexivity|]. cbn [db effects].
  split; [reflexivity|]. unfold insert_dialog.
  cbn [parents dialog_history]. split; [reflexivity|].
  now rewrite <- app_assoc.
Qed.

End HandlerProperties.

(** ** Reminder and completion sweeps *)

Section ReminderFacts.
Import Io Db Time Scheduler Spec Reminders.

Lemma select_reminders_In (now_msk : Z) (lessons : list TrialLesson.t)
      (l : TrialLesson.t) (when : Reminder) :
  In (l, when) (select_reminders now_msk lessons)
  <-> In l lessons /\ due now_msk l when.
Proof.
  unfold select_reminders. rewrite in_flat_map. split.
  - intros (x & Hx & Hin).
    destruct (_ && _ && negb (TrialLesson.reminder_24h_sent x)) eqn:H24.
    + destruct Hin as [Heq | []]. inversion Heq; subst.
      split; [assumption|]. cbn.
      rewrite !andb_true_iff, !Z.leb_le, negb_true_iff in H24. tauto.
    + destruct (_ && _ && negb (TrialLesson.reminder_1h_sent x)) eqn:H1.
      * destruct Hin as [Heq | []]. inversion Heq; subst.
        split; [assumption|]. cbn.
        rewrite !andb_true_iff, !Z.leb_le, negb_true_iff in H1. tauto.
      * destruct Hin.
  - intros [Hin Hdue]. exists l. split; [assumption|].
    destruct when; cbn in Hdue; destruct Hdue as (Hlo & Hhi & Hflag).
    + replace (_ && _ && negb (TrialLesson.reminder_24h_sent l)) with true.
      * now left.
      * symmetry. rewrite !andb_true_iff, !Z.leb_le, negb_true_iff. tauto.
    + replace (_ && _ && negb (TrialLesson.reminder_24h_sent l)) with false.
      * replace (_ && _ && negb (TrialLesson.reminder_1h_sent l)) with true.
        -- now left.
        -- symmetry. rewrite !andb_true_iff, !Z.leb_le, negb_true_iff. tauto.
      * symmetry. apply not_true_iff_false.
        rewrite !andb_true_iff, !Z.leb_le.
        unfold timedelta, US_PER_DAY, US_PER_HOUR, US_PER_MINUTE,
          US_PER_SECOND in *. lia.
Qed.

Lemma select_reminders_fst (now_msk : Z) (lessons : list TrialLesson.t) :
  map fst (select_reminders now_msk lessons)
  = filter
      (fun lesson =>
         ((now_msk + timedelta 0 23 50 <=? TrialLesson.scheduled_at lesson)
          && (TrialLesson.scheduled_at lesson <=? now_msk + timedelta 0 24 10)
          && negb (TrialLesson.reminder_24h_sent lesson))
         || ((now_msk + timedelta 0 0 50 <=? TrialLesson.scheduled_at lesson)
             && (TrialLesson.scheduled_at lesson
                 <=? now_msk + timedelta 0 1 10)
             && negb (TrialLesson.reminder_1h_sent lesson)))
      lessons.
Proof.
  unfold select_reminders.
  induction lessons as [|x rest IH]; [reflexivity|].
  cbn [flat_map filter]. rewrite map_app, IH.
  destruct (_ && _ && negb (TrialLesson.reminder_24h_sent x));
    [reflexivity|].
  destruct (_ && _ && negb (TrialLesson.reminder_1h_sent x)); reflexivity.
Qed.

End ReminderFacts.

Section SchedulerProperties.
Import Io Db Time Scheduler Spec Reminders.

(** X18: a lesson is selected for a reminder exactly when that reminder
    is due: it starts between 23 h 50 min and 24 h 10 min after the
    sweep (between 50 and 70 minutes for the one-hour reminder), bounds
    included, and the flag of that reminder is not set.  The two windows
    do not meet, so the [elif] never hides a due one-hour reminder, and
    no lesson is selected twice in one sweep. *)
Theorem reminder_selected_iff_due
        (now_msk : Z) (lessons : list TrialLesson.t) :
  (forall l when,
      In (l, when) (select_reminders now_msk lessons)
      <-> In l lessons /\ due now_msk l when)
  /\ (NoDup lessons -> NoDup (map fst (select_reminders now_msk lessons))).
Proof.
  split.
  - intros l when. apply select_reminders_In.
  - intros Hnd. rewrite select_reminders_fst. now apply NoDup_filter.
Qed.

End SchedulerProperties.

(** ** The keyboard-layout table *)

Section LayoutProperties.
Import Llm Spec.
Local Open Scope N_scope.

(** One character through the table of [to_russian_layout]. *)
Let tr (c : N) : N :=
  match lookup (maketrans (eng ++ upper eng) (rus ++ upper rus)) c with
  | Some v => v
  | None => c
  end.

Lemma lookup_absent (tbl : list (N * N)) (c : N) :
  forallb (fun kv => negb (fst kv =? c)) tbl = true -> lookup tbl c = None.
Proof.
  induction tbl as [|[k v] rest IH]; cbn [forallb lookup fst];
    [reflexivity|].
  intros H. apply andb_true_iff in H. destruct H as [Hk Hrest].
  rewrite (IH Hrest). apply negb_true_iff in Hk. now rewrite Hk.
Qed.

Lemma layout_keys_below_123 :
  forallb (fun kv => fst kv <? 123)
          (maketrans (eng ++ upper eng) (rus ++ upper rus)) = true.
Proof. vm_compute. reflexivity. Qed.

Lemma tr_above (c : N) : 123 <= c -> tr c = c.
Proof.
  intros Hc. unfold tr. rewrite lookup_absent; [reflexivity|].
  pose proof layout_keys_below_123 as Hkeys.
  rewrite forallb_forall in Hkeys |- *.
  intros kv Hin. specialize (Hkeys kv Hin).
  apply N.ltb_lt in Hkeys. apply negb_true_iff, N.eqb_neq. lia.
Qed.

(** The table on the code points below 123, by evaluation: an image is
    never a Latin letter and is left alone by the table; Cyrillic
    letters, digits and the space are not keys; the comma and the full
    stop are. *)
Lemma layout_table_below_123 :
  forallb (fun c =>
             negb (is_latin (tr c))
             && (tr (tr c) =? tr c)
             && implb (between 48 57 c || (c =? 32)) (tr c =? c)
             && implb ((c =? 44) || (c =? 46)) (is_cyrillic (tr c)))
          (map N.of_nat (seq 0 123)) = true.
Proof. vm_compute. reflexivity. Qed.

Lemma below_123_listed (c : N) :
  c < 123 -> In c (map N.of_nat (seq 0 123)).
Proof.
  intros Hc. apply in_map_iff. exists (N.to_nat c).
  split; [apply N2Nat.id|]. apply in_seq. lia.
Qed.

Lemma is_latin_below (c : N) : is_latin c = true -> c < 123.
Proof.
  unfold is_latin, between. intros Hc. apply orb_true_iff in Hc.
  destruct Hc as [Hc | Hc]; apply andb_true_iff in Hc;
    destruct Hc as [_ Hc]; apply N.leb_le in Hc; lia.
Qed.

Lemma is_cyrillic_above (c : N) : is_cyrillic c = true -> 123 <= c.
Proof.
  unfold is_cyrillic, between. intros Hc.
  repeat (apply orb_true_iff in Hc; destruct Hc as [Hc | Hc]);
    try (apply andb_true_iff in Hc; destruct Hc as [Hc _];
         apply N.leb_le in Hc; lia);
    apply N.eqb_eq in Hc; lia.
Qed.

Lemma tr_char (c : N) :
  is_latin (tr c) = false /\ tr (tr c) = tr c
  /\ (is_cyrillic c = true \/ between 48 57 c = true \/ c = 32 -> tr c = c)
  /\ (c = 44 \/ c = 46 -> is_cyrillic (tr c) = true).
Proof.
  destruct (N.lt_ge_cases c 123) as [Hlt | Hge].
  - pose proof layout_table_below_123 as Hall.
    rewrite forallb_forall in Hall.
    specialize (Hall c (below_123_listed c Hlt)).
    rewrite !andb_true_iff in Hall.
    destruct Hall as [[[Hlat Hidem] Hfix] Hpunct].
    split; [now apply negb_true_iff|]. split; [now apply N.eqb_eq|].
    split.
    + intros [Hc | [Hc | Hc]].
      * apply is_cyrillic_above in Hc. lia.
      * rewrite Hc in Hfix. cbn [orb implb] in Hfix. now apply N.eqb_eq.
      * subst c. reflexivity.
    + intros [-> | ->]; reflexivity.
  - rewrite !(tr_above c Hge).
    split.
    + apply not_true_iff_false. intros Hc. apply is_latin_below in Hc. lia.
    + split; [reflexivity|]. split; [reflexivity|]. intros [-> | ->]; lia.
Qed.

Lemma count_zero_iff (class : N -> bool) (t : Text) :
  count class t = 0%Z <-> forall c, In c t -> class c = false.
Proof.
  unfold count. induction t as [|x t IH]; cbn [filter].
  - split; [intros _ c [] | reflexivity].
  - destruct (class x) eqn:Hx; cbn [List.length].
    + split; [lia|]. intros H. specialize (H x (or_introl eq_refl)).
      congruence.
    + rewrite IH. split.
      * intros H c [<- | Hin]; auto.
      * intros H c Hin. apply H. now right.
Qed.

(** X24: the layout table works character by character: the result has
    the length of the text; no Latin letter is left in it; applying the
    table again changes nothing; a text of Cyrillic letters, digits and
    spaces comes back as it is.  The comma and the full stop are keys of
    the table as well: in any text they become Cyrillic letters. *)
Theorem to_russian_layout_by_character (text : Text) :
  List.length (to_russian_layout text) = List.length text
  /\ count is_latin (to_russian_layout text) = 0%Z
  /\ to_russian_layout (to_russian_layout text) = to_russian_layout text
  /\ ((forall c, In c text ->
                 is_cyrillic c = true \/ between 48 57 c = true \/ c = 32) ->
      to_russian_layout text = text)
  /\ (forall before after,
         text = before ++ 44 :: after \/ text = before ++ 46 :: after ->
         exists c, nth_error (to_russian_layout text) (List.length before)
                   = Some c
                   /\ is_cyrillic c = true).
Proof.
  unfold to_russian_layout, translate. fold tr.
  split; [apply length_map|]. split.
  { apply count_zero_iff. intros c Hin. apply in_map_iff in Hin.
    destruct Hin as (x & <- & _). exact (proj1 (tr_char x)). }
  split.
  { rewrite map_map. apply map_ext. intros c.
    exact (proj1 (proj2 (tr_char c))). }
  split.
  { intros Hall. rewrite <- (map_id text) at 2. apply map_ext_in.
    intros c Hin. apply (proj1 (proj2 (proj2 (tr_char c)))).
    now apply Hall. }
  intros before after Htext.
  assert (Hkey : exists k, (k = 44 \/ k = 46) /\ text = before ++ k :: after).
  { destruct Htext as [-> | ->];
      [exists 44 | exists 46]; split; auto. }
  destruct Hkey as (k & Hk & ->).
  exists (tr k). split; [|exact (proj2 (proj2 (proj2 (tr_char k))) Hk)].
  rewrite map_app. cbn [map].
  rewrite nth_error_app2; rewrite length_map; [|lia].
  now rewrite Nat.sub_diag.
Qed.

Lemma split_from_covers (text : Text) :
  forall (word : Text) (c : N),
    In c word \/ (In c text /\ isspace c = false) ->
    exists w, In w (split_from word text) /\ In c w.
Proof.
  induction text as [|x rest IH]; intros word c Hc; cbn [split_from].
  - destruct Hc as [Hc | [[] _]].
    destruct word as [|y ys]; [destruct Hc|].
    exists (y :: ys). split; [now left | exact Hc].
  - destruct (isspace x) eqn:Hx.
    + destruct word as [|y ys].
      * destruct Hc as [[] | [[<- | Hin] Hsp]]; [congruence|].
        apply IH. right. now split.
      * destruct Hc as [Hc | [[<- | Hin] Hsp]].
        -- exists (y :: ys). split; [now left | exact Hc].
        -- congruence.
        -- destruct (IH [] c (or_intror (conj Hin Hsp))) as (w & Hw & Hcw).
           exists w. split; [now right | exact Hcw].
    + apply IH. destruct Hc as [Hc | [[<- | Hin] Hsp]].
      * left. apply in_or_app. now left.
      * left. apply in_or_app. right. now left.
      * right. now split.
Qed.

Lemma is_cyrillic_not_space (c : N) :
  is_cyrillic c = true -> isspace c = false /\ is_latin c = false.
Proof.
  intros Hc. pose proof (is_cyrillic_above c Hc) as Hge.
  assert (Hrange : 1025 <= c <= 1105).
  { unfold is_cyrillic, between in Hc.
    repeat (apply orb_true_iff in Hc; destruct Hc as [Hc | Hc]);
      try (apply andb_true_iff in Hc; destruct Hc as [Hlo Hhi];
           apply N.leb_le in Hlo, Hhi; lia);
      apply N.eqb_eq in Hc; lia. }
  split.
  - unfold isspace, between.
    repeat match goal with
           | |- context [?a <=? ?b] =>
               destruct (N.leb_spec a b); cbn [andb orb]
           | |- context [?a =? ?b] =>
               destruct (N.eqb_spec a b); cbn [andb orb]
           end; try reflexivity; lia.
  - apply not_true_iff_false. intros Hl. apply is_latin_below in Hl. lia.
Qed.

(** X25: a question with a Cyrillic letter and no Latin letter never
    triggers the layout retry: whatever the classifier answers, it is
    asked once, about the question as typed, and its answer is the
    verdict. *)
Theorem cyrillic_question_is_classified_once
        {History : Type} (is_query_relevant_ai : Text -> History -> bool)
        (question : Text) (history : History) :
  count is_latin question = 0%Z ->
  (0 < count is_cyrillic question)%Z ->
  needs_layout_correction question = false
  /\ is_query_relevant_with_layout_correction is_query_relevant_ai
       question history
     = (is_query_relevant_ai question history, [question]).
Proof.
  intros Hlatin Hcyr.
  assert (Hno : needs_layout_correction question = false).
  { apply not_true_iff_false. intros Hneed.
    apply needs_layout_correction_iff in Hneed.
    destruct Hneed as [[Hz _] | [Hgt | [_ Hwords]]]; [lia | lia |].
    destruct (count_pos_In _ _ Hcyr) as (c & Hin & Hc).
    destruct (is_cyrillic_not_space c Hc) as [Hsp Hnl].
    destruct (split_from_covers question [] c (or_intror (conj Hin Hsp)))
      as (w & Hw & Hcw).
    destruct (Hwords w Hw) as [_ Hall].
    specialize (Hall c Hcw). congruence. }
  split; [exact Hno|].
  unfold is_query_relevant_with_layout_correction.
  rewrite Hno, andb_false_r. reflexivity.
Qed.

End LayoutProperties.
(** ** Retries *)

Section RetryFacts.
Import Retry.

Lemma range_nil (start stop : Z) : stop <= start -> range start stop = [].
Proof.
  intros H. unfold range. replace (Z.to_nat (stop - start)) with 0%nat by lia.
  reflexivity.
Qed.

Lemma range_cons (start stop : Z) :
  start < stop -> range start stop = start :: range (start + 1) stop.
Proof.
  intros H. unfold range.
  replace (Z.to_nat (stop - start))
    with (S (Z.to_nat (stop - (start + 1)))) by lia.
  cbn [seq map]. f_equal; [lia|].
  rewrite <- seq_shift, map_map. apply map_ext. intros i. lia.
Qed.

Lemma range_length (start stop : Z) :
  List.length (range start stop) = Z.to_nat (stop - start).
Proof. unfold range. now rewrite length_map, length_seq. Qed.

Variables State Result Error Delay : Type.
Variable max_attempts : Z.
Variable delay : Z -> option Delay.
Variable should_retry : Error -> bool.
Variable on_retry : option (Error -> Z -> State -> State).
Variable sleep : Delay -> State -> option State.
Variable func : State -> (Result + Error) * State.

Let run := attempts max_attempts delay should_retry on_retry sleep func.

Let explained := RetryTrace.explained max_attempts delay sleep func.

Lemma attempts_explained (m : nat) :
  forall (attempt : Z) (last_exception : option Error) (s : State),
    Z.of_nat m = max_attempts + 1 - attempt -> 1 <= attempt -> (0 < m)%nat ->
    explained (fst (run (range attempt (max_attempts + 1)) last_exception s))
              (snd (run (range attempt (max_attempts + 1)) last_exception s)).
Proof.
  induction m as [|m IH]; intros attempt last_exception s Hm Ha Hpos;
    [lia|].
  rewrite range_cons by lia. unfold run. cbn [attempts].
  destruct (func s) as [[r | e] s1] eqn:Hcall.
  - cbn. now exists s.
  - destruct (negb (should_retry e) || (max_attempts <=? attempt)) eqn:Hstop.
    + cbn. now exists s.
    + apply orb_false_iff in Hstop. destruct Hstop as [_ Hlt].
      apply Z.leb_gt in Hlt.
      destruct (delay attempt) as [d |] eqn:Hd.
      * cbv zeta.
        destruct (sleep d _) as [s3 |] eqn:Hsleep.
        -- apply IH; lia.
        -- cbn. exists attempt, d. eexists. repeat split; eauto; lia.
      * cbn. exists attempt. split; [lia | exact Hd].
Qed.

Let run_counted :=
  attempts max_attempts delay should_retry (uncounted_callback on_retry)
           (uncounted_sleep sleep) (counted func).

Lemma attempts_counted (remaining : list Z) :
  forall (last_exception : option Error) (s : State) (n : nat),
  exists k : nat,
    (k <= List.length remaining)%nat
    /\ (remaining <> [] -> (0 < k)%nat)
    /\ run_counted remaining last_exception (s, n)
       = (fst (run remaining last_exception s),
          (snd (run remaining last_exception s), (n + k)%nat)).
Proof.
  induction remaining as [|attempt rest IH]; intros last_exception s n.
  - exists 0%nat. cbn. rewrite Nat.add_0_r. repeat split; [lia | congruence].
  - unfold run_counted, run. cbn [attempts]. unfold counted at 1.
    cbn [fst snd].
    destruct (func s) as [[r | e] s1] eqn:Hcall.
    + exists 1%nat. cbn [fst snd List.length].
      rewrite Nat.add_1_r. repeat split; lia.
    + destruct (negb (should_retry e) || (max_attempts <=? attempt)).
      * exists 1%nat. cbn [fst snd List.length].
        rewrite Nat.add_1_r. repeat split; lia.
      * destruct (delay attempt) as [d |].
        -- cbv zeta.
           assert (Hcb : match uncounted_callback on_retry with
                         | Some callback => callback e attempt (s1, S n)
                         | None => (s1, S n)
                         end
                         = (match on_retry with
                            | Some callback => callback e attempt s1
                            | None => s1
                            end, S n)).
           { destruct on_retry; reflexivity. }
           rewrite Hcb. unfold uncounted_sleep at 1. cbn [fst snd].
           destruct (sleep d _) as [s3 |].
           ++ destruct (IH (Some e) s3 (S n)) as (k & Hk & _ & Hrun).
              exists (S k). cbn [List.length].
              split; [lia|]. split; [lia|].
              unfold run_counted in Hrun. rewrite Hrun.
              now rewrite Nat.add_succ_comm.
           ++ exists 1%nat. cbn [fst snd List.length].
              rewrite Nat.add_1_r. repeat split; lia.
        -- exists 1%nat. cbn [fst snd List.length].
           rewrite Nat.add_1_r. repeat split; lia.
Qed.

Lemma attempts_counted_all_fail (m : nat) :
  (forall s0, exists e s1, func s0 = (inr e, s1) /\ should_retry e = true) ->
  (forall attempt, delay attempt <> None) ->
  (forall d s0, sleep d s0 <> None) ->
  forall (attempt : Z) (last_exception : option Error) (s : State) (n : nat),
    Z.of_nat m = max_attempts + 1 - attempt -> (0 < m)%nat ->
    exists e s',
      run_counted (range attempt (max_attempts + 1)) last_exception (s, n)
      = (Raise (FromFunc e), (s', (n + m)%nat)).
Proof.
  intros Hfail Hdelay Hsleep.
  induction m as [|m IH]; intros attempt last_exception s n Hm Hpos; [lia|].
  rewrite range_cons by lia. unfold run_counted. cbn [attempts].
  unfold counted at 1. cbn [fst snd].
  destruct (Hfail s) as (e & s1 & Hcall & Hretry). rewrite Hcall, Hretry.
  cbn [negb orb].
  destruct (max_attempts <=? attempt) eqn:Hlast.
  - apply Z.leb_le in Hlast. exists e, s1.
    replace m with 0%nat by lia. now rewrite Nat.add_1_r.
  - apply Z.leb_gt in Hlast.
    destruct (delay attempt) as [d |] eqn:Hd; [|now destruct (Hdelay attempt)].
    cbv zeta.
    assert (Hcb : match uncounted_callback on_retry with
                  | Some callback => callback e attempt (s1, S n)
                  | None => (s1, S n)
                  end
                  = (match on_retry with
                     | Some callback => callback e attempt s1
                     | None => s1
                     end, S n)).
    { destruct on_retry; reflexivity. }
    rewrite Hcb. unfold uncounted_sleep at 1. cbn [fst snd].
    destruct (sleep d _) as [s3 |] eqn:Hs; [|now destruct (Hsleep _ _ Hs)].
    destruct (IH (attempt + 1) (Some e) s3 (S n)) as (e' & s' & Hrun);
      [lia | lia |].
    exists e', s'. unfold run_counted in Hrun. rewrite Hrun.
    now rewrite Nat.add_succ_comm.
Qed.

(** X26: with [max_attempts <= 0] the wrapper never calls the function
    and raises the [TypeError] of [raise None].  With a positive
    [max_attempts] the [raise] after the loop is never reached: the
    wrapper ends right after a call of the function, with the value or
    the exception of that call, unless the delay overflows or the sleep
    is refused before the last attempt.  A first call that returns, or
    that raises an exception that is not retryable, ends the run. *)
Theorem retry_outcome_comes_from_a_call (s : State) :
  let wrapper := wrapper max_attempts delay should_retry on_retry sleep func in
  (max_attempts <= 0 -> wrapper s = (Raise RaiseNone, s))
  /\ (0 < max_attempts ->
      RetryTrace.explained max_attempts delay sleep func
                           (fst (wrapper s)) (snd (wrapper s)))
  /\ (0 < max_attempts ->
      forall r s1, func s = (inl r, s1) -> wrapper s = (Return r, s1))
  /\ (0 < max_attempts ->
      forall e s1, func s = (inr e, s1) ->
                   should_retry e = false \/ max_attempts = 1 ->
                   wrapper s = (Raise (FromFunc e), s1)).
Proof.
  cbv zeta. unfold wrapper. repeat split.
  - intros Hle. now rewrite range_nil by lia.
  - intros Hpos.
    apply (attempts_explained (Z.to_nat max_attempts)); lia.
  - intros Hpos r s1 Hcall. rewrite range_cons by lia. cbn [attempts].
    now rewrite Hcall.
  - intros Hpos e s1 Hcall Hstop. rewrite range_cons by lia.
    cbn [attempts]. rewrite Hcall.
    destruct Hstop as [-> | ->]; [reflexivity|].
    now rewrite orb_true_r.
Qed.

(** X27: the wrapped function is called at most [max_attempts] times,
    and at least once when [max_attempts] is positive; counting the
    calls does not change the run.  When every call raises a retryable
    exception (and no delay overflows, no sleep is refused) it is called
    exactly [max_attempts] times and the exception of a call is
    raised. *)
Theorem retry_calls_are_bounded (s : State) (n : nat) :
  let plain := wrapper max_attempts delay should_retry on_retry sleep func in
  let counting :=
    wrapper max_attempts delay should_retry (uncounted_callback on_retry)
            (uncounted_sleep sleep) (counted func) in
  exists calls : nat,
    counting (s, n) = (fst (plain s), (snd (plain s), (n + calls)%nat))
    /\ Z.of_nat calls <= Z.max 0 max_attempts
    /\ (0 < max_attempts -> (0 < calls)%nat)
    /\ ((forall s0, exists e s1,
            func s0 = (inr e, s1) /\ should_retry e = true) ->
        (forall attempt, delay attempt <> None) ->
        (forall d s0, sleep d s0 <> None) ->
        Z.of_nat calls = Z.max 0 max_attempts
        /\ (0 < max_attempts -> exists e, fst (plain s) = Raise (FromFunc e))).
Proof.
  cbv zeta. unfold wrapper.
  destruct (attempts_counted (range 1 (max_attempts + 1)) None s n)
    as (k & Hk & Hpos & Hrun).
  exists k. fold run_counted. fold run. rewrite range_length in Hk.
  split; [exact Hrun|]. split; [lia|]. split.
  - intros Hmax. apply Hpos. rewrite range_cons by lia. discriminate.
  - intros Hfail Hdelay Hsleep.
    destruct (Z_lt_le_dec 0 max_attempts) as [Hmax | Hmax]; [|split; lia].
    destruct (attempts_counted_all_fail (Z.to_nat max_attempts)
                Hfail Hdelay Hsleep 1 None s n) as (e & s' & Hall);
      [lia | lia |].
    rewrite Hrun in Hall. injection Hall as Hout _ Hcount.
    split; [lia|]. intros _. now exists e.
Qed.

End RetryFacts.
(** ** The status of a booking in the sheet *)

Section SheetFacts.
Import Sheets.

Lemma nth_by_nth_error {A : Type} (l : list A) (d : A) :
  forall j, nth j l d = match nth_error l j with Some x => x | None => d end.
Proof.
  induction l as [|x l IH]; intros [|j]; cbn [nth nth_error];
    try reflexivity.
  apply IH.
Qed.

Lemma find_row_found (event_id : string) (rows : list Row) :
  forall (i : Z) (k : nat) (row : Row),
    nth_error rows k = Some row ->
    is_event_row event_id row = true ->
    (forall k' row', (k' < k)%nat ->
                                 nth_error rows k' = Some row' ->
                     is_event_row event_id row' = false) ->
    find_row event_id i rows = Some (i + Z.of_nat k, row).
Proof.
  induction rows as [|first rest IH]; intros i k row Hk Hrow Hbefore.
  - destruct k; discriminate Hk.
  - destruct k as [|k]; cbn [nth_error] in Hk; cbn [find_row].
    + injection Hk as ->. rewrite Hrow. f_equal. f_equal. lia.
    + rewrite (Hbefore 0%nat first); [|lia | reflexivity].
      rewrite (IH (i + 1) k row Hk Hrow).
      * f_equal. f_equal. lia.
      * intros k' row' Hlt Hk'. apply (Hbefore (S k') row'); [lia | exact Hk'].
Qed.

Lemma find_row_absent (event_id : string) (rows : list Row) :
  forall i : Z,
    (forall row, In row rows -> is_event_row event_id row = false) ->
    find_row event_id i rows = None.
Proof.
  induction rows as [|first rest IH]; intros i Hnone; cbn [find_row];
    [reflexivity|].
  rewrite (Hnone first (or_introl eq_refl)).
  apply IH. intros row Hin. apply Hnone. now right.
Qed.

Lemma set_cell_in_range (v : string) (row : Row) :
  forall i : nat,
    (i < List.length row)%nat ->
    exists row',
      set_cell i v row = Some row'
      /\ List.length row' = List.length row
      /\ nth_error row' i = Some v
      /\ forall j, j <> i -> nth_error row' j = nth_error row j.
Proof.
  induction row as [|c rest IH]; intros i Hi; cbn [List.length] in Hi;
    [lia|].
  destruct i as [|i]; cbn [set_cell].
  - exists (v :: rest). repeat split.
    intros [|j] Hj; [congruence | reflexivity].
  - destruct (IH i) as (rest' & -> & Hlen & Hat & Hother); [lia|].
    exists (c :: rest'). cbn [List.length nth_error].
    repeat split; [congruence | exact Hat |].
    intros [|j] Hj; [reflexivity|]. cbn [nth_error]. apply Hother. congruence.
Qed.

Lemma pad_cells (row : Row) :
  List.length (pad row) = Nat.max 10 (List.length row)
  /\ forall j, nth j (pad row) EmptyString = nth j row EmptyString.
Proof.
  unfold pad. split.
  - rewrite length_app, repeat_length. lia.
  - intros j. destruct (Nat.lt_ge_cases j (List.length row)) as [Hj | Hj].
    + now rewrite app_nth1.
    + rewrite app_nth2 by exact Hj. rewrite (nth_overflow row) by exact Hj.
      destruct (Nat.lt_ge_cases (j - List.length row)
                                (10 - List.length row)) as [Hin | Hout].
      * apply nth_repeat_lt. exact Hin.
      * apply nth_overflow. now rewrite repeat_length.
Qed.

Variables State Error : Type.
Variable get_all : State -> (option (list Row) + Error) * State.
Variable update : Z -> Row -> State -> (unit + Error) * State.
Variable sleep : Z -> State -> State.

(** X28: [update_booking_status] answers False without an update
    request when the read fails or no row after the header has the
    event id in column H.  Otherwise it sends one row, to the sheet row
    of the first match (the header is row 1): the row found, padded to
    ten cells, with the status in column G and the dated note in column
    J and every other cell as it was; the answer is whether that
    request went through. *)
Theorem status_update_rewrites_first_match
        (event_id new_status note now : string) (s : State) :
  let read := with_retries sleep get_all in
  let write i row := with_retries sleep (update i row) in
  let answer :=
    update_booking_status get_all update sleep event_id new_status note now
                          s in
  (forall e s1, read s = (Retry.Raise e, s1) -> answer = (false, s1))
  /\ (forall result s1,
         read s = (Retry.Return result, s1) ->
         let rows := tl (match result with Some v => v | None => [] end) in
         ((forall row, In row rows -> is_event_row event_id row = false) ->
          answer = (false, s1))
         /\ (forall k row,
                nth_error rows k = Some row ->
                is_event_row event_id row = true ->
                (forall k' row', (k' < k)%nat ->
                                 nth_error rows k' = Some row' ->
                                 is_event_row event_id row' = false) ->
                exists new_row,
                  answer
                  = (match fst (write (Z.of_nat k + 2) new_row s1) with
                     | Retry.Return _ => true
                     | Retry.Raise _ => false
                     end, snd (write (Z.of_nat k + 2) new_row s1))
                  /\ List.length new_row = Nat.max 10 (List.length row)
                  /\ nth_error new_row 6 = Some new_status
                  /\ nth_error new_row 9
                     = Some (note_with_date new_status note now)
                  /\ forall j, j <> 6%nat -> j <> 9%nat ->
                               nth j new_row EmptyString
                               = nth j row EmptyString)).
Proof.
  cbv zeta. unfold update_booking_status. split.
  - intros e s1 Hread. now rewrite Hread.
  - intros result s1 Hread. rewrite Hread. split.
    + intros Hnone.
      destruct (List.length _ <? 2)%nat; [reflexivity|].
      now rewrite find_row_absent.
    + intros k row Hk Hrow Hbefore.
      set (values := match result with Some v => v | None => [] end) in *.
      assert (Hlen : (List.length values <? 2)%nat = false).
      { apply Nat.ltb_ge. destruct values as [|header rows]; cbn [tl] in Hk.
        - destruct k; discriminate Hk.
        - pose proof (nth_error_Some rows k) as Hs. rewrite Hk in Hs.
          cbn [List.length]. assert (k < List.length rows)%nat; [|lia].
          apply Hs. discriminate. }
      rewrite Hlen, (find_row_found event_id _ 2 k row Hk Hrow Hbefore).
      destruct (pad_cells row) as [Hpad Hcells].
      destruct (set_cell_in_range new_status (pad row) 6)
        as (r1 & -> & Hlen1 & Hat1 & Hother1); [lia|].
      destruct (set_cell_in_range (note_with_date new_status note now) r1 9)
        as (r2 & -> & Hlen2 & Hat2 & Hother2); [lia|].
      exists r2. replace (2 + Z.of_nat k) with (Z.of_nat k + 2) by lia.
      split.
      { destruct (with_retries sleep (update _ r2) s1) as [[? | ?] s2];
          reflexivity. }
      split; [congruence|]. split.
      { rewrite Hother2 by lia. exact Hat1. }
      split; [exact Hat2|].
      intros j Hj6 Hj9. rewrite <- Hcells.
      rewrite !nth_by_nth_error. now rewrite Hother2, Hother1.
Qed.

End SheetFacts.
(** ** The keyboard of free slots *)

Section KeyboardFacts.
Import Keyboards.
Local Open Scope list_scope.

Lemma fill_rows_rows (columns : Z) (display_slots : list Calendar.Slot) :
  forall keyboard row,
  exists full rest,
    fill_rows columns display_slots keyboard row = (keyboard ++ full, rest)
    /\ List.concat full ++ rest = row ++ map SlotButton display_slots
    /\ Forall (fun r => Z.of_nat (List.length r) = columns /\ r <> []) full
    /\ (Z.of_nat (List.length row) < columns ->
        Z.of_nat (List.length rest) < columns)
    /\ (row = [] -> display_slots = [] -> rest = []).
Proof.
  induction display_slots as [|slot slots IH]; intros keyboard row;
    cbn [fill_rows map].
  - exists [], row. rewrite !app_nil_r. cbn [List.concat app].
    repeat split; auto.
  - cbv zeta.
    destruct (Z.of_nat (List.length (row ++ [SlotButton slot])) =? columns)
      eqn:Hfull.
    + apply Z.eqb_eq in Hfull.
      destruct (IH (keyboard ++ [row ++ [SlotButton slot]]) [])
        as (full & rest & Hrun & Hcat & Hall & Hrest & _).
      exists ((row ++ [SlotButton slot]) :: full), rest.
      rewrite Hrun, <- app_assoc. cbn [app List.concat].
      split; [reflexivity|]. split.
      { rewrite <- !app_assoc. cbn [app]. rewrite Hcat. reflexivity. }
      split.
      { constructor; [|assumption]. split; [exact Hfull|].
        intros Hnil. apply app_eq_nil in Hnil. destruct Hnil as [_ Hnil].
        discriminate Hnil. }
      split; [|intros _ H; discriminate H].
      intros _. apply Hrest. cbn [List.length].
      rewrite length_app in Hfull. cbn [List.length] in Hfull. lia.
    + apply Z.eqb_neq in Hfull.
      destruct (IH keyboard (row ++ [SlotButton slot]))
        as (full & rest & Hrun & Hcat & Hall & Hrest & _).
      exists full, rest. rewrite Hrun.
      split; [reflexivity|]. split.
      { rewrite Hcat, <- app_assoc. reflexivity. }
      split; [exact Hall|].
      split; [|intros _ H; discriminate H].
      intros Hrow. apply Hrest.
      rewrite length_app in Hfull |- *. cbn [List.length] in Hfull |- *.
      lia.
Qed.

Lemma slice_to_length {A : Type} (stop : Z) (l : list A) :
  (List.length (slice_to stop l) <= List.length l)%nat
  /\ ((List.length (slice_to stop l) < List.length l)%nat
      <-> (if stop <? 0 then l <> []
           else stop < Z.of_nat (List.length l))).
Proof.
  unfold slice_to. destruct (stop <? 0) eqn:Hneg.
  - apply Z.ltb_lt in Hneg. rewrite length_firstn. split; [lia|].
    destruct l as [|x l]; cbn [List.length]; split;
      [lia | congruence | discriminate | lia].
  - apply Z.ltb_ge in Hneg. rewrite length_firstn. lia.
Qed.

(** X29: the keyboard of [create_slots_keyboard] is the rows of slot
    buttons followed by one control row.  The slot rows hold the buttons
    of the shown slots, [slots[:max_slots]], in their order, none lost
    or repeated, and no row is empty; with a positive [columns] every
    row but the last has exactly [columns] buttons and the last at most
    that many, with [columns <= 0] all buttons are in one row.  The
    control row is the cancel button, preceded by the refresh button
    exactly when some slots are not shown. *)
Theorem slots_keyboard_layout (slots : list Calendar.Slot)
        (max_slots columns : Z) :
  let shown := slice_to max_slots slots in
  exists slot_rows control_row,
    create_slots_keyboard slots max_slots columns = slot_rows ++ [control_row]
    /\ List.concat slot_rows = map SlotButton shown
    /\ (forall row, In row slot_rows -> row <> [])
    /\ (0 < columns ->
        forall i row,
          nth_error slot_rows i = Some row ->
          Z.of_nat (List.length row) <= columns
          /\ ((S i < List.length slot_rows)%nat ->
              Z.of_nat (List.length row) = columns))
    /\ (columns <= 0 -> (List.length slot_rows <= 1)%nat)
    /\ control_row
       = (if (List.length shown <? List.length slots)%nat
          then [RefreshButton; CancelButton] else [CancelButton])
    /\ ((List.length shown < List.length slots)%nat
        <-> (if max_slots <? 0 then slots <> []
             else max_slots < Z.of_nat (List.length slots))).
Proof.
  cbv zeta. unfold create_slots_keyboard.
  set (shown := slice_to max_slots slots).
  destruct (fill_rows_rows columns shown [] [])
    as (full & rest & Hrun & Hcat & Hall & Hrest & _).
  rewrite Hrun. cbn [app] in Hcat |- *.
  exists (match rest with [] => full | _ => full ++ [rest] end),
         ((if (List.length shown <? List.length slots)%nat
           then [RefreshButton] else []) ++ [CancelButton]).
  split.
  { destruct (List.length shown <? List.length slots)%nat; reflexivity. }
  split.
  { rewrite <- Hcat. destruct rest; [now rewrite app_nil_r|].
    rewrite concat_app. cbn [List.concat]. now rewrite app_nil_r. }
  rewrite Forall_forall in Hall.
  assert (Hnonempty : forall row, In row full -> row <> []).
  { intros row Hin. now apply Hall. }
  split.
  { intros row Hin. destruct rest as [|b rest']; [now apply Hnonempty|].
    apply in_app_or in Hin. destruct Hin as [Hin | [<- | []]];
      [now apply Hnonempty | discriminate]. }
  split.
  { intros Hcols i row Hi.
    specialize (Hrest ltac:(cbn; lia)).
    destruct rest as [|b rest'].
    - assert (Hin : In row full) by (eapply nth_error_In; exact Hi).
      rewrite (proj1 (Hall row Hin)). split; [lia | reflexivity].
    - destruct (Nat.lt_ge_cases i (List.length full)) as [Hlt | Hge].
      + rewrite nth_error_app1 in Hi by exact Hlt.
        assert (Hin : In row full) by (eapply nth_error_In; exact Hi).
        rewrite (proj1 (Hall row Hin)). split; [lia | reflexivity].
      + rewrite nth_error_app2 in Hi by exact Hge.
        destruct (i - List.length full)%nat as [|d] eqn:Hd;
          cbn [nth_error] in Hi; [|destruct d; discriminate Hi].
        injection Hi as <-. split; [lia|].
        rewrite length_app. cbn [List.length]. lia. }
  split.
  { intros Hcols.
    assert (Hempty : full = []).
    { destruct full as [|row full']; [reflexivity|].
      pose proof (proj1 (Hall row (or_introl eq_refl))) as Hlen.
      pose proof (Hnonempty row (or_introl eq_refl)) as Hne.
      destruct row; [congruence | cbn [List.length] in Hlen; lia]. }
    subst full. destruct rest; cbn [List.length app]; lia. }
  split.
  { destruct (List.length shown <? List.length slots)%nat; reflexivity. }
  apply slice_to_length.
Qed.

End KeyboardFacts.
(** ** Concrete runs *)

Section BookingRunsWitnesses.
Import Time Io Db Calendar Booking Spec BookingTrace Samples.

(** A reschedule to 10:30-11:30 while 10:00-11:00 is busy. *)
Lemma refused_reschedule_loses_old_event_witness :
  book_slot (Config.defaults true) answering (fun _ => true) busy_morning
            accepting None (timedelta 0 10 30) (timedelta 0 11 30)
            "Anna" "anna" EmptyString (Some 42) (Some "old"%string) None None
            None world0
  = (Return (NotBooked SLOT_TAKEN),
     {| db := db world0;
        effects := effects world0
                   ++ [CalendarDelete "old";
                       CalendarList (timedelta 0 10 30)
                                    (timedelta 0 11 30)] |}).
Proof.
  apply (refused_reschedule_loses_old_event
           (Config.defaults true) answering (fun _ => true) busy_morning
           accepting None (timedelta 0 10 30) (timedelta 0 11 30)
           "Anna" "anna" EmptyString (Some 42) "old" None None None world0
           SLOT_TAKEN).
  - discriminate.
  - reflexivity.
  - reflexivity.
Defined.

(** A new booking of 10:00-11:00 in an empty calendar, with a sheet. *)
Lemma accepted_booking_trace_witness :
  exists lesson w',
    book_slot (Config.defaults true) answering (fun _ => true) free_calendar
              accepting (Some (fun _ => Some true))
              (timedelta 0 10 0) (timedelta 0 11 0)
              "Anna" "anna" EmptyString (Some 42) None None None None world0
    = (Return (Booked (Some "ev1"%string) EmptyString
                      (timedelta 0 10 0) (timedelta 0 11 0) None lesson), w')
    /\ List.length (effects w') = 3%nat.
Proof.
  destruct (accepted_booking_trace
              (Config.defaults true) answering (fun _ => true) free_calendar
              accepting (Some (fun _ => Some true))
              (timedelta 0 10 0) (timedelta 0 11 0)
              "Anna" "anna" EmptyString (Some 42) None None None None world0
              [] {| id := Some "ev1"%string; htmlLink := EmptyString |}
              eq_refl eq_refl eq_refl)
    as (lesson & w' & Hrun & Heff).
  exists lesson, w'. split; [exact Hrun|]. rewrite Heff. reflexivity.
Defined.

(** The same booking with no Telegram user id. *)
Lemma anonymous_booking_keeps_tables_witness :
  exists r w',
    book_slot (Config.defaults true) answering (fun _ => true) free_calendar
              accepting None (timedelta 0 10 0) (timedelta 0 11 0)
              "Anna" "anna" EmptyString None None None None None world0
    = (Return r, w')
    /\ db w' = db world0
    /\ lesson_id r = None.
Proof.
  apply (anonymous_booking_keeps_tables
           (Config.defaults true) answering (fun _ => true) free_calendar
           accepting None (timedelta 0 10 0) (timedelta 0 11 0)
           "Anna" "anna" EmptyString None None None None None world0).
  reflexivity.
Defined.

(** The booking of user 42, who has no child row yet, with an event
    that carries the id [ev1]. *)
Lemma accepted_booking_lesson_row_witness :
  exists w',
    book_slot (Config.defaults true) answering (fun _ => true) free_calendar
              accepting None (timedelta 0 10 0) (timedelta 0 11 0)
              "Anna" "anna" EmptyString (Some 42) None None None None world0
    = (Return (Booked (Some "ev1"%string) EmptyString
                      (timedelta 0 10 0) (timedelta 0 11 0) None None), w')
    /\ trial_lessons (db w') = []
    /\ exists c, hd_error (children (db w')) = Some c.
Proof.
  destruct (accepted_booking_lesson_row
              (Config.defaults true) answering (fun _ => true) free_calendar
              accepting None sample_healthy
              (timedelta 0 10 0) (timedelta 0 11 0)
              "Anna" "anna" EmptyString 42 None None None world0
              [] {| id := Some "ev1"%string; htmlLink := EmptyString |})
    as (p & c & stored & w' & Hrun & _ & Hchild & Hstored & Hlessons).
  - discriminate.
  - intros c [].
  - reflexivity.
  - reflexivity.
  - reflexivity.
  - reflexivity.
  - subst stored. exists w'. split; [exact Hrun|].
    split; [exact Hlessons|].
    destruct (children (db w')) as [|first rest]; [discriminate Hchild|].
    now exists first.
Defined.

(** Two bookings in a row, 10:00-11:00 and 12:00-13:00. *)
Lemma second_booking_reuses_parent_and_child_witness :
  exists r1 w1 r2 w2,
    book_slot (Config.defaults true) answering (fun _ => true) free_calendar
              accepting None (timedelta 0 10 0) (timedelta 0 11 0)
              "Anna" "anna" EmptyString (Some 42) None None None None world0
    = (Return r1, w1)
    /\ book_slot (Config.defaults true) answering (fun _ => true)
                 free_calendar accepting None
                 (timedelta 0 12 0) (timedelta 0 13 0)
                 "Anna" "anna" EmptyString (Some 42) None None None None w1
       = (Return r2, w2)
    /\ parents (db w2) = parents (db w1)
    /\ children (db w2) = children (db w1)
    /\ trial_lessons (db w2) = [].
Proof.
  destruct (second_booking_reuses_parent_and_child
              (Config.defaults true) answering (fun _ => true) free_calendar
              accepting None sample_healthy
              (timedelta 0 10 0) (timedelta 0 11 0)
              (timedelta 0 12 0) (timedelta 0 13 0)
              "Anna" "anna" EmptyString 42 None None None None world0
              [] []
              {| id := Some "ev1"%string; htmlLink := EmptyString |}
              {| id := Some "ev1"%string; htmlLink := EmptyString |})
    as (r1 & w1 & r2 & w2 & Hrun1 & Hrun2 & _ & _ & Hparents & Hchildren
        & Hids & _).
  - discriminate.
  - intros c [].
  - reflexivity.
  - reflexivity.
  - reflexivity.
  - reflexivity.
  - reflexivity.
  - reflexivity.
  - reflexivity.
  - destruct Hids as (_ & _ & Hlessons); [discriminate | discriminate |].
    exists r1, w1, r2, w2. repeat split; assumption.
Defined.

End BookingRunsWitnesses.
Section DatabaseRunsWitnesses.
Import Time Io Db SalesFunnel Spec Samples.

(** A lookup of user 42 with no database URL configured. *)
Lemma without_database_url_witness :
  get_or_create_parent (Config.defaults false) answering 42 None world0
  = (Return None, world0).
Proof.
  apply (without_database_url (Config.defaults false) answering 42 1 None
                              DialogHistory.user [] world0).
  reflexivity.
Defined.

(** User 7 looked up twice in a database that does not know them. *)
Lemma get_or_create_parent_idempotent_witness :
  exists p w1,
    get_or_create_parent (Config.defaults true) answering 7 None world0
    = (Return (Some p), w1)
    /\ get_or_create_parent (Config.defaults true) answering 7
                            (Some "seven"%string) w1
       = (Return (Some p), w1)
    /\ Parent.telegram_id p = 7.
Proof.
  destruct (get_or_create_parent_idempotent
              (Config.defaults true) answering sample_healthy 7 None
              (Some "seven"%string) world0)
    as (p & w1 & Hfirst & Hsecond & Hid & _).
  exists p, w1. split; [exact Hfirst|]. split; [exact Hsecond | exact Hid].
Defined.

(** A message of parent 1 saved and read back. *)
Lemma saved_message_is_loaded_last_witness :
  exists w1 earlier,
    save_dialog (Config.defaults true) answering 1 DialogHistory.user
                cyrillic_word world0
    = (Return tt, w1)
    /\ load_dialog (Config.defaults true) answering 1 w1
       = (Return (earlier
                  ++ [{| DialogHistory.parent_id := 1;
                         DialogHistory.role := DialogHistory.user;
                         DialogHistory.message := cyrillic_word |}]), w1).
Proof.
  destruct (saved_message_is_loaded_last
              (Config.defaults true) answering sample_healthy 1
              DialogHistory.user cyrillic_word world0)
    as (w1 & earlier & Hsave & Hload & _).
  exists w1, earlier. split; [exact Hsave | exact Hload].
Defined.

(** A message of user 42 before the end of onboarding. *)
Lemma not_onboarded_user_is_invited_witness :
  sample_handler sample_message world_newcomer
  = (Return tt,
     {| db := db world_newcomer;
        effects := effects world_newcomer ++ [Answer 42 OnboardingInvite] |}).
Proof.
  apply (proj1 (proj2 (not_onboarded_user_is_invited
                         (Config.defaults true) (fun _ => false)
                         (fun _ _ => true) None unit (fun _ => None)
                         (fun _ _ _ => []) (fun _ _ => false)
                         (fun _ => ret tt) (fun _ _ _ => ret tt)
                         sample_message world_newcomer eq_refl))
               sample_healthy sample_newcomer);
    reflexivity.
Defined.

(** A message of user 42 while reading the profile fails. *)
Lemma handler_error_branch_witness :
  handle_text_message
    (Config.defaults true)
    (fun op => match op with OpGetFullParentData => true | _ => false end)
    (fun _ _ => true) None unit (fun _ => None) (fun _ _ _ => [])
    (fun _ _ => false) (fun _ => ret tt) (fun _ _ _ => ret tt)
    sample_message world0
  = (Return tt,
     {| db := db world0;
        effects := effects world0
                   ++ [NotifyAdminOnError 42; Answer 42 Apology] |}).
Proof.
  apply (proj1 (handler_error_branch
                  (Config.defaults true)
                  (fun op => match op with
                             | OpGetFullParentData => true
                             | _ => false
                             end)
                  (fun _ _ => true) None unit (fun _ => None)
                  (fun _ _ _ => []) (fun _ _ => false)
                  (fun _ => ret tt) (fun _ _ _ => ret tt)
                  sample_message world0 eq_refl eq_refl));
    reflexivity.
Defined.

(** A message of user 42 that one template answers. *)
Lemma template_answer_run_witness :
  exists w',
    handle_text_message
      (Config.defaults true) (fun _ => false) (fun _ _ => true) None unit
      (fun _ => Some tt) (fun _ _ _ => cyrillic_word) (fun _ _ => false)
      (fun _ => ret tt) (fun _ _ _ => ret tt)
      sample_message world0
    = (Return tt, w')
    /\ effects w' = [Answer 42 (TemplateAnswer cyrillic_word)]
    /\ List.length (dialog_history (db w')) = 2%nat.
Proof.
  destruct (template_answer_run
              (Config.defaults true) (fun _ => false) (fun _ _ => true) None
              unit (fun _ => Some tt) (fun _ _ _ => cyrillic_word)
              (fun _ _ => false) (fun _ => ret tt) (fun _ _ _ => ret tt)
              sample_healthy sample_message world0 (sample_parent 0 false) 0
              tt eq_refl eq_refl eq_refl eq_refl eq_refl eq_refl)
    as (w' & Hrun & Heff & _ & Hdialog).
  exists w'. split; [exact Hrun|]. split; [exact Heff|].
  rewrite Hdialog. reflexivity.
Defined.

End DatabaseRunsWitnesses.
Section CalendarRunsWitnesses.
Import Time Calendar Samples.

(** One day asked for with a closing hour of 24. *)
Lemma free_slots_raises_on_bad_hour_witness :
  get_free_slots (Config.defaults true) free_calendar 0 1 None (Some 24)
                 false
  = None.
Proof.
  apply (proj2 (free_slots_raises_on_bad_hour
                  (Config.defaults true) free_calendar 0 1 None (Some 24)
                  false)).
  - reflexivity.
  - intros [_ Hend]. vm_compute in Hend. destruct Hend as [_ Hend].
    now apply Hend.
Defined.

End CalendarRunsWitnesses.

Section LayoutRunsWitnesses.
Import Llm Spec Samples.

(** The question [при]. *)
Lemma cyrillic_question_is_classified_once_witness :
  is_query_relevant_with_layout_correction
    (fun (_ : Text) (_ : unit) => true) cyrillic_word tt
  = (true, [cyrillic_word]).
Proof.
  apply (cyrillic_question_is_classified_once
           (fun (_ : Text) (_ : unit) => true) cyrillic_word tt);
    reflexivity.
Defined.

End LayoutRunsWitnesses.
Section UtilityRunsWitnesses.
Import Time Calendar Retry Sheets Keyboards Samples.
Local Open Scope list_scope.

(** The wrapper built with [max_attempts=0]. *)
Lemma retry_outcome_comes_from_a_call_witness :
  wrapper 0 no_delay (fun _ => true) None no_sleep always_failing tt
  = (Raise RaiseNone, tt).
Proof.
  apply (proj1 (retry_outcome_comes_from_a_call
                  unit unit unit unit 0 no_delay (fun _ => true) None
                  no_sleep always_failing tt)).
  discriminate.
Defined.

(** Three attempts at a function that always raises. *)
Lemma retry_calls_are_bounded_witness :
  exists calls,
    wrapper 3 no_delay (fun _ => true) (uncounted_callback None)
            (uncounted_sleep no_sleep) (counted always_failing) (tt, 0%nat)
    = (Raise (FromFunc tt), (tt, calls))
    /\ calls = 3%nat.
Proof.
  destruct (retry_calls_are_bounded
              unit unit unit unit 3 no_delay (fun _ => true) None no_sleep
              always_failing tt 0%nat)
    as (calls & Hrun & _ & _ & Hall).
  destruct Hall as [Hcalls _].
  - intros s0. exists tt, s0. split; reflexivity.
  - discriminate.
  - discriminate.
  - exists calls. split; [exact Hrun|].
    apply Nat2Z.inj. exact Hcalls.
Defined.

(** The booking of event [ev2] is cancelled: sheet row 3 is rewritten. *)
Lemma status_update_rewrites_first_match_witness :
  exists new_row,
    update_booking_status sheet_get_all sheet_update (fun _ s => s)
                          "ev2" "cancelled" EmptyString "03.01.2026 12:00"
                          []
    = (true, [(3, new_row)])
    /\ nth_error new_row 6 = Some "cancelled"%string
    /\ List.length new_row = 10%nat.
Proof.
  destruct (proj2 (status_update_rewrites_first_match
                     (list (Z * Row)) unit sheet_get_all sheet_update
                     (fun _ s => s) "ev2" "cancelled" EmptyString
                     "03.01.2026 12:00" [])
              (Some sheet_rows) [] eq_refl) as [_ Hfound].
  destruct (Hfound 1%nat
                   ["02.01"; "11:00"; "Olga"; "olga"; "2"; "py"; "created";
                    "ev2"]%string eq_refl eq_refl)
    as (new_row & Hanswer & Hlen & Hstatus & _).
  - intros [|k'] row' Hlt Hrow; [|lia].
    injection Hrow as <-. reflexivity.
  - exists new_row. split; [exact Hanswer|]. split; [exact Hstatus|].
    exact Hlen.
Defined.

(** Five slots shown four at most, two in a row. *)
Lemma slots_keyboard_layout_witness :
  exists slot_rows,
    create_slots_keyboard five_slots 4 2
    = slot_rows ++ [[RefreshButton; CancelButton]]
    /\ List.concat slot_rows = map SlotButton (firstn 4 five_slots)
    /\ List.length slot_rows = 2%nat.
Proof.
  destruct (slots_keyboard_layout five_slots 4 2)
    as (slot_rows & control_row & Hkeyboard & Hbuttons & _ & _ & _
        & Hcontrol & _).
  assert (Hrows : List.length (create_slots_keyboard five_slots 4 2) = 3%nat)
    by (vm_compute; reflexivity).
  exists slot_rows. rewrite Hkeyboard in Hrows |- *. rewrite Hcontrol.
  split; [reflexivity|]. split; [exact Hbuttons|].
  rewrite length_app in Hrows. cbn [List.length] in Hrows. lia.
Defined.

End UtilityRunsWitnesses.
